(** * Delay-prediction pipeline: feature builder, label builder, trainer,
      predictor and risk aggregator

    Shallow embedding of [python_analysis/data_loader.py],
    [python_analysis/delay_predictor.py] and the tables of
    [python_analysis/config.py].

    Modelling conventions.
    - A pandas cell is a [cell]: null (NaN / None / NaT), a number, a string
      or a Python list.  Floating-point numbers are modelled by exact
      rationals ([Q]); NaN is [Null].
    - A DataFrame is its ordered column index together with its rows; a row
      is a finite map from column names to cells.
    - Python exceptions are the [Raise] results of an error type; methods
      of [DelayPredictor] are state transformers on the object's attributes.
    - scikit-learn (scaler, random forests, [train_test_split]) and
      [json.loads] are outside the repository: they are taken abstractly,
      as the fields of the record [Sklearn] and as a function argument. *)

From Stdlib Require Import QArith Qminmax Qround Ascii String.
From stdpp Require Import gmap strings list fin_maps.

Open Scope string_scope.

(** ** Cells and rows *)

Inductive cell : Type :=
| Null
| Num (q : Q)
| Str (s : string)
| Lst (l : list string).

Abbreviation row := (gmap string cell).

Record DataFrame : Type := mkFrame {
  columns : list string;
  rows : list row
}.

Arguments Num q%_Q.

Definition at_col (r : row) (c : string) : cell := default Null (r !! c).

(** ** Exceptions *)

Inductive exn : Type :=
| KeyError
| MergeError
| ValueError
| TypeError
| IndexError
| NotFittedError.

Inductive result (A : Type) : Type :=
| Ok (a : A)
| Raise (e : exn).
Arguments Ok {A} a.
Arguments Raise {A} e.

Definition is_ok {A : Type} (r : result A) : bool :=
  match r with
  | Ok _ => true
  | Raise _ => false
  end.

Definition rbind {A B : Type} (m : result A) (k : A -> result B) : result B :=
  match m with
  | Ok a => k a
  | Raise e => Raise e
  end.

Notation "'try' x <- m ; k" := (rbind m (fun x => k))
  (at level 10, x name, m at level 100, k at level 200).

(** ** Numbers with NaN

    Numeric columns hold numbers or nulls.  Arithmetic propagates null;
    an operand that is not a number counts as null. *)

Definition is_null (c : cell) : bool :=
  match c with Null => true | _ => false end.

Definition as_num (c : cell) : option Q :=
  match c with Num q => Some q | _ => None end.

Definition of_num (o : option Q) : cell :=
  match o with Some q => Num q | None => Null end.

Definition cell_op (f : Q -> Q -> Q) (a b : cell) : cell :=
  match a, b with
  | Num x, Num y => Num (f x y)
  | _, _ => Null
  end.

Definition cell_add := cell_op Qplus.
Definition cell_sub := cell_op Qminus.
Definition cell_mul := cell_op Qmult.
Definition cell_div := cell_op Qdiv.

Definition Qgtb (x y : Q) : bool :=
  match (x ?= y)%Q with Gt => true | _ => false end.

Definition Qltb (x y : Q) : bool := Qgtb y x.

(** [a > b], [a < b] and [a == b] on cells: every comparison with NaN is
    false. *)
Definition cell_gt (a b : cell) : bool :=
  match a, b with Num x, Num y => Qgtb x y | _, _ => false end.

Definition cell_lt (a b : cell) : bool := cell_gt b a.

Definition cell_eqb (a b : cell) : bool :=
  match a, b with
  | Num x, Num y => Qeq_bool x y
  | Str s, Str t => bool_decide (s = t)
  | Lst l, Lst k => bool_decide (l = k)
  | _, _ => false
  end.

(** Python's builtin [min(a, b)]: [b] when [b < a], else [a]; and
    [max(a, b)]: [b] when [b > a], else [a]. *)
Definition py_min (a b : cell) : cell := if cell_lt b a then b else a.
Definition py_max (a b : cell) : cell := if cell_gt b a then b else a.

(** [numpy.clip] and [numpy.maximum] on numbers; [cell_clip] and
    [np_maximum] propagate NaN. *)
Definition clip (x lo hi : Q) : Q := Qmin (Qmax x lo) hi.

Definition cell_clip (c : cell) (lo hi : Q) : cell :=
  match c with Num x => Num (clip x lo hi) | _ => Null end.

Definition np_maximum (lo : Q) (c : cell) : cell :=
  match c with Num x => Num (Qmax lo x) | _ => Null end.

Definition fillna (v : cell) (c : cell) : cell :=
  if is_null c then v else c.

(** ** Series statistics *)

Definition non_null_nums (l : list cell) : list Q := omap as_num l.

Fixpoint insert_sorted (x : Q) (l : list Q) : list Q :=
  match l with
  | [] => [x]
  | y :: l' => if Qle_bool x y then x :: l else y :: insert_sorted x l'
  end.

Definition sort_nums (l : list Q) : list Q := foldr insert_sorted [] l.

(** [Series.median()]: nulls are skipped; NaN when nothing is left. *)
Definition median (l : list cell) : cell :=
  let s := sort_nums (non_null_nums l) in
  let n := length s in
  if Nat.even n then
    match n with
    | O => Null
    | _ => cell_div (cell_add (of_num (s !! (n / 2 - 1)%nat)) (of_num (s !! (n / 2)%nat))) (Num 2)
    end
  else of_num (s !! (n / 2)%nat).

Definition Qsum (l : list Q) : Q := foldr Qplus 0%Q l.

(** [Series.mean()]: nulls are skipped; NaN when nothing is left. *)
Definition mean (l : list cell) : cell :=
  match non_null_nums l with
  | [] => Null
  | s => Num (Qsum s / inject_Z (Z.of_nat (length s)))
  end.

(** ** DataFrames *)

Definition has_column (df : DataFrame) (c : string) : bool :=
  bool_decide (c ∈ columns df).

Definition series (df : DataFrame) (c : string) : list cell :=
  (fun r => at_col r c) <$> rows df.

(** [df[c]]: the column, or [KeyError]. *)
Definition column (df : DataFrame) (c : string) : result (list cell) :=
  if has_column df c then Ok (series df c) else Raise KeyError.

(** [df[c] = f(row)] for every row; a new column goes to the end of the
    column index. *)
Definition assign (df : DataFrame) (c : string) (f : row -> cell) : DataFrame :=
  {| columns := if has_column df c then columns df else columns df ++ [c];
     rows := (fun r => <[c := f r]> r) <$> rows df |}.

Definition restrict (cs : list string) (r : row) : row :=
  list_to_map ((fun c => (c, at_col r c)) <$> cs).

(** [df[[c1, ..., cn]]]: [KeyError] when a name is not a column. *)
Definition select (df : DataFrame) (cs : list string) : result DataFrame :=
  if forallb (has_column df) cs
  then Ok {| columns := cs; rows := restrict cs <$> rows df |}
  else Raise KeyError.

(** [df[mask]] with the mask computed row by row. *)
Definition where_rows (df : DataFrame) (p : row -> bool) : DataFrame :=
  {| columns := columns df; rows := List.filter p (rows df) |}.

(** Equality of join keys in [DataFrame.merge]: null keys match each
    other. *)
Definition key_eq (a b : cell) : bool :=
  match a, b with
  | Null, Null => true
  | _, _ => cell_eqb a b
  end.

(** Name of a right-hand column in the merged frame: a name that is also a
    left-hand column takes the right suffix (the left suffix is empty). *)
Definition suffixed (lcols : list string) (suffix c : string) : string :=
  if bool_decide (c ∈ lcols) then c ++ suffix else c.

Definition attach (lcols rcols : list string) (suffix : string)
    (l : row) (cells : string -> cell) : row :=
  foldl (fun acc c => <[suffixed lcols suffix c := cells c]> acc) l rcols.

(** [left.merge(right, left_on=.., right_on=.., how='left',
    suffixes=('', suffix))].  Every left row is kept, in order; it is
    repeated for each right row whose key matches, and gets nulls when none
    does.  Frames of the model have distinct column labels: a merge whose
    result would repeat a label raises. *)
Definition merge_left (left right : DataFrame)
    (left_on right_on suffix : string) : result DataFrame :=
  if negb (has_column left left_on && has_column right right_on) then Raise KeyError
  else
    let rcols := suffixed (columns left) suffix <$> columns right in
    if negb (bool_decide (NoDup (columns left ++ rcols))) then Raise MergeError
    else
      Ok {| columns := columns left ++ rcols;
            rows :=
              flat_map (fun l =>
                match List.filter (fun r => key_eq (at_col l left_on) (at_col r right_on))
                                  (rows right) with
                | [] => [attach (columns left) (columns right) suffix l (fun _ => Null)]
                | ms => (fun r => attach (columns left) (columns right) suffix l (at_col r)) <$> ms
                end) (rows left) |}.

Fixpoint mapM {A B : Type} (f : A -> result B) (l : list A) : result (list B) :=
  match l with
  | [] => Ok []
  | x :: l' => try y <- f x; try ys <- mapM f l'; Ok (y :: ys)
  end.

(** [df[c] = df.apply(f, axis=1)] (or [df[src].apply(f)]) with a function
    that may raise. *)
Definition assign_try (df : DataFrame) (c : string) (f : row -> result cell)
    : result DataFrame :=
  try rs <- mapM (fun r => try v <- f r; Ok (<[c := v]> r)) (rows df);
  Ok {| columns := if has_column df c then columns df else columns df ++ [c];
        rows := rs |}.

(** [Series.map(dict)]: a value that is not a key becomes NaN. *)
Definition map_dict (m : gmap string Q) (c : cell) : cell :=
  match c with
  | Str s => of_num (m !! s)
  | _ => Null
  end.

Definition num_of_nat (n : nat) : cell := Num (inject_Z (Z.of_nat n)).

(** A Python boolean used as a number. *)
Definition num_of_bool (b : bool) : cell := if b then Num 1 else Num 0.

(** [df[c] = f(df[s1], ..., df[sn])], row by row: [KeyError] when a source
    column is missing. *)
Definition derive (df : DataFrame) (c : string) (srcs : list string)
    (f : row -> cell) : result DataFrame :=
  if forallb (has_column df) srcs then Ok (assign df c f) else Raise KeyError.

(** The dictionary of frames the analysis works on: keys [users],
    [projects], [tasks], [teams] and [delay_alerts]. *)
Record Dataset : Type := mkDataset {
  users : DataFrame;
  projects : DataFrame;
  tasks : DataFrame;
  teams : DataFrame;
  delay_alerts : DataFrame
}.

(** * data_loader.py *)

Module DataLoader.

(** Timestamps are rationals counting days; [pd.to_datetime] keeps a
    timestamp or a null and rejects everything else. *)
Definition to_datetime (c : cell) : result cell :=
  match c with
  | Null | Num _ => Ok c
  | _ => Raise ValueError
  end.

Definition convert_datetime (c : string) (df : DataFrame) : result DataFrame :=
  if has_column df c then assign_try df c (fun r => to_datetime (at_col r c))
  else Raise KeyError.

(** [.dt.days] of a difference of timestamps: whole days, rounded down. *)
Definition dt_days (c : cell) : cell :=
  match c with
  | Num q => Num (inject_Z (Qfloor q))
  | _ => Null
  end.

(** [lambda x: len(json.loads(x)) if isinstance(x, str) else len(x) if x
    else 0].  [json_len s] stands for [len(json.loads(s))]. *)
Definition json_count (json_len : string -> result nat) (x : cell) : result cell :=
  match x with
  | Str s => try n <- json_len s; Ok (num_of_nat n)
  | Lst l => match l with [] => Ok (Num 0) | _ => Ok (num_of_nat (length l)) end
  | Null => Ok (Num 0)
  | Num q => if Qeq_bool q 0 then Ok (Num 0) else Raise TypeError
  end.

Definition role_mapping : gmap string Q :=
  list_to_map [("administrator", 4%Q); ("manager", 3%Q); ("leader", 2%Q); ("member", 1%Q)].

Definition process_users_data (df : DataFrame) : result DataFrame :=
  try df <- convert_datetime "created_at" df;
  if has_column df "role"
  then Ok (assign df "role_numeric" (fun r => map_dict role_mapping (at_col r "role")))
  else Raise KeyError.

Definition project_status_mapping : gmap string Q :=
  list_to_map [("planning", 1%Q); ("in_progress", 2%Q); ("delayed", 3%Q); ("completed", 4%Q)].

Definition process_projects_data (json_len : string -> result nat) (now : Q)
    (df : DataFrame) : result DataFrame :=
  try df <- convert_datetime "start_date" df;
  try df <- convert_datetime "end_date" df;
  try df <- convert_datetime "created_at" df;
  let df := assign df "duration_days"
              (fun r => dt_days (cell_sub (at_col r "end_date") (at_col r "start_date"))) in
  let df := assign df "days_elapsed"
              (fun r => dt_days (cell_sub (Num now) (at_col r "start_date"))) in
  let df := assign df "days_remaining"
              (fun r => dt_days (cell_sub (at_col r "end_date") (Num now))) in
  try df <- (if has_column df "domains"
             then assign_try df "domain_count" (fun r => json_count json_len (at_col r "domains"))
             else Ok df);
  if has_column df "status"
  then Ok (assign df "status_numeric" (fun r => map_dict project_status_mapping (at_col r "status")))
  else Raise KeyError.

Definition priority_mapping : gmap string Q :=
  list_to_map [("low", 1%Q); ("medium", 2%Q); ("high", 3%Q); ("critical", 4%Q)].

Definition task_status_mapping : gmap string Q :=
  list_to_map [("todo", 1%Q); ("in_progress", 2%Q); ("review", 3%Q);
               ("completed", 4%Q); ("delayed", 5%Q)].

(** [row.get(key, default)]. *)
Definition row_get (r : row) (k : string) (d : cell) : cell := default d (r !! k).

(** [min(row.get('actual_hours', 0) / max(row.get('estimated_hours', 1), 1), 2.0)] *)
Definition progress_ratio (r : row) : cell :=
  py_min (cell_div (row_get r "actual_hours" (Num 0))
                   (py_max (row_get r "estimated_hours" (Num 1)) (Num 1)))
         (Num 2.0).

Definition process_tasks_data (json_len : string -> result nat) (now : Q)
    (df : DataFrame) : result DataFrame :=
  try df <- convert_datetime "start_date" df;
  try df <- convert_datetime "due_date" df;
  try df <- convert_datetime "completed_date" df;
  try df <- convert_datetime "created_at" df;
  let df := assign df "planned_duration"
              (fun r => dt_days (cell_sub (at_col r "due_date") (at_col r "start_date"))) in
  let df := assign df "days_to_deadline"
              (fun r => dt_days (cell_sub (at_col r "due_date") (Num now))) in
  let df := assign df "is_overdue"
              (fun r => num_of_bool (cell_lt (at_col r "days_to_deadline") (Num 0))) in
  let df := assign df "actual_duration"
              (fun r => if negb (is_null (at_col r "completed_date"))
                        then dt_days (cell_sub (at_col r "completed_date") (at_col r "start_date"))
                        else Null) in
  let df := assign df "delay_days"
              (fun r => if negb (is_null (at_col r "completed_date"))
                        then np_maximum 0 (dt_days (cell_sub (at_col r "completed_date")
                                                             (at_col r "due_date")))
                        else np_maximum 0 (dt_days (cell_sub (Num now) (at_col r "due_date")))) in
  if negb (has_column df "priority") then Raise KeyError else
  let df := assign df "priority_numeric"
              (fun r => map_dict priority_mapping (at_col r "priority")) in
  if negb (has_column df "status") then Raise KeyError else
  let df := assign df "status_numeric"
              (fun r => map_dict task_status_mapping (at_col r "status")) in
  try df <- (if has_column df "dependencies"
             then assign_try df "dependency_count"
                    (fun r => json_count json_len (at_col r "dependencies"))
             else Ok df);
  Ok (assign df "progress_ratio" progress_ratio).

Definition process_teams_data (json_len : string -> result nat)
    (df : DataFrame) : result DataFrame :=
  try df <- convert_datetime "created_at" df;
  try df <- (if has_column df "member_ids"
             then assign_try df "team_size" (fun r => json_count json_len (at_col r "member_ids"))
             else Ok df);
  if has_column df "skills"
  then assign_try df "skill_count" (fun r => json_count json_len (at_col r "skills"))
  else Ok df.

Definition type_mapping : gmap string Q :=
  list_to_map [("minor", 1%Q); ("major", 2%Q); ("critical", 3%Q)].

Definition process_delay_alerts_data (df : DataFrame) : result DataFrame :=
  try df <- convert_datetime "created_at" df;
  if has_column df "type"
  then Ok (assign df "type_numeric" (fun r => map_dict type_mapping (at_col r "type")))
  else Raise KeyError.

(** [get_comprehensive_dataset], on the records the store (or the fallback
    generator) supplies: every frame goes through its processing step. *)
Definition get_comprehensive_dataset (json_len : string -> result nat) (now : Q)
    (source : Dataset) : result Dataset :=
  try u <- process_users_data (users source);
  try p <- process_projects_data json_len now (projects source);
  try t <- process_tasks_data json_len now (tasks source);
  try g <- process_teams_data json_len (teams source);
  try a <- process_delay_alerts_data (delay_alerts source);
  Ok {| users := u; projects := p; tasks := t; teams := g; delay_alerts := a |}.

End DataLoader.

(** * config.py *)

Definition PREDICTION_FEATURES : list string :=
  [ "estimated_hours"; "progress_ratio"; "dependency_count"; "team_size";
    "priority_numeric"; "domain_complexity_score"; "assignee_experience_score";
    "project_complexity_score";
    "task_complexity_score"; "description_length"; "title_length";
    "keyword_density"; "technical_keywords_count"; "sentiment_score";
    "sentiment_magnitude"; "urgency_score"; "risk_score";
    "historical_performance_score"; "team_collaboration_score";
    "resource_availability_score"; "time_pressure_score";
    "dependency_complexity"; "communication_frequency"; "change_frequency";
    "estimation_confidence"; "skill_match_score"; "workload_balance_score";
    "project_momentum"; "external_dependency_risk";
    "technology_stack_familiarity"; "deadline_proximity";
    "scope_creep_indicator"; "quality_gate_requirements" ].

Definition DELAY_THRESHOLDS : gmap string Q :=
  list_to_map [("minor", 1%Q); ("major", 3%Q); ("critical", 7%Q)].

(** [DELAY_THRESHOLDS[k]] for the three literal keys the code uses. *)
Definition threshold (k : string) : Q := default 0%Q (DELAY_THRESHOLDS !! k).

(** * delay_predictor.py: feature and label builders *)

Definition domain_complexity_mapping : gmap string Q :=
  list_to_map [("frontend", 20%Q); ("backend", 30%Q); ("mobile", 35%Q); ("testing", 15%Q);
               ("ui/ux", 25%Q); ("api", 30%Q); ("database", 40%Q); ("devops", 45%Q)].

Definition numeric_columns : list string :=
  [ "estimated_hours"; "progress_ratio"; "dependency_count";
    "team_size"; "priority_numeric"; "domain_complexity_score";
    "assignee_experience_score"; "project_complexity_score" ].

(** Body of the loop over [numeric_columns]. *)
Definition fill_missing (df : DataFrame) (col : string) : DataFrame :=
  if has_column df col then
    let m := median (series df col) in
    assign df col (fun r => fillna m (at_col r col))
  else if bool_decide (col = "team_size") then assign df col (fun _ => Num 3)
  else if bool_decide (col = "dependency_count") then assign df col (fun _ => Num 0)
  else if bool_decide (col = "progress_ratio") then assign df col (fun _ => Num 0.5)
  else assign df col (fun _ => fillna (Num 25) (Num 25)).

Definition prepare_features (data : Dataset) : result DataFrame :=
  let tasks_df := tasks data in
  let users_df := users data in
  let projects_df := projects data in
  let teams_df := teams data in
  try u <- select users_df ["id"; "role_numeric"];
  try features_df <- merge_left tasks_df u "assignee_id" "id" "_assignee";
  try p <- select projects_df ["id"; "status_numeric"; "duration_days"; "domain_count"];
  try features_df <- merge_left features_df p "project_id" "id" "_project";
  try t <- select teams_df ["id"; "team_size"; "skill_count"];
  try features_df <- merge_left features_df t "project_id" "id" "_team";
  try features_df <-
    derive features_df "assignee_experience_score" ["role_numeric"]
      (fun r => cell_mul (at_col r "role_numeric") (Num 25));
  try features_df <-
    derive features_df "project_complexity_score" ["duration_days"; "domain_count"]
      (fun r => cell_add (cell_mul (fillna (Num 30) (at_col r "duration_days")) (Num 0.1))
                         (cell_mul (fillna (Num 1) (at_col r "domain_count")) (Num 10)));
  try features_df <-
    derive features_df "domain_complexity_score" ["domain"]
      (fun r => fillna (Num 25) (map_dict domain_complexity_mapping (at_col r "domain")));
  Ok (foldl fill_missing features_df numeric_columns).

(** The three derived score columns of [prepare_features], on the merged
    frame. *)
Definition engineered (features_df : DataFrame) : DataFrame :=
  assign
    (assign
       (assign features_df "assignee_experience_score"
          (fun r => cell_mul (at_col r "role_numeric") (Num 25)))
       "project_complexity_score"
       (fun r => cell_add (cell_mul (fillna (Num 30) (at_col r "duration_days")) (Num 0.1))
                          (cell_mul (fillna (Num 1) (at_col r "domain_count")) (Num 10))))
    "domain_complexity_score"
    (fun r => fillna (Num 25) (map_dict domain_complexity_mapping (at_col r "domain"))).

(** The time-based columns of [_process_tasks_data], on the frame with
    converted timestamps. *)
Definition time_features (now : Q) (df : DataFrame) : DataFrame :=
  assign
    (assign
       (assign
          (assign
             (assign df "planned_duration"
                (fun r => DataLoader.dt_days
                            (cell_sub (at_col r "due_date") (at_col r "start_date"))))
             "days_to_deadline"
             (fun r => DataLoader.dt_days (cell_sub (at_col r "due_date") (Num now))))
          "is_overdue"
          (fun r => num_of_bool (cell_lt (at_col r "days_to_deadline") (Num 0))))
       "actual_duration"
       (fun r => if negb (is_null (at_col r "completed_date"))
                 then DataLoader.dt_days
                        (cell_sub (at_col r "completed_date") (at_col r "start_date"))
                 else Null))
    "delay_days"
    (fun r => if negb (is_null (at_col r "completed_date"))
              then np_maximum 0 (DataLoader.dt_days (cell_sub (at_col r "completed_date")
                                                             (at_col r "due_date")))
              else np_maximum 0 (DataLoader.dt_days (cell_sub (Num now)
                                                             (at_col r "due_date")))).

(** Bin edges of [pd.cut]. *)
Inductive edge : Type :=
| NegInf
| Edge (q : Q)
| PosInf.
Arguments Edge q%_Q.

Definition above (lo : edge) (v : Q) : bool :=
  match lo with NegInf => true | Edge q => Qltb q v | PosInf => false end.

Definition upto (v : Q) (hi : edge) : bool :=
  match hi with NegInf => false | Edge q => Qle_bool v q | PosInf => true end.

(** [pd.cut(x, bins, labels)] at one value, intervals closed on the right:
    the label of the bin [(lo, hi]] that holds the value, NaN when no bin
    does. *)
Fixpoint pd_cut (bins : list edge) (labels : list string) (v : Q) : cell :=
  match bins, labels with
  | lo :: (hi :: _) as bins', lab :: labels' =>
      if above lo v && upto v hi then Str lab else pd_cut bins' labels' v
  | _, _ => Null
  end.

Definition delay_bins : list edge :=
  [NegInf; Edge (threshold "minor"); Edge (threshold "major");
   Edge (threshold "critical"); PosInf].

Definition delay_labels : list string :=
  ["no_delay"; "minor_delay"; "major_delay"; "critical_delay"].

Definition delay_category_of (delay_days : cell) : cell :=
  match fillna (Num 0) delay_days with
  | Num v => pd_cut delay_bins delay_labels v
  | _ => Null
  end.

Definition is_delayed_of (delay_days : cell) : cell :=
  num_of_bool (cell_gt (fillna (Num 0) delay_days) (Num 0)).

Definition risk_score_of (delay_days priority_numeric progress_ratio : cell) : cell :=
  cell_clip
    (cell_add (cell_add (cell_mul (fillna (Num 0) delay_days) (Num 10))
                        (cell_mul priority_numeric (Num 15)))
              (cell_sub (Num 100) (cell_mul progress_ratio (Num 50))))
    0 100.

Definition create_delay_labels (features_df : DataFrame) : result DataFrame :=
  try features_df <-
    derive features_df "delay_category" ["delay_days"]
      (fun r => delay_category_of (at_col r "delay_days"));
  try features_df <-
    derive features_df "is_delayed" ["delay_days"]
      (fun r => is_delayed_of (at_col r "delay_days"));
  derive features_df "risk_score" ["delay_days"; "priority_numeric"; "progress_ratio"]
    (fun r => risk_score_of (at_col r "delay_days") (at_col r "priority_numeric")
                            (at_col r "progress_ratio")).

(** * scikit-learn, taken abstractly

    [fit] methods update the estimator object and may raise (the object the
    failed call leaves behind is part of the result); [transform],
    [predict], [predict_proba] and the fitted attributes only read it.
    A matrix is a list of rows; predictions of the forest are finite
    numbers. *)

Abbreviation matrix := (list (list cell)).
Abbreviation scaled := (list (list Q)).

Record Sklearn : Type := mkSklearn {
  scaler_t : Type;
  regressor_t : Type;
  classifier_t : Type;
  train_test_split :
    matrix -> list cell -> list cell ->
    result ((matrix * matrix) * (list cell * list cell) * (list cell * list cell));
  scaler_fit : scaler_t -> matrix -> scaler_t * result unit;
  scaler_transform : scaler_t -> matrix -> result scaled;
  regressor_fit : regressor_t -> scaled -> list cell -> regressor_t * result unit;
  regressor_predict : regressor_t -> scaled -> result (list Q);
  feature_importances_ : regressor_t -> result (list Q);
  classifier_fit : classifier_t -> scaled -> list cell -> classifier_t * result unit;
  classifier_predict : classifier_t -> scaled -> result (list cell);
  classifier_predict_proba : classifier_t -> scaled -> result (list (list Q));
  classes_ : classifier_t -> result (list cell);
  root_mean_squared_error : list cell -> list Q -> result Q
}.

(** * delay_predictor.py: the DelayPredictor object *)

(** The attributes of a [DelayPredictor] that its methods read or write. *)
Record DelayPredictor (sk : Sklearn) : Type := mkPredictor {
  delay_classifier : classifier_t sk;
  duration_predictor : regressor_t sk;
  scaler : scaler_t sk;
  feature_columns : list string;
  is_trained : bool
}.
Arguments mkPredictor {sk}.
Arguments delay_classifier {sk}.
Arguments duration_predictor {sk}.
Arguments scaler {sk}.
Arguments feature_columns {sk}.
Arguments is_trained {sk}.

(** A method body: it reads and updates [self] and returns or raises. *)
Definition method (S A : Type) : Type := S -> S * result A.

Definition ret {S A : Type} (a : A) : method S A := fun s => (s, Ok a).

Definition bind {S A B : Type} (m : method S A) (k : A -> method S B) : method S B :=
  fun s => match m s with
           | (s', Ok a) => k a s'
           | (s', Raise e) => (s', Raise e)
           end.

Definition lift {S A : Type} (r : result A) : method S A := fun s => (s, r).

Definition read {S A : Type} (f : S -> A) : method S A := fun s => (s, Ok (f s)).

Definition update {S : Type} (f : S -> S) : method S unit := fun s => (f s, Ok tt).

Notation "'do' x <- m ; k" := (bind m (fun x => k))
  (at level 10, x name, m at level 100, k at level 200).

(** A returned dictionary: [{"error": msg}] or the regular one. *)
Inductive report (A : Type) : Type :=
| ErrorDict (msg : string)
| Report (a : A).
Arguments ErrorDict {A} msg.
Arguments Report {A} a.

Definition is_report {A : Type} (r : result (report A)) : bool :=
  match r with
  | Ok (Report _) => true
  | _ => false
  end.

Record TrainingSummary : Type := mkTrainingSummary {
  duration_rmse : Q;
  feature_importance : list (string * Q);
  training_samples : nat;
  test_samples : nat;
  features_used : list string
}.

Record Prediction : Type := mkPrediction {
  predicted_delay_days : Q;
  predicted_category : cell;
  risk_score : Q;
  category_probabilities : list (cell * Q);
  recommendation : string
}.

(** The literal [default_values] table of [predict_task_delay]. *)
Definition default_values : gmap string Q :=
  list_to_map [("estimated_hours", 24%Q); ("progress_ratio", 0.5%Q);
               ("dependency_count", 0%Q); ("team_size", 3%Q);
               ("priority_numeric", 2%Q); ("domain_complexity_score", 25%Q);
               ("assignee_experience_score", 50%Q); ("project_complexity_score", 30%Q)].

(** One entry of the feature vector: the value given in [task_data], else
    [default_values.get(feature, 0)]. *)
Definition feature_value (task_data : gmap string cell) (feature : string) : cell :=
  match task_data !! feature with
  | Some v => v
  | None => Num (default 0%Q (default_values !! feature))
  end.

(** [a[0]] *)
Definition item0 {A : Type} (a : list A) : result A :=
  match a with
  | x :: _ => Ok x
  | [] => Raise IndexError
  end.

Definition get_recommendation (risk_score delay_days : Q) : string :=
  if Qgtb risk_score 80 then
    "Critical: Immediate intervention required. Consider reassigning resources or extending deadline."
  else if Qgtb risk_score 60 then
    "High Risk: Close monitoring needed. Review task dependencies and resource allocation."
  else if Qgtb risk_score 40 then
    "Medium Risk: Regular check-ins recommended. Consider preventive measures."
  else if Qgtb delay_days 0 then
    "Low Risk: Minor delays expected. Standard monitoring sufficient."
  else
    "On Track: Task progressing normally. Continue current approach.".

Section DelayPredictor.

Context {sk : Sklearn}.

Abbreviation self_t := (DelayPredictor sk).

Definition set_feature_columns (v : list string) (self : self_t) : self_t :=
  mkPredictor (delay_classifier self) (duration_predictor self) (scaler self)
              v (is_trained self).

Definition set_is_trained (v : bool) (self : self_t) : self_t :=
  mkPredictor (delay_classifier self) (duration_predictor self) (scaler self)
              (feature_columns self) v.

Definition set_scaler (v : scaler_t sk) (self : self_t) : self_t :=
  mkPredictor (delay_classifier self) (duration_predictor self) v
              (feature_columns self) (is_trained self).

Definition set_duration_predictor (v : regressor_t sk) (self : self_t) : self_t :=
  mkPredictor (delay_classifier self) v (scaler self)
              (feature_columns self) (is_trained self).

Definition set_delay_classifier (v : classifier_t sk) (self : self_t) : self_t :=
  mkPredictor v (duration_predictor self) (scaler self)
              (feature_columns self) (is_trained self).

(** [self.scaler.fit(X)], [self.duration_predictor.fit(X, y)],
    [self.delay_classifier.fit(X, y)]: the estimator held by [self] is the
    one the call leaves behind. *)
Definition self_scaler_fit (X : matrix) : method self_t unit :=
  fun self => let '(s, r) := scaler_fit sk (scaler self) X in (set_scaler s self, r).

Definition self_duration_predictor_fit (X : scaled) (y : list cell) : method self_t unit :=
  fun self =>
    let '(m, r) := regressor_fit sk (duration_predictor self) X y in
    (set_duration_predictor m self, r).

Definition self_delay_classifier_fit (X : scaled) (y : list cell) : method self_t unit :=
  fun self =>
    let '(m, r) := classifier_fit sk (delay_classifier self) X y in
    (set_delay_classifier m self, r).

Definition self_scaler_transform (X : matrix) : method self_t scaled :=
  fun self => (self, scaler_transform sk (scaler self) X).

(** [features_df[cols].fillna(0)] as a matrix. *)
Definition feature_matrix (features_df : DataFrame) (cols : list string) : result matrix :=
  try X <- select features_df cols;
  Ok ((fun r => (fun c => fillna (Num 0) (at_col r c)) <$> cols) <$> rows X).

(** [features_df[c].fillna(v)] *)
Definition filled_column (features_df : DataFrame) (c : string) (v : cell)
    : result (list cell) :=
  try l <- column features_df c; Ok (fillna v <$> l).

Definition train_models (data : Dataset) : method self_t (report TrainingSummary) :=
  do features_df <- lift (prepare_features data);
  do features_df <- lift (create_delay_labels features_df);
  let available_features := List.filter (has_column features_df) PREDICTION_FEATURES in
  do _ <- update (set_feature_columns available_features);
  do cols <- read feature_columns;
  if bool_decide (cols = []) then ret (ErrorDict "No valid features available") else
  do X <- lift (feature_matrix features_df cols);
  do y_delay_days <- lift (filled_column features_df "delay_days" (Num 0));
  do y_delay_category <- lift (filled_column features_df "delay_category" (Str "no_delay"));
  if (length X <? 10)%nat then ret (ErrorDict "Insufficient training data") else
  do parts <- lift (train_test_split sk X y_delay_days y_delay_category);
  let '((X_train, X_test), (y_delay_train, y_delay_test), (y_cat_train, y_cat_test)) := parts in
  do _ <- self_scaler_fit X_train;
  do X_train_scaled <- self_scaler_transform X_train;
  do X_test_scaled <- self_scaler_transform X_test;
  do _ <- self_duration_predictor_fit X_train_scaled y_delay_train;
  do _ <- self_delay_classifier_fit X_train_scaled y_cat_train;
  do duration_pred <- bind (read duration_predictor)
                        (fun m => lift (regressor_predict sk m X_test_scaled));
  do category_pred <- bind (read delay_classifier)
                        (fun m => lift (classifier_predict sk m X_test_scaled));
  do rmse <- lift (root_mean_squared_error sk y_delay_test duration_pred);
  do _ <- update (set_is_trained true);
  do cols <- read feature_columns;
  do importances <- bind (read duration_predictor)
                      (fun m => lift (feature_importances_ sk m));
  ret (Report {| duration_rmse := rmse;
                 feature_importance := zip cols importances;
                 training_samples := length X_train;
                 test_samples := length X_test;
                 features_used := cols |}).

Definition predict_task_delay (task_data : gmap string cell)
    : method self_t (report Prediction) :=
  do trained <- read is_trained;
  if negb trained then ret (ErrorDict "Model not trained yet") else
  do cols <- read feature_columns;
  let features := feature_value task_data <$> cols in
  do features_scaled <- self_scaler_transform [features];
  do predicted_delay_days <-
    bind (read duration_predictor)
      (fun m => lift (try a <- regressor_predict sk m features_scaled; item0 a));
  do predicted_category <-
    bind (read delay_classifier)
      (fun m => lift (try a <- classifier_predict sk m features_scaled; item0 a));
  do prediction_probabilities <-
    bind (read delay_classifier)
      (fun m => lift (try a <- classifier_predict_proba sk m features_scaled; item0 a));
  let risk_score := Qmin (Qmax (predicted_delay_days * 15) 0) 100 in
  do classes <- bind (read delay_classifier) (fun m => lift (classes_ sk m));
  ret (Report {| predicted_delay_days := Qmax 0 predicted_delay_days;
                 predicted_category := predicted_category;
                 risk_score := risk_score;
                 category_probabilities := zip classes prediction_probabilities;
                 recommendation := get_recommendation risk_score predicted_delay_days |}).

End DelayPredictor.

(** The object [__init__] builds, from the estimators and the scaler the
    scikit-learn constructors give: no feature columns, not trained. *)
Definition new_predictor {sk : Sklearn} (clf : classifier_t sk) (reg : regressor_t sk)
    (scl : scaler_t sk) : DelayPredictor sk :=
  mkPredictor clf reg scl [] false.

(** The objects on which no call of [train_models] has returned its
    summary yet: a new object, and what [train_models] calls that returned
    an error dictionary or raised, and [predict_task_delay] calls, leave of
    such an object. *)
Inductive untrained {sk : Sklearn} : DelayPredictor sk -> Prop :=
| untrained_new clf reg scl :
    untrained (new_predictor clf reg scl)
| untrained_train data self self' r :
    untrained self ->
    train_models data self = (self', r) ->
    is_report r = false ->
    untrained self'
| untrained_predict task_data self self' r :
    untrained self ->
    predict_task_delay task_data self = (self', r) ->
    untrained self'.

(** What a call [train_models data self] can leave and return: either the
    flag [is_trained] is as before and no summary is returned, or the flag
    is set.  In the second case the feature columns are the prediction
    features among the columns of the labelled table, which has ten rows or
    more; the table is split into a training and a test part, the targets
    being its [delay_days] and [delay_category] columns; the scaler and both
    estimators are those left by [fit] calls that returned, on the training
    part; and no summary is returned only when the feature importances
    raise. *)
Definition training_outcome {sk : Sklearn} (data : Dataset) (self : DelayPredictor sk)
    (out : DelayPredictor sk * result (report TrainingSummary)) : Prop :=
  let self' := out.1 in
  let r := out.2 in
  (is_trained self' = is_trained self /\ is_report r = false)
  \/ (is_trained self' = true
      /\ (is_report r = false ->
          is_ok (feature_importances_ sk (duration_predictor self')) = false)
      /\ exists features_df labeled X y_delay_days y_delay_category
                X_train X_test y_delay_train y_delay_test y_cat_train y_cat_test
                X_train_scaled,
           prepare_features data = Ok features_df
           /\ create_delay_labels features_df = Ok labeled
           /\ feature_columns self'
              = List.filter (has_column labeled) PREDICTION_FEATURES
           /\ (10 <= length (rows labeled))%nat
           /\ feature_matrix labeled (feature_columns self') = Ok X
           /\ filled_column labeled "delay_days" (Num 0) = Ok y_delay_days
           /\ filled_column labeled "delay_category" (Str "no_delay") = Ok y_delay_category
           /\ train_test_split sk X y_delay_days y_delay_category
              = Ok ((X_train, X_test), (y_delay_train, y_delay_test),
                    (y_cat_train, y_cat_test))
           /\ scaler_fit sk (scaler self) X_train = (scaler self', Ok tt)
           /\ scaler_transform sk (scaler self') X_train = Ok X_train_scaled
           /\ regressor_fit sk (duration_predictor self) X_train_scaled y_delay_train
              = (duration_predictor self', Ok tt)
           /\ classifier_fit sk (delay_classifier self) X_train_scaled y_cat_train
              = (delay_classifier self', Ok tt)).

(** scikit-learn: a forest whose [fit] has returned has feature
    importances. *)
Definition fitted_has_importances (sk : Sklearn) : Prop :=
  forall m X y m',
    regressor_fit sk m X y = (m', Ok tt) ->
    is_ok (feature_importances_ sk m') = true.

(** ** Risk aggregation *)

Record RiskAnalysis : Type := mkRiskAnalysis {
  total_tasks : nat;
  delayed_tasks : nat;
  average_delay_days : cell;
  high_risk_tasks : nat;
  delay_by_priority : list (cell * cell);
  delay_by_domain : list (cell * cell);
  tasks_by_status : list (cell * nat);
  critical_tasks : list row
}.

(** Truth value of the optional [project_id] argument. *)
Definition given (project_id : option string) : bool :=
  match project_id with
  | Some s => negb (bool_decide (s = ""))
  | None => false
  end.

(** [df[df['project_id'] == project_id]] when a project is given, else
    [df]. *)
Definition of_project (df : DataFrame) (project_id : option string) : result DataFrame :=
  if given project_id then
    if has_column df "project_id"
    then Ok (where_rows df (fun r => cell_eqb (at_col r "project_id")
                                              (Str (default "" project_id))))
    else Raise KeyError
  else Ok df.

(** [df.empty] *)
Definition empty_frame (df : DataFrame) : bool :=
  match rows df, columns df with
  | _ :: _, _ :: _ => false
  | _, _ => true
  end.

Definition count_rows (df : DataFrame) (p : row -> bool) : nat :=
  length (List.filter p (rows df)).

Fixpoint distinct (l : list cell) : list cell :=
  match l with
  | [] => []
  | x :: l' => x :: List.filter (fun y => negb (cell_eqb x y)) (distinct l')
  end.

(** The keys of [df.groupby(key)] and of [df[key].value_counts()]: the
    distinct non-null values.  A dictionary built from them is a list of
    entries; the order pandas gives the entries is not modelled. *)
Definition group_keys (df : DataFrame) (key : string) : list cell :=
  distinct (List.filter (fun c => negb (is_null c)) (series df key)).

(** [df.groupby(key)[val].mean().to_dict()] *)
Definition group_mean (df : DataFrame) (key val : string) : result (list (cell * cell)) :=
  if has_column df key && has_column df val then
    Ok ((fun k => (k, mean (series (where_rows df (fun r => cell_eqb (at_col r key) k)) val)))
          <$> group_keys df key)
  else Raise KeyError.

(** [df[key].value_counts().to_dict()] *)
Definition value_counts (df : DataFrame) (key : string) : result (list (cell * nat)) :=
  if has_column df key then
    Ok ((fun k => (k, count_rows df (fun r => cell_eqb (at_col r key) k))) <$> group_keys df key)
  else Raise KeyError.

Definition is_critical (r : row) : bool :=
  cell_gt (at_col r "risk_score") (Num 60)
  || cell_gt (at_col r "delay_days") (Num (threshold "major")).

Definition critical_columns : list string :=
  ["id"; "title"; "priority"; "status"; "delay_days"; "risk_score"].

Definition analyze_project_risks (data : Dataset) (project_id : option string)
    : result (report RiskAnalysis) :=
  try tasks_df <- of_project (tasks data) project_id;
  if empty_frame tasks_df then Ok (ErrorDict "No tasks found for analysis") else
  try features_df <- prepare_features data;
  try features_df <- create_delay_labels features_df;
  try features_df <- of_project features_df project_id;
  try delayed <- (if has_column features_df "is_delayed"
                  then Ok (count_rows features_df
                             (fun r => cell_eqb (at_col r "is_delayed") (Num 1)))
                  else Raise KeyError);
  try average <- (try l <- column features_df "delay_days"; Ok (mean l));
  try high_risk <- (if has_column features_df "risk_score"
                    then Ok (count_rows features_df
                               (fun r => cell_gt (at_col r "risk_score") (Num 70)))
                    else Raise KeyError);
  try by_priority <- group_mean features_df "priority" "delay_days";
  try by_domain <- group_mean features_df "domain" "delay_days";
  try by_status <- value_counts features_df "status";
  try critical <- select (where_rows features_df is_critical) critical_columns;
  Ok (Report {| total_tasks := length (rows features_df);
                delayed_tasks := delayed;
                average_delay_days := average;
                high_risk_tasks := high_risk;
                delay_by_priority := by_priority;
                delay_by_domain := by_domain;
                tasks_by_status := by_status;
                critical_tasks := rows critical |}).

(** * analysis_runner.py: the callers of the predictor *)

(** The text of an exception is not modelled: [str(e)] is the name of its
    class. *)
Definition str_exn (e : exn) : string :=
  match e with
  | KeyError => "KeyError"
  | MergeError => "MergeError"
  | ValueError => "ValueError"
  | TypeError => "TypeError"
  | IndexError => "IndexError"
  | NotFittedError => "NotFittedError"
  end.

(** One element of [self.predictions]: the dictionary [predict_task_delay]
    returned, with the four keys the runner adds. *)
Record PredictionEntry : Type := mkEntry {
  entry_result : report Prediction;
  task_id : cell;
  task_title : cell;
  current_status : cell;
  entry_priority : cell
}.

Record Recommendation : Type := mkRecommendation {
  rec_task_id : cell;
  rec_task_title : cell;
  rec_risk_score : option Q;
  rec_predicted_delay : option Q;
  rec_current_status : cell;
  rec_priority : cell;
  rec_recommendation : option string;
  actions : list string
}.

(** The attributes of an [AnalysisRunner] its methods read or write;
    [runner_data = None] stands for the empty dictionary [{}]. *)
Record AnalysisRunner (sk : Sklearn) : Type := mkRunner {
  runner_data : option Dataset;
  predictor : DelayPredictor sk;
  predictions : list PredictionEntry
}.
Arguments mkRunner {sk}.
Arguments runner_data {sk}.
Arguments predictor {sk}.
Arguments predictions {sk}.

(** The dictionary [task_data] the runner builds for one row of the task
    table. *)
Definition runner_task_data (task : row) : gmap string cell :=
  list_to_map
    [("estimated_hours", DataLoader.row_get task "estimated_hours" (Num 24));
     ("progress_ratio", DataLoader.row_get task "progress_ratio" (Num 0.5));
     ("dependency_count", DataLoader.row_get task "dependency_count" (Num 0));
     ("team_size", Num 3);
     ("priority_numeric", DataLoader.row_get task "priority_numeric" (Num 2));
     ("domain_complexity_score", Num 25);
     ("assignee_experience_score", Num 50);
     ("project_complexity_score", Num 30)].

(** [pred.get('risk_score', 0)] *)
Definition entry_risk_score (e : PredictionEntry) : Q :=
  match entry_result e with
  | Report p => risk_score p
  | ErrorDict _ => 0
  end.

Definition immediate_actions : list string :=
  ["Immediate manager intervention required";
   "Consider reassigning critical resources";
   "Review and potentially extend deadline";
   "Implement daily check-ins"].

Definition monitoring_actions : list string :=
  ["Increase monitoring frequency";
   "Review task dependencies";
   "Consider additional resources";
   "Implement risk mitigation plan"].

(** Body of the loop of [get_high_risk_recommendations]. *)
Definition recommend (task : PredictionEntry) : Recommendation :=
  let score := entry_risk_score task in
  {| rec_task_id := task_id task;
     rec_task_title := task_title task;
     rec_risk_score :=
       match entry_result task with Report p => Some (risk_score p) | ErrorDict _ => None end;
     rec_predicted_delay :=
       match entry_result task with
       | Report p => Some (predicted_delay_days p)
       | ErrorDict _ => None
       end;
     rec_current_status := current_status task;
     rec_priority := entry_priority task;
     rec_recommendation :=
       match entry_result task with
       | Report p => Some (recommendation p)
       | ErrorDict _ => None
       end;
     actions :=
       if Qgtb score 80 then immediate_actions
       else if Qgtb score 60 then monitoring_actions
       else [] |}.

Section AnalysisRunner.

Context {sk : Sklearn}.

Abbreviation runner_t := (AnalysisRunner sk).

Definition set_predictor (p : DelayPredictor sk) (self : runner_t) : runner_t :=
  mkRunner (runner_data self) p (predictions self).

Definition set_predictions (l : list PredictionEntry) (self : runner_t) : runner_t :=
  mkRunner (runner_data self) (predictor self) l.

(** [self.predictor.m(...)]: the call updates the predictor the runner
    holds. *)
Definition on_predictor {A : Type} (m : method (DelayPredictor sk) A) : method runner_t A :=
  fun self => let '(p, r) := m (predictor self) in (set_predictor p self, r).

(** [try: ... except Exception as e: return {"error": str(e)}] *)
Definition catching {S A : Type} (m : method S (report A)) : method S (report A) :=
  fun s =>
    match m s with
    | (s', Ok a) => (s', Ok a)
    | (s', Raise e) => (s', Ok (ErrorDict (str_exn e)))
    end.

Definition train_prediction_models : method runner_t (report TrainingSummary) :=
  fun self =>
    match runner_data self with
    | None => (self, Ok (ErrorDict "No data available"))
    | Some data => catching (on_predictor (train_models data)) self
    end.

(** Body of the loop of [generate_predictions_for_all_tasks]: a task whose
    prediction raises is skipped. *)
Definition predict_for_task (task : row) (acc : list PredictionEntry)
    : method (DelayPredictor sk) (list PredictionEntry) :=
  fun p =>
    match predict_task_delay (runner_task_data task) p with
    | (p', Ok prediction) =>
        (p', Ok (app acc [ {| entry_result := prediction;
                             task_id := DataLoader.row_get task "id" (Str "");
                             task_title := DataLoader.row_get task "title" (Str "Unknown Task");
                             current_status := DataLoader.row_get task "status" (Str "unknown");
                             entry_priority := DataLoader.row_get task "priority" (Str "medium") |} ]))
    | (p', Raise _) => (p', Ok acc)
    end.

Fixpoint predict_for_tasks (tasks : list row) (acc : list PredictionEntry)
    : method (DelayPredictor sk) (list PredictionEntry) :=
  match tasks with
  | [] => ret acc
  | task :: tasks' =>
      do acc' <- predict_for_task task acc;
      predict_for_tasks tasks' acc'
  end.

Definition generate_predictions_for_all_tasks : method runner_t (list PredictionEntry) :=
  fun self =>
    let self :=
      if negb (is_trained (predictor self)) then (train_prediction_models self).1 else self in
    if negb (is_trained (predictor self)) then (self, Ok []) else
    match runner_data self with
    | None => (self, Ok [])
    | Some data =>
        if empty_frame (tasks data) then (self, Ok []) else
        let '(p, r) := predict_for_tasks (rows (tasks data)) [] (predictor self) in
        match r with
        | Ok l => (set_predictions l (set_predictor p self), Ok l)
        | Raise e => (set_predictor p self, Raise e)
        end
    end.

(** The entry the prediction loop appends for a task row whose prediction
    is returned. *)
Definition entry_of (p : DelayPredictor sk) (task : row) (e : PredictionEntry) : Prop :=
  exists pr,
    (predict_task_delay (runner_task_data task) p).2 = Ok (Report pr)
    /\ entry_result e = Report pr
    /\ task_id e = DataLoader.row_get task "id" (Str "")
    /\ task_title e = DataLoader.row_get task "title" (Str "Unknown Task")
    /\ current_status e = DataLoader.row_get task "status" (Str "unknown")
    /\ entry_priority e = DataLoader.row_get task "priority" (Str "medium").

(** The runner's [analyze_project_risks]. *)
Definition runner_analyze_project_risks (project_id : option string)
    : method runner_t (report RiskAnalysis) :=
  fun self =>
    match runner_data self with
    | Some data =>
        catching (fun s => (s, analyze_project_risks data project_id)) self
    | None => (self, Ok (ErrorDict (str_exn KeyError)))
    end.

Definition get_high_risk_recommendations (self : runner_t) : list Recommendation :=
  match predictions self with
  | [] => []
  | _ =>
      recommend <$> List.filter (fun pred => Qgtb (entry_risk_score pred) 60) (predictions self)
  end.

End AnalysisRunner.

(** * A constant-predictor instance of the scikit-learn interface

    The scaler passes numbers through once fitted; the regressor predicts
    the mean of its training targets and the classifier the first training
    label; the split keeps the first three quarters for training. *)

Module ConstantModels.

Definition numeric_row (r : list cell) : result (list Q) :=
  mapM (fun c => match c with Num q => Ok q | _ => Raise ValueError end) r.

Definition split_at {A : Type} (l : list A) : list A * list A :=
  let k := (length l * 3 / 4)%nat in (take k l, drop k l).

Definition fit_scaler (s : bool) (X : matrix) : bool * result unit :=
  match mapM numeric_row X with
  | Ok _ => (true, Ok tt)
  | Raise e => (s, Raise e)
  end.

Definition transform (s : bool) (X : matrix) : result scaled :=
  if s then mapM numeric_row X else Raise NotFittedError.

Definition width (X : scaled) : nat :=
  match X with
  | r :: _ => length r
  | [] => O
  end.

Definition fit_regressor (m : option (Q * nat)) (X : scaled) (y : list cell)
    : option (Q * nat) * result unit :=
  match mean y with
  | Num q => (Some (q, width X), Ok tt)
  | _ => (m, Raise ValueError)
  end.

Definition predict_regressor (m : option (Q * nat)) (X : scaled) : result (list Q) :=
  match m with
  | Some (q, _) => Ok ((fun _ => q) <$> X)
  | None => Raise NotFittedError
  end.

Definition importances (m : option (Q * nat)) : result (list Q) :=
  match m with
  | Some (_, n) => Ok (replicate n (1 / inject_Z (Z.of_nat n))%Q)
  | None => Raise NotFittedError
  end.

Definition fit_classifier (m : option cell) (X : scaled) (y : list cell)
    : option cell * result unit :=
  match y with
  | c :: _ => (Some c, Ok tt)
  | [] => (m, Raise ValueError)
  end.

Definition predict_classifier (m : option cell) (X : scaled) : result (list cell) :=
  match m with
  | Some c => Ok ((fun _ => c) <$> X)
  | None => Raise NotFittedError
  end.

Definition predict_proba (m : option cell) (X : scaled) : result (list (list Q)) :=
  match m with
  | Some c => Ok ((fun _ => [1%Q]) <$> X)
  | None => Raise NotFittedError
  end.

Definition classes (m : option cell) : result (list cell) :=
  match m with
  | Some c => Ok [c]
  | None => Raise NotFittedError
  end.

Definition sklearn : Sklearn :=
  {| scaler_t := bool;
     regressor_t := option (Q * nat);
     classifier_t := option cell;
     train_test_split := fun X y c =>
       Ok (split_at X, split_at y, split_at c);
     scaler_fit := fit_scaler;
     scaler_transform := transform;
     regressor_fit := fit_regressor;
     regressor_predict := predict_regressor;
     feature_importances_ := importances;
     classifier_fit := fit_classifier;
     classifier_predict := predict_classifier;
     classifier_predict_proba := predict_proba;
     classes_ := classes;
     root_mean_squared_error := fun _ _ => Ok 0%Q |}.

(** The attributes [__init__] leaves: unfitted estimators, no feature
    columns, not trained. *)
Definition fresh : DelayPredictor sklearn :=
  @mkPredictor sklearn None None false [] false.

End ConstantModels.

(** * Sample records *)

Module Samples.

(** [len(json.loads(s))] for the JSON text the fallback records hold: an
    array of string literals without escapes.  Other text is rejected. *)
Definition quote : ascii := ascii_of_nat 34.
Definition backslash : ascii := ascii_of_nat 92.

Fixpoint skip_spaces (l : list ascii) : list ascii :=
  match l with
  | c :: l' => if bool_decide (c = " "%char) then skip_spaces l' else l
  | [] => []
  end.

(** The text after the closing quote of a literal. *)
Fixpoint after_literal (l : list ascii) : option (list ascii) :=
  match l with
  | [] => None
  | c :: l' =>
      if bool_decide (c = quote) then Some l'
      else if bool_decide (c = backslash) then None
      else after_literal l'
  end.

Fixpoint items (fuel : nat) (l : list ascii) (n : nat) : result nat :=
  match fuel with
  | O => Raise ValueError
  | S fuel' =>
      match skip_spaces l with
      | c :: l1 =>
          if bool_decide (c = quote) then
            match after_literal l1 with
            | Some l2 =>
                match skip_spaces l2 with
                | d :: l3 =>
                    if bool_decide (d = ","%char) then items fuel' l3 (S n)
                    else if bool_decide (d = "]"%char) then
                      match skip_spaces l3 with [] => Ok (S n) | _ => Raise ValueError end
                    else Raise ValueError
                | [] => Raise ValueError
                end
            | None => Raise ValueError
            end
          else Raise ValueError
      | [] => Raise ValueError
      end
  end.

Definition json_array_len (s : string) : result nat :=
  match skip_spaces (list_ascii_of_string s) with
  | c :: l =>
      if bool_decide (c = "["%char) then
        match skip_spaces l with
        | d :: l' =>
            if bool_decide (d = "]"%char)
            then match skip_spaces l' with [] => Ok O | _ => Raise ValueError end
            else items (length l) l O
        | [] => Raise ValueError
        end
      else Raise ValueError
  | [] => Raise ValueError
  end.

(** A JSON array of string literals, as text. *)
Definition json_array (l : list string) : string :=
  "[" ++ String.concat ", " ((fun s => String quote (s ++ String quote "")) <$> l) ++ "]".

(** A frame from its column index and one list of cells per record. *)
Definition frame (cols : list string) (records : list (list cell)) : DataFrame :=
  mkFrame cols ((fun cells => list_to_map (zip cols cells)) <$> records).

Definition today : Q := 20000.

(** The task table with one task in progress, due in ten days, with the
    given estimated and actual hours. *)
Definition task_rows (estimated_hours actual_hours : Q) : DataFrame :=
  frame ["id"; "title"; "description"; "status"; "priority"; "assignee_id";
         "project_id"; "domain"; "estimated_hours"; "actual_hours"; "start_date";
         "due_date"; "completed_date"; "dependencies"; "delay_reason"; "created_at"]
    [ [Str "task1"; Str "User Authentication System";
       Str "Description for User Authentication System"; Str "in_progress";
       Str "high"; Str "usr4"; Str "proj1"; Str "backend";
       Num estimated_hours; Num actual_hours;
       Num 19980; Num 20010; Null; Str "[]"; Null; Num 19970] ].

(** Records shaped like the fallback generator's: one team with two
    members and five skills, one project of that team, one task of that
    project.  Timestamps are day numbers. *)
Definition store : Dataset :=
  {| users :=
       frame ["id"; "email"; "name"; "role"; "created_at"]
         [ [Str "usr3"; Str "leader1@company.com"; Str "Sarah Johnson"; Str "leader"; Num 19750];
           [Str "usr4"; Str "mike@company.com"; Str "Mike Chen"; Str "member"; Num 19800] ];
     projects :=
       frame ["id"; "name"; "description"; "status"; "progress"; "start_date"; "end_date";
              "team_id"; "manager_id"; "domains"; "created_at"]
         [ [Str "proj1"; Str "E-commerce Redesign";
            Str "Complete redesign of e-commerce platform"; Str "in_progress"; Num 65;
            Num 19910; Num 20030; Str "team1"; Str "usr2";
            Str (json_array ["frontend"; "backend"; "ui/ux"]); Num 19900] ];
     tasks := task_rows 40 20;
     teams :=
       frame ["id"; "name"; "description"; "leader_id"; "member_ids"; "skills"; "created_at"]
         [ [Str "team1"; Str "Development Team Alpha"; Str "Primary development team";
            Str "usr3"; Str (json_array ["usr4"; "usr5"]);
            Str (json_array ["React"; "Node.js"; "TypeScript"; "UI/UX"; "Testing"]);
            Num 19800] ];
     delay_alerts :=
       frame ["id"; "type"; "title"; "message"; "task_id"; "project_id"; "is_resolved";
              "notification_sent"; "created_at"] [] |}.

(** Frames as the loader leaves them, with the columns the predictor
    reads. *)
Definition processed_users : DataFrame :=
  frame ["id"; "role"; "role_numeric"]
    [ [Str "usr3"; Str "leader"; Num 2]; [Str "usr4"; Str "member"; Num 1] ].

Definition processed_projects : DataFrame :=
  frame ["id"; "status"; "team_id"; "status_numeric"; "duration_days"; "domain_count"]
    [ [Str "proj1"; Str "in_progress"; Str "team1"; Num 2; Num 120; Num 3] ].

Definition processed_teams : DataFrame :=
  frame ["id"; "member_ids"; "skills"; "team_size"; "skill_count"]
    [ [Str "team1"; Lst ["usr4"; "usr5"];
       Lst ["React"; "Node.js"; "TypeScript"; "UI/UX"; "Testing"]; Num 2; Num 5] ].

Definition task_columns : list string :=
  ["id"; "title"; "status"; "priority"; "assignee_id"; "project_id"; "domain";
   "estimated_hours"; "actual_hours"; "delay_days"; "priority_numeric";
   "dependency_count"; "progress_ratio"].

(** A finished low-priority task of project proj1 that took twice its
    estimate, [delay] days late. *)
Definition task_record (id : string) (assignee : cell) (delay : Q) : list cell :=
  [Str id; Str "Security Audit"; Str "completed"; Str "low"; assignee; Str "proj1";
   Str "testing"; Num 10; Num 20; Num delay; Num 1; Num 0; Num 2].

Definition dataset_of (records : list (list cell)) : Dataset :=
  {| users := processed_users;
     projects := processed_projects;
     tasks := frame task_columns records;
     teams := processed_teams;
     delay_alerts := frame ["id"; "type"; "created_at"; "type_numeric"] [] |}.

Definition four_days_late : Dataset :=
  dataset_of [task_record "task1" (Str "usr4") 4].

Definition unassigned : Dataset :=
  dataset_of [task_record "task1" Null 0].

Definition twelve_tasks : Dataset :=
  dataset_of ((fun '(id, delay) => task_record id (Str "usr4") delay) <$>
    [("task1", 0%Q); ("task2", 0%Q); ("task3", 1%Q); ("task4", 2%Q); ("task5", 0%Q);
     ("task6", 3%Q); ("task7", 5%Q); ("task8", 0%Q); ("task9", 8%Q); ("task10", 0%Q);
     ("task11", 1%Q); ("task12", 4%Q)]).

(** Results of the pipeline on the samples. *)
Definition get {A : Type} (d : A) (r : result A) : A :=
  match r with
  | Ok a => a
  | Raise _ => d
  end.

Definition no_frame : DataFrame := mkFrame [] [].

Definition first_row (df : DataFrame) : row := hd ∅ (rows df).

Definition processed_tasks : DataFrame :=
  get no_frame (DataLoader.process_tasks_data json_array_len today (task_rows 40 20)).

Definition processed_half_hour : DataFrame :=
  get no_frame (DataLoader.process_tasks_data json_array_len today (task_rows 0.5 0.5)).

Definition no_dataset : Dataset :=
  mkDataset no_frame no_frame no_frame no_frame no_frame.

(** The sample store as the loader hands it over. *)
Definition loaded : Dataset :=
  get no_dataset (DataLoader.get_comprehensive_dataset json_array_len today store).

Definition features_of (data : Dataset) : DataFrame :=
  get no_frame (prepare_features data).

Definition labeled_of (data : Dataset) : DataFrame :=
  get no_frame (create_delay_labels (features_of data)).

Definition three_days_late : Dataset :=
  dataset_of [task_record "task1" (Str "usr4") 3].

Definition one_day_late : Dataset :=
  dataset_of [task_record "task1" (Str "usr4") 1].

(** The team table of the sample store as the loader leaves it. *)
Definition processed_team_table : DataFrame :=
  get no_frame (DataLoader.process_teams_data json_array_len (teams store)).

Definition report_of {A : Type} (d : A) (r : result (report A)) : A :=
  match r with
  | Ok (Report a) => a
  | _ => d
  end.

Definition no_analysis : RiskAnalysis := mkRiskAnalysis 0 0 Null 0 [] [] [] [].

Definition analysis_of (data : Dataset) : RiskAnalysis :=
  report_of no_analysis (analyze_project_risks data None).

(** A request body with one feature. *)
Definition request : gmap string cell := {[ "estimated_hours" := Num 16 ]}.

(** A predictor after a call of [train_models] on one task, and one after
    a call on twelve tasks, with the constant models. *)
Abbreviation refused :=
  ((train_models (sk := ConstantModels.sklearn) four_days_late ConstantModels.fresh).1).

Abbreviation trained :=
  ((train_models (sk := ConstantModels.sklearn) twelve_tasks ConstantModels.fresh).1).

Definition no_summary : TrainingSummary := mkTrainingSummary 0 [] 0 0 [].

Abbreviation summary :=
  (report_of no_summary
     (train_models (sk := ConstantModels.sklearn) twelve_tasks ConstantModels.fresh).2).

Definition no_prediction : Prediction := mkPrediction 0 Null 0 [] "".

Abbreviation prediction :=
  (report_of no_prediction (predict_task_delay request trained).2).

End Samples.

(** * Properties *)

(** ** Comparisons and Python's [min] and [max] *)

Lemma Qgtb_lt (x y : Q) : Qgtb x y = true <-> (y < x)%Q.
Proof.
  unfold Qgtb. rewrite Qlt_alt, <- Qcompare_antisym.
  destruct (y ?= x)%Q; simpl; split; congruence.
Qed.

Lemma Qgtb_le (x y : Q) : Qgtb x y = false <-> (x <= y)%Q.
Proof.
  unfold Qgtb. rewrite Qle_alt.
  destruct (x ?= y)%Q; split; congruence.
Qed.

Lemma py_max_num (a b : Q) : py_max (Num a) (Num b) = Num (Qmax a b).
Proof.
  unfold py_max, cell_gt, Qgtb, Qmax, GenericMinMax.gmax.
  rewrite <- Qcompare_antisym. by destruct (a ?= b)%Q.
Qed.

Lemma py_min_num (a b : Q) : py_min (Num a) (Num b) = Num (Qmin a b).
Proof.
  unfold py_min, cell_lt, cell_gt, Qgtb, Qmin, GenericMinMax.gmin.
  by destruct (a ?= b)%Q.
Qed.

Lemma clip_bounds (x : Q) : (0 <= clip x 0 100 <= 100)%Q.
Proof.
  unfold clip. split.
  - apply Q.min_glb; [apply Q.le_max_r | done].
  - apply Q.le_min_r.
Qed.

(** ** Frames *)

Lemma at_col_insert (r : row) (c : string) (v : cell) : at_col (<[c := v]> r) c = v.
Proof. unfold at_col. by rewrite lookup_insert_eq. Qed.

Lemma at_col_insert_ne (r : row) (c c' : string) (v : cell) :
  c <> c' -> at_col (<[c := v]> r) c' = at_col r c'.
Proof. intros. unfold at_col. by rewrite lookup_insert_ne. Qed.

Lemma elem_of_rows_assign (df : DataFrame) (c : string) (f : row -> cell) (r : row) :
  r ∈ rows (assign df c f) <-> exists r0, r0 ∈ rows df /\ r = <[c := f r0]> r0.
Proof.
  unfold assign; simpl. rewrite list_elem_of_fmap.
  split; intros (r0 & H1 & H2); exists r0; by split.
Qed.

Lemma derive_Ok (df out : DataFrame) (c : string) (srcs : list string) (f : row -> cell) :
  derive df c srcs f = Ok out -> out = assign df c f.
Proof. unfold derive. case_match; congruence. Qed.

Lemma rbind_Ok {A B : Type} (m : result A) (k : A -> result B) (b : B) :
  rbind m k = Ok b -> exists a, m = Ok a /\ k a = Ok b.
Proof. destruct m; simpl; [eauto | discriminate]. Qed.

(** Splits a hypothesis [try x <- m; k = Ok b] into its two steps. *)
Ltac step_ok H :=
  let a := fresh "a" in
  let Ha := fresh "Ha" in
  apply rbind_Ok in H; destruct H as (a & Ha & H).

(** ** Results on samples *)

Lemma get_Ok {A : Type} (d : A) (r : result A) :
  is_ok r = true -> r = Ok (Samples.get d r).
Proof. by destruct r. Qed.

Lemma first_row_elem (df : DataFrame) :
  length (rows df) <> O -> Samples.first_row df ∈ rows df.
Proof.
  unfold Samples.first_row. destruct (rows df); [done | left].
Qed.

Lemma report_of_Ok {A : Type} (d : A) (r : result (report A)) :
  is_report r = true -> r = Ok (Report (Samples.report_of d r)).
Proof. by destruct r as [[]|]. Qed.

(** ** Progress ratio *)

Lemma progress_ratio_num (r : row) (a e : Q) :
  r !! "actual_hours" = Some (Num a) ->
  r !! "estimated_hours" = Some (Num e) ->
  DataLoader.progress_ratio r = Num (Qmin (a / Qmax e 1) 2.0).
Proof.
  intros Ha He. unfold DataLoader.progress_ratio, DataLoader.row_get.
  rewrite Ha, He. simpl. by rewrite py_max_num, <- py_min_num.
Qed.

Lemma process_tasks_data_rows (json_len : string -> result nat) (now : Q)
    (df out : DataFrame) (r : row) :
  DataLoader.process_tasks_data json_len now df = Ok out ->
  r ∈ rows out ->
  exists r0, r = <["progress_ratio" := DataLoader.progress_ratio r0]> r0.
Proof.
  unfold DataLoader.process_tasks_data. intros H Hr.
  do 4 step_ok H.
  repeat (case_match; try discriminate);
    step_ok H; injection H as <-;
    apply elem_of_rows_assign in Hr; destruct Hr as (r0 & _ & ->); by exists r0.
Qed.

(** C4, as the code has it: with both hours present, the progress ratio of
    a processed task is [min(actual / max(estimated, 1), 2.0)]; it never
    exceeds 2, and it is [min(actual / estimated, 2.0)] once the estimate
    is at least one hour. *)
Theorem progress_ratio_guarded_cap (json_len : string -> result nat) (now : Q)
    (df out : DataFrame) (r : row) (a e : Q) :
  DataLoader.process_tasks_data json_len now df = Ok out ->
  r ∈ rows out ->
  r !! "actual_hours" = Some (Num a) ->
  r !! "estimated_hours" = Some (Num e) ->
  at_col r "progress_ratio" = Num (Qmin (a / Qmax e 1) 2.0)
  /\ (Qmin (a / Qmax e 1) 2.0 <= 2)%Q
  /\ ((1 <= e)%Q -> (Qmin (a / Qmax e 1) 2.0 == Qmin (a / e) 2.0)%Q).
Proof.
  intros H Hr Ha He.
  destruct (process_tasks_data_rows _ _ _ _ _ H Hr) as [r0 ->].
  rewrite lookup_insert_ne in Ha by done.
  rewrite lookup_insert_ne in He by done.
  rewrite at_col_insert. split; [by apply progress_ratio_num|]. split.
  - apply Qle_trans with (y := 2.0%Q); [apply Q.le_min_r | done].
  - intros Hle. by rewrite (Q.max_l e 1 Hle).
Qed.

Lemma progress_ratio_guarded_cap_witness :
  at_col (Samples.first_row Samples.processed_tasks) "progress_ratio"
  = Num (Qmin (20 / Qmax 40 1) 2.0).
Proof.
  assert (H : DataLoader.process_tasks_data Samples.json_array_len Samples.today
                (Samples.task_rows 40 20) = Ok Samples.processed_tasks)
    by (unfold Samples.processed_tasks; apply get_Ok; vm_compute; reflexivity).
  assert (Hr : Samples.first_row Samples.processed_tasks ∈ rows Samples.processed_tasks)
    by (apply first_row_elem; vm_compute; discriminate).
  assert (Ha : Samples.first_row Samples.processed_tasks !! "actual_hours" = Some (Num 20))
    by (vm_compute; reflexivity).
  assert (He : Samples.first_row Samples.processed_tasks !! "estimated_hours" = Some (Num 40))
    by (vm_compute; reflexivity).
  exact (proj1 (progress_ratio_guarded_cap _ _ _ _ _ _ _ H Hr Ha He)).
Defined.

(** C4 as stated fails when the estimate is below one hour: with half an
    hour estimated and half an hour worked the ratio is 1/2, and
    [min(actual / estimated, 2.0)] is 1. *)
Lemma progress_ratio_small_estimate :
  let out := Samples.processed_half_hour in
  let r := Samples.first_row out in
  DataLoader.process_tasks_data Samples.json_array_len Samples.today
    (Samples.task_rows 0.5 0.5) = Ok out
  /\ r ∈ rows out
  /\ r !! "actual_hours" = Some (Num 0.5)
  /\ r !! "estimated_hours" = Some (Num 0.5)
  /\ at_col r "progress_ratio" = Num (0.5 / 1)
  /\ ~ (0.5 / 1 == Qmin (0.5 / 0.5) 2.0)%Q.
Proof.
  split; [unfold Samples.processed_half_hour; apply get_Ok; vm_compute; reflexivity|].
  split; [apply first_row_elem; vm_compute; discriminate|].
  do 3 (split; [vm_compute; reflexivity|]).
  discriminate.
Qed.

(** ** Labels *)

Lemma create_delay_labels_rows (df out : DataFrame) (r : row) :
  create_delay_labels df = Ok out ->
  r ∈ rows out ->
  at_col r "delay_category" = delay_category_of (at_col r "delay_days")
  /\ at_col r "is_delayed" = is_delayed_of (at_col r "delay_days")
  /\ at_col r "risk_score" =
       risk_score_of (at_col r "delay_days") (at_col r "priority_numeric")
                     (at_col r "progress_ratio").
Proof.
  unfold create_delay_labels. intros H Hr.
  do 2 step_ok H.
  apply derive_Ok in Ha, Ha0, H. subst.
  apply elem_of_rows_assign in Hr. destruct Hr as (r2 & Hr2 & ->).
  apply elem_of_rows_assign in Hr2. destruct Hr2 as (r1 & Hr1 & ->).
  apply elem_of_rows_assign in Hr1. destruct Hr1 as (r0 & _ & ->).
  rewrite !at_col_insert.
  repeat (rewrite !at_col_insert_ne by done; rewrite ?at_col_insert).
  done.
Qed.

Lemma threshold_values :
  threshold "minor" = 1%Q /\ threshold "major" = 3%Q /\ threshold "critical" = 7%Q.
Proof. done. Qed.

Lemma delay_category_of_bucket (c : cell) (d : Q) :
  fillna (Num 0) c = Num d ->
  ((d <= 1)%Q -> delay_category_of c = Str "no_delay")
  /\ ((1 < d <= 3)%Q -> delay_category_of c = Str "minor_delay")
  /\ ((3 < d <= 7)%Q -> delay_category_of c = Str "major_delay")
  /\ ((7 < d)%Q -> delay_category_of c = Str "critical_delay").
Proof.
  intros Hd. unfold delay_category_of. rewrite Hd.
  unfold delay_bins, delay_labels.
  destruct threshold_values as (-> & -> & ->). simpl. unfold Qltb.
  destruct (Qle_bool d 1) eqn:E1; [apply Qle_bool_iff in E1 | apply not_true_iff_false in E1;
    rewrite Qle_bool_iff in E1; apply Qnot_le_lt in E1].
  { repeat split; intros; try done.
    - destruct H as [H _]. exfalso. apply (Qlt_irrefl 1). by apply Qlt_le_trans with (y := d).
    - destruct H as [H _]. exfalso. apply (Qlt_irrefl 1).
      apply Qlt_le_trans with (y := d); [|done]. by apply Qlt_trans with (y := 3%Q).
    - exfalso. apply (Qlt_irrefl 1).
      apply Qlt_le_trans with (y := d); [|done]. by apply Qlt_trans with (y := 7%Q). }
  apply Qgtb_lt in E1 as E1'. rewrite E1'. simpl.
  destruct (Qle_bool d 3) eqn:E3; [apply Qle_bool_iff in E3 | apply not_true_iff_false in E3;
    rewrite Qle_bool_iff in E3; apply Qnot_le_lt in E3].
  { repeat split; intros; try done.
    - exfalso. apply (Qlt_irrefl 1). by apply Qlt_le_trans with (y := d).
    - destruct H as [H _]. exfalso. apply (Qlt_irrefl 3). by apply Qlt_le_trans with (y := d).
    - exfalso. apply (Qlt_irrefl 3).
      apply Qlt_le_trans with (y := d); [|done]. by apply Qlt_trans with (y := 7%Q). }
  apply Qgtb_lt in E3 as E3'. rewrite E3'. simpl.
  destruct (Qle_bool d 7) eqn:E7; [apply Qle_bool_iff in E7 | apply not_true_iff_false in E7;
    rewrite Qle_bool_iff in E7; apply Qnot_le_lt in E7].
  { repeat split; intros; try done.
    - exfalso. apply (Qlt_irrefl 1). by apply Qlt_le_trans with (y := d).
    - destruct H as [_ H]. exfalso. apply (Qlt_irrefl 3). by apply Qlt_le_trans with (y := d).
    - exfalso. apply (Qlt_irrefl 7). by apply Qlt_le_trans with (y := d). }
  apply Qgtb_lt in E7 as E7'. rewrite E7'. simpl.
  repeat split; intros; try done.
  - exfalso. apply (Qlt_irrefl 1). by apply Qlt_le_trans with (y := d).
  - destruct H as [_ H]. exfalso. apply (Qlt_irrefl 3). by apply Qlt_le_trans with (y := d).
  - destruct H as [_ H]. exfalso. apply (Qlt_irrefl 7). by apply Qlt_le_trans with (y := d).
Qed.

(** C5: the delay category of a labelled row is a function of its
    [delay_days] cell (null counting as 0), bucketed into [(-inf, 1]],
    [(1, 3]], [(3, 7]] and [(7, inf)]; a value at a threshold falls into the
    lower bucket. *)
Theorem delay_category_buckets (df out : DataFrame) (r : row) (d : Q) :
  create_delay_labels df = Ok out ->
  r ∈ rows out ->
  fillna (Num 0) (at_col r "delay_days") = Num d ->
  at_col r "delay_category" = delay_category_of (at_col r "delay_days")
  /\ ((d <= 1)%Q -> at_col r "delay_category" = Str "no_delay")
  /\ ((1 < d <= 3)%Q -> at_col r "delay_category" = Str "minor_delay")
  /\ ((3 < d <= 7)%Q -> at_col r "delay_category" = Str "major_delay")
  /\ ((7 < d)%Q -> at_col r "delay_category" = Str "critical_delay")
  /\ ((d == 1)%Q -> at_col r "delay_category" = Str "no_delay")
  /\ ((d == 3)%Q -> at_col r "delay_category" = Str "minor_delay")
  /\ ((d == 7)%Q -> at_col r "delay_category" = Str "major_delay").
Proof.
  intros H Hr Hd.
  destruct (create_delay_labels_rows _ _ _ H Hr) as (-> & _).
  destruct (delay_category_of_bucket _ _ Hd) as (B1 & B2 & B3 & B4).
  split; [done|]. do 4 (split; [done|]).
  split; [|split]; intros E.
  - apply B1. by rewrite E.
  - apply B2. by rewrite E.
  - apply B3. by rewrite E.
Qed.

Lemma delay_category_buckets_witness :
  at_col (Samples.first_row (Samples.labeled_of Samples.three_days_late)) "delay_category"
  = Str "minor_delay".
Proof.
  assert (H : create_delay_labels (Samples.features_of Samples.three_days_late)
              = Ok (Samples.labeled_of Samples.three_days_late))
    by (unfold Samples.labeled_of; apply get_Ok; vm_compute; reflexivity).
  assert (Hr : Samples.first_row (Samples.labeled_of Samples.three_days_late)
               ∈ rows (Samples.labeled_of Samples.three_days_late))
    by (apply first_row_elem; vm_compute; discriminate).
  assert (Hd : fillna (Num 0)
                 (at_col (Samples.first_row (Samples.labeled_of Samples.three_days_late))
                         "delay_days") = Num 3)
    by (vm_compute; reflexivity).
  destruct (delay_category_buckets _ _ _ _ H Hr Hd) as (_ & _ & _ & _ & _ & _ & B3 & _).
  apply B3. reflexivity.
Defined.

(** ** Risk aggregation *)

Lemma cell_gt_num (c : cell) (t : Q) :
  cell_gt c (Num t) = true <-> exists x, c = Num x /\ (t < x)%Q.
Proof.
  destruct c; simpl; try (split; [discriminate | by intros (x & [=] & _)]).
  rewrite Qgtb_lt. split; [eauto | by intros (x & [= ->] & H)].
Qed.

Lemma is_critical_iff (r : row) :
  is_critical r = true <->
  (exists x, at_col r "risk_score" = Num x /\ (60 < x)%Q)
  \/ (exists d, at_col r "delay_days" = Num d /\ (3 < d)%Q).
Proof.
  unfold is_critical. rewrite orb_true_iff, !cell_gt_num.
  by destruct threshold_values as (_ & -> & _).
Qed.

(** C2, as the code has it: the critical tasks of a risk analysis are
    exactly the labelled rows in scope with [risk_score > 60] or
    [delay_days > 3] (the "major" threshold), in order and cut down to the
    six reported columns; [high_risk_tasks] counts the rows with
    [risk_score > 70]. *)
Theorem critical_tasks_major_threshold (data : Dataset) (project_id : option string)
    (ra : RiskAnalysis) :
  analyze_project_risks data project_id = Ok (Report ra) ->
  exists features_df labeled scoped,
    prepare_features data = Ok features_df
    /\ create_delay_labels features_df = Ok labeled
    /\ of_project labeled project_id = Ok scoped
    /\ critical_tasks ra = restrict critical_columns <$> List.filter is_critical (rows scoped)
    /\ (forall r, is_critical r = true <->
                  (exists x, at_col r "risk_score" = Num x /\ (60 < x)%Q)
                  \/ (exists d, at_col r "delay_days" = Num d /\ (3 < d)%Q))
    /\ high_risk_tasks ra
       = length (List.filter (fun r => cell_gt (at_col r "risk_score") (Num 70)) (rows scoped))
    /\ (forall r, cell_gt (at_col r "risk_score") (Num 70) = true <->
                  exists x, at_col r "risk_score" = Num x /\ (70 < x)%Q).
Proof.
  unfold analyze_project_risks. intros H.
  step_ok H. case_match; [discriminate|].
  step_ok H. step_ok H. step_ok H. rename a0 into features_df, a1 into labeled, a2 into scoped.
  do 7 step_ok H. injection H as <-. simpl.
  exists features_df, labeled, scoped. do 3 (split; [done|]).
  split.
  { unfold select in Ha9. case_match; [|discriminate]. by injection Ha9 as <-. }
  split; [apply is_critical_iff|].
  split; [|intros r; apply cell_gt_num].
  case_match; [|discriminate]. by injection Ha5 as <-.
Qed.

Lemma critical_tasks_major_threshold_witness :
  exists features_df labeled scoped,
    prepare_features Samples.four_days_late = Ok features_df
    /\ create_delay_labels features_df = Ok labeled
    /\ of_project labeled None = Ok scoped
    /\ critical_tasks (Samples.analysis_of Samples.four_days_late)
       = restrict critical_columns <$> List.filter is_critical (rows scoped)
    /\ high_risk_tasks (Samples.analysis_of Samples.four_days_late)
       = length (List.filter (fun r => cell_gt (at_col r "risk_score") (Num 70)) (rows scoped)).
Proof.
  assert (H : analyze_project_risks Samples.four_days_late None
              = Ok (Report (Samples.analysis_of Samples.four_days_late)))
    by (unfold Samples.analysis_of; apply report_of_Ok; vm_compute; reflexivity).
  destruct (critical_tasks_major_threshold _ _ _ H)
    as (f & l & s & H1 & H2 & H3 & H4 & _ & H5 & _).
  exists f, l, s. repeat split; assumption.
Defined.

(** C2 as stated fails: a finished low-priority task four days late that
    took twice its estimate has risk score 55 and is listed as critical,
    with neither [risk_score > 60] nor [delay_days > 7]. *)
Lemma critical_tasks_four_days_late :
  analyze_project_risks Samples.four_days_late None
  = Ok (Report (Samples.analysis_of Samples.four_days_late))
  /\ (fun r => (at_col r "id", at_col r "delay_days", at_col r "risk_score"))
       <$> critical_tasks (Samples.analysis_of Samples.four_days_late)
     = [(Str "task1", Num 4, Num 55)]
  /\ ~ (60 < 55)%Q
  /\ ~ (7 < 4)%Q.
Proof.
  split; [unfold Samples.analysis_of; apply report_of_Ok; vm_compute; reflexivity|].
  split; [vm_compute; reflexivity|].
  split; discriminate.
Qed.

(** ** Feature builder *)

(** C1 fails on the code: the team columns are merged on the task's
    [project_id] against the team's [id].  On the sample store the task
    belongs to project proj1, whose team team1 has two members and five
    skills, and the feature row of the task has null [team_size] and
    [skill_count]. *)
Theorem team_join_on_project_id :
  DataLoader.get_comprehensive_dataset Samples.json_array_len Samples.today Samples.store
  = Ok Samples.loaded
  /\ series (tasks Samples.loaded) "project_id" = [Str "proj1"]
  /\ series (projects Samples.loaded) "id" = [Str "proj1"]
  /\ series (projects Samples.loaded) "team_id" = [Str "team1"]
  /\ series (teams Samples.loaded) "id" = [Str "team1"]
  /\ series (teams Samples.loaded) "team_size" = [Num 2]
  /\ series (teams Samples.loaded) "skill_count" = [Num 5]
  /\ prepare_features Samples.loaded = Ok (Samples.features_of Samples.loaded)
  /\ series (Samples.features_of Samples.loaded) "id" = [Str "task1"]
  /\ series (Samples.features_of Samples.loaded) "team_size" = [Null]
  /\ series (Samples.features_of Samples.loaded) "skill_count" = [Null].
Proof.
  split; [unfold Samples.loaded; apply get_Ok; vm_compute; reflexivity|].
  do 6 (split; [vm_compute; reflexivity|]).
  split; [unfold Samples.features_of; apply get_Ok; vm_compute; reflexivity|].
  repeat split; vm_compute; reflexivity.
Qed.

Lemma median_all_null (l : list cell) :
  Forall (fun c => c = Null) l -> median l = Null.
Proof.
  intros H. unfold median.
  assert (non_null_nums l = []) as ->; [|done].
  unfold non_null_nums. induction H as [|c l -> _ IH]; [done|]. exact IH.
Qed.

(** A column that is present and entirely null stays entirely null in the
    loop over [numeric_columns]: its median is NaN. *)
Lemma fill_missing_all_null (df : DataFrame) (col : string) (r : row) :
  has_column df col = true ->
  Forall (fun r0 => at_col r0 col = Null) (rows df) ->
  r ∈ rows (fill_missing df col) ->
  at_col r col = Null.
Proof.
  intros Hc Hall Hr. unfold fill_missing in Hr. rewrite Hc in Hr.
  apply elem_of_rows_assign in Hr. destruct Hr as (r0 & Hr0 & ->).
  rewrite at_col_insert, median_all_null.
  - rewrite Forall_forall in Hall. by rewrite (Hall r0 Hr0).
  - unfold series. by rewrite Forall_fmap.
Qed.

(** C3 fails on the code: a canonical column that is entirely null keeps
    its nulls.  On the sample store [team_size] is null for the only task;
    for a single unassigned task [assignee_experience_score] and
    [team_size] are columns of the feature table and hold null. *)
Theorem null_features_remain :
  prepare_features Samples.loaded = Ok (Samples.features_of Samples.loaded)
  /\ has_column (Samples.features_of Samples.loaded) "team_size" = true
  /\ series (Samples.features_of Samples.loaded) "team_size" = [Null]
  /\ prepare_features Samples.unassigned = Ok (Samples.features_of Samples.unassigned)
  /\ has_column (Samples.features_of Samples.unassigned) "assignee_experience_score" = true
  /\ series (Samples.features_of Samples.unassigned) "assignee_experience_score" = [Null]
  /\ series (Samples.features_of Samples.unassigned) "team_size" = [Null].
Proof.
  split; [unfold Samples.features_of; apply get_Ok; vm_compute; reflexivity|].
  do 2 (split; [vm_compute; reflexivity|]).
  split; [unfold Samples.features_of; apply get_Ok; vm_compute; reflexivity|].
  repeat split; vm_compute; reflexivity.
Qed.

(** ** Trainer *)

Section Trainer.

Context {sk : Sklearn}.

Lemma has_column_assign (df : DataFrame) (c c' : string) (f : row -> cell) :
  has_column (assign df c f) c' = has_column df c' || bool_decide (c' = c).
Proof.
  unfold has_column at 1. unfold assign; simpl.
  destruct (has_column df c) eqn:Hc.
  - unfold has_column in *. apply bool_decide_eq_true in Hc.
    destruct (bool_decide (c' = c)) eqn:E.
    + apply bool_decide_eq_true in E. subst. rewrite orb_true_r. by apply bool_decide_eq_true.
    + by rewrite orb_false_r.
  - unfold has_column. apply eq_true_iff_eq.
    rewrite orb_true_iff, !bool_decide_eq_true, elem_of_app, list_elem_of_singleton. done.
Qed.

Lemma length_rows_assign (df : DataFrame) (c : string) (f : row -> cell) :
  length (rows (assign df c f)) = length (rows df).
Proof. unfold assign. cbn [rows]. apply length_fmap. Qed.

Lemma create_delay_labels_columns (df out : DataFrame) :
  create_delay_labels df = Ok out ->
  has_column out "delay_days" = true
  /\ has_column out "delay_category" = true
  /\ has_column out "risk_score" = true
  /\ length (rows out) = length (rows df).
Proof.
  unfold create_delay_labels. intros H. do 2 step_ok H.
  assert (Hd : has_column df "delay_days" = true).
  { unfold derive in Ha. simpl in Ha. by destruct (has_column df "delay_days"). }
  apply derive_Ok in Ha, Ha0, H. subst.
  rewrite !has_column_assign, Hd, !length_rows_assign.
  repeat split; try done.
  - rewrite (bool_decide_eq_true_2 ("delay_category" = "delay_category")) by done.
    by rewrite orb_true_r.
  - rewrite (bool_decide_eq_true_2 ("risk_score" = "risk_score")) by done.
    by rewrite orb_true_r.
Qed.

Lemma risk_score_available (labeled : DataFrame) :
  has_column labeled "risk_score" = true ->
  In "risk_score" (List.filter (has_column labeled) PREDICTION_FEATURES).
Proof.
  intros H. apply filter_In. split; [|done].
  apply list_elem_of_In. apply (bool_decide_unpack _). by vm_compute.
Qed.

Lemma feature_matrix_available (df : DataFrame) (l : list string) :
  exists X, feature_matrix df (List.filter (has_column df) l) = Ok X
            /\ length X = length (rows df).
Proof.
  unfold feature_matrix, select.
  assert (forallb (has_column df) (List.filter (has_column df) l) = true) as ->.
  { apply forallb_forall. intros c Hc. by apply filter_In in Hc as [_ ?]. }
  simpl. eexists. split; [done|]. by rewrite !length_fmap.
Qed.

Lemma filled_column_present (df : DataFrame) (c : string) (v : cell) :
  has_column df c = true ->
  filled_column df c v = Ok (fillna v <$> series df c).
Proof. intros H. unfold filled_column, column. by rewrite H. Qed.

Lemma train_models_insufficient (data : Dataset) (self : DelayPredictor sk)
    (features_df labeled : DataFrame) :
  prepare_features data = Ok features_df ->
  create_delay_labels features_df = Ok labeled ->
  (length (rows labeled) < 10)%nat ->
  train_models data self
  = (set_feature_columns (List.filter (has_column labeled) PREDICTION_FEATURES) self,
     Ok (ErrorDict "Insufficient training data")).
Proof.
  intros Hf Hl Hn.
  destruct (create_delay_labels_columns _ _ Hl) as (Hd & Hc & Hr & _).
  destruct (feature_matrix_available labeled PREDICTION_FEATURES) as (X & HX & HlenX).
  pose proof (risk_score_available _ Hr) as Hin.
  unfold train_models, bind, lift, update, read, ret.
  rewrite Hf, Hl. cbn [feature_columns set_feature_columns].
  rewrite bool_decide_eq_false_2 by (by intros E; rewrite E in Hin).
  rewrite HX, !filled_column_present by done.
  assert ((length X <? 10)%nat = true) as ->; [|done].
  apply Nat.ltb_lt. by rewrite HlenX.
Qed.

Ltac attributes :=
  cbn [delay_classifier duration_predictor scaler feature_columns is_trained
       set_feature_columns set_is_trained set_scaler set_duration_predictor
       set_delay_classifier].

Ltac unchanged := left; split; reflexivity.

Lemma train_models_outcome (data : Dataset) (self : DelayPredictor sk) :
  training_outcome data self (train_models data self).
Proof.
  unfold train_models, bind, lift, update, read, ret, self_scaler_fit,
    self_scaler_transform, self_duration_predictor_fit, self_delay_classifier_fit.
  destruct (prepare_features data) as [features_df|e] eqn:Hf; [|unchanged].
  destruct (create_delay_labels features_df) as [labeled|e] eqn:Hl; [|unchanged].
  pose proof (feature_matrix_available labeled PREDICTION_FEATURES) as (X & HX & HlenX).
  remember (List.filter (has_column labeled) PREDICTION_FEATURES) as cols eqn:Hcols.
  attributes.
  destruct (bool_decide (cols = [])); [unchanged|].
  rewrite HX.
  destruct (filled_column labeled "delay_days" (Num 0)) as [y_delay_days|e] eqn:Hyd;
    [|unchanged].
  destruct (filled_column labeled "delay_category" (Str "no_delay"))
    as [y_delay_category|e] eqn:Hyc; [|unchanged].
  destruct (length X <? 10)%nat eqn:Hlen; [unchanged|].
  assert (Hrows : (10 <= length (rows labeled))%nat)
    by (rewrite <- HlenX; apply Nat.ltb_ge; exact Hlen).
  destruct (train_test_split sk X y_delay_days y_delay_category)
    as [[[[X_train X_test] [y_delay_train y_delay_test]] [y_cat_train y_cat_test]]|e]
    eqn:Hsplit; [|unchanged].
  attributes.
  destruct (scaler_fit sk (scaler self) X_train) as [scl [[]|e]] eqn:Hscl; [|unchanged].
  attributes.
  destruct (scaler_transform sk scl X_train) as [X_train_scaled|e] eqn:Htr; [|unchanged].
  destruct (scaler_transform sk scl X_test) as [X_test_scaled|e]; [|unchanged].
  attributes.
  destruct (regressor_fit sk (duration_predictor self) X_train_scaled y_delay_train)
    as [reg [[]|e]] eqn:Hreg; [|unchanged].
  attributes.
  destruct (classifier_fit sk (delay_classifier self) X_train_scaled y_cat_train)
    as [clf [[]|e]] eqn:Hclf; [|unchanged].
  attributes.
  destruct (regressor_predict sk reg X_test_scaled) as [duration_pred|e]; [|unchanged].
  destruct (classifier_predict sk clf X_test_scaled) as [category_pred|e]; [|unchanged].
  destruct (root_mean_squared_error sk y_delay_test duration_pred) as [rmse|e];
    [|unchanged].
  destruct (feature_importances_ sk reg) as [importances|e] eqn:Himp;
    right; cbn [fst snd]; attributes;
    (split; [reflexivity|]);
    (split;
      [|exists features_df, labeled, X, y_delay_days, y_delay_category,
               X_train, X_test, y_delay_train, y_delay_test, y_cat_train, y_cat_test,
               X_train_scaled;
        exact (conj Hf (conj Hl (conj Hcols (conj Hrows (conj HX (conj Hyd (conj Hyc
                 (conj Hsplit (conj Hscl (conj Htr (conj Hreg Hclf)))))))))))]).
  - discriminate.
  - intros _. rewrite Himp. reflexivity.
Qed.

Lemma train_models_inv (data : Dataset) (self self' : DelayPredictor sk)
    (r : result (report TrainingSummary)) :
  train_models data self = (self', r) ->
  training_outcome data self (self', r).
Proof. intros <-. apply train_models_outcome. Qed.

(** ** Predictor *)

Lemma predict_task_delay_outcome (task_data : gmap string cell) (self : DelayPredictor sk) :
  (predict_task_delay task_data self).1 = self
  /\ (is_trained self = false ->
      (predict_task_delay task_data self).2 = Ok (ErrorDict "Model not trained yet"))
  /\ (forall p,
        (predict_task_delay task_data self).2 = Ok (Report p) ->
        is_trained self = true
        /\ exists features_scaled raw,
             scaler_transform sk (scaler self)
               [feature_value task_data <$> feature_columns self] = Ok features_scaled
             /\ (try a <- regressor_predict sk (duration_predictor self) features_scaled;
                 item0 a) = Ok raw
             /\ predicted_delay_days p = Qmax 0 raw
             /\ risk_score p = Qmin (Qmax (raw * 15) 0) 100
             /\ recommendation p = get_recommendation (risk_score p) raw).
Proof.
  unfold predict_task_delay, bind, lift, read, ret, self_scaler_transform.
  destruct (is_trained self); cbn [negb fst snd].
  2: { split; [reflexivity|]. split; [reflexivity|]. intros p [=]. }
  destruct (scaler_transform sk (scaler self)
              [feature_value task_data <$> feature_columns self])
    as [features_scaled|e] eqn:Htr; cbn [fst snd].
  2: { split; [reflexivity|]. split; [discriminate|]. intros p [=]. }
  destruct (try a <- regressor_predict sk (duration_predictor self) features_scaled; item0 a)
    as [raw|e] eqn:Hraw; cbn [fst snd].
  2: { split; [reflexivity|]. split; [discriminate|]. intros p [=]. }
  destruct (try a <- classifier_predict sk (delay_classifier self) features_scaled; item0 a)
    as [category|e]; cbn [fst snd].
  2: { split; [reflexivity|]. split; [discriminate|]. intros p [=]. }
  destruct (try a <- classifier_predict_proba sk (delay_classifier self) features_scaled;
            item0 a) as [probabilities|e]; cbn [fst snd].
  2: { split; [reflexivity|]. split; [discriminate|]. intros p [=]. }
  destruct (classes_ sk (delay_classifier self)) as [classes|e]; cbn [fst snd].
  2: { split; [reflexivity|]. split; [discriminate|]. intros p [=]. }
  split; [reflexivity|]. split; [discriminate|]. intros p [= <-].
  split; [reflexivity|]. exists features_scaled, raw. by repeat split.
Qed.

(** C6, as the code has it: when the labelled feature table has fewer than
    ten rows, [train_models] returns the "Insufficient training data" error
    dictionary without raising; on that error [is_trained], the scaler and
    both estimators are as before, and [feature_columns] has been
    overwritten with the prediction features found in the table.  For every
    call, [is_trained] turns from false to true only when the three [fit]
    calls have returned. *)
Theorem insufficient_data_reported (data : Dataset) (self : DelayPredictor sk)
    (features_df labeled : DataFrame) :
  prepare_features data = Ok features_df ->
  create_delay_labels features_df = Ok labeled ->
  (length (rows labeled) < 10)%nat ->
  (train_models data self).2 = Ok (ErrorDict "Insufficient training data")
  /\ (train_models data self).1
     = set_feature_columns (List.filter (has_column labeled) PREDICTION_FEATURES) self
  /\ is_trained (train_models data self).1 = is_trained self
  /\ scaler (train_models data self).1 = scaler self
  /\ duration_predictor (train_models data self).1 = duration_predictor self
  /\ delay_classifier (train_models data self).1 = delay_classifier self
  /\ (forall data0 self0 self' r,
        train_models data0 self0 = (self', r) ->
        is_trained self0 = false ->
        is_trained self' = true ->
        exists X_train X_train_scaled y_delay_train y_cat_train,
          scaler_fit sk (scaler self0) X_train = (scaler self', Ok tt)
          /\ scaler_transform sk (scaler self') X_train = Ok X_train_scaled
          /\ regressor_fit sk (duration_predictor self0) X_train_scaled y_delay_train
             = (duration_predictor self', Ok tt)
          /\ classifier_fit sk (delay_classifier self0) X_train_scaled y_cat_train
             = (delay_classifier self', Ok tt)).
Proof.
  intros Hf Hl Hn. rewrite (train_models_insufficient _ _ _ _ Hf Hl Hn).
  do 6 (split; [reflexivity|]).
  intros data0 self0 self' r H H0 H1.
  destruct (train_models_inv _ _ _ _ H)
    as [[E _] | (_ & _ & (f & l & X & yd & yc & X_train & X_test & y_delay_train & ydt
                          & y_cat_train & yct & X_train_scaled & Hfit))].
  - cbn [fst] in E. rewrite H0, H1 in E. discriminate.
  - exists X_train, X_train_scaled, y_delay_train, y_cat_train.
    cbn [fst] in Hfit. tauto.
Qed.

Lemma untrained_not_trained (self : DelayPredictor sk) :
  fitted_has_importances sk -> untrained self -> is_trained self = false.
Proof.
  intros Himp H.
  induction H as [clf reg scl | data self self' r _ IH Ht Hr | task_data self self' r _ IH Hp].
  - reflexivity.
  - destruct (train_models_inv _ _ _ _ Ht)
      as [[E _] | (_ & Hraise & (f & l & X & yd & yc & X_train & X_test & y_delay_train
                               & ydt & y_cat_train & yct & X_train_scaled & Hfit))].
    + cbn [fst] in E. by rewrite E.
    + cbn [fst snd] in *.
      destruct Hfit as (_ & _ & _ & _ & _ & _ & _ & _ & _ & _ & Hreg & _).
      apply Himp in Hreg. rewrite (Hraise Hr) in Hreg. discriminate.
  - pose proof (predict_task_delay_outcome task_data self) as (E & _).
    rewrite Hp in E. cbn [fst] in E. by subst.
Qed.

(** C7: on an object on which no [train_models] call has returned its
    summary, [predict_task_delay] returns the "Model not trained yet" error
    dictionary for every input, raises nothing and leaves the object as it
    is. *)
Theorem predict_before_training (self : DelayPredictor sk) (task_data : gmap string cell) :
  fitted_has_importances sk ->
  untrained self ->
  predict_task_delay task_data self = (self, Ok (ErrorDict "Model not trained yet")).
Proof.
  intros Himp H.
  pose proof (predict_task_delay_outcome task_data self) as (E1 & E2 & _).
  specialize (E2 (untrained_not_trained _ Himp H)).
  destruct (predict_task_delay task_data self) as [s r].
  cbn [fst snd] in *. by subst.
Qed.

Lemma clip_of_nonneg_part (raw : Q) :
  (Qmin (Qmax (raw * 15) 0) 100 == clip (15 * Qmax 0 raw) 0 100)%Q.
Proof.
  unfold clip.
  destruct (Qlt_le_dec raw 0) as [Hneg | Hpos].
  - assert (H1 : (raw * 15 <= 0)%Q).
    { apply Qle_trans with (y := (0 * 15)%Q); [|done].
      apply Qmult_le_compat_r; [by apply Qlt_le_weak | done]. }
    rewrite (Q.max_r _ _ H1), (Q.max_l 0 raw (Qlt_le_weak _ _ Hneg)).
    reflexivity.
  - rewrite (Q.max_r 0 raw Hpos), (Qmult_comm 15 raw). reflexivity.
Qed.

(** C8: a prediction that is returned has [predicted_delay_days >= 0] and
    [risk_score = clip(15 * predicted_delay_days, 0, 100)], which lies
    between 0 and 100. *)
Theorem prediction_bounds (self self' : DelayPredictor sk) (task_data : gmap string cell)
    (p : Prediction) :
  predict_task_delay task_data self = (self', Ok (Report p)) ->
  is_trained self = true
  /\ (0 <= predicted_delay_days p)%Q
  /\ (risk_score p == clip (15 * predicted_delay_days p) 0 100)%Q
  /\ (0 <= risk_score p <= 100)%Q.
Proof.
  intros H.
  pose proof (predict_task_delay_outcome task_data self) as (_ & _ & E).
  rewrite H in E. destruct (E p eq_refl) as (Ht & Xs & raw & _ & _ & Hd & Hr & _).
  split; [exact Ht|]. rewrite Hd, Hr. split; [apply Q.le_max_l|].
  split; [apply clip_of_nonneg_part|]. apply clip_bounds.
Qed.

(** C9: [predict_task_delay] leaves the object as it is (scaler,
    estimators, feature columns and flag); what it returns comes from the
    [transform] of the scaler the object holds, applied to the assembled
    feature vector, and from the regressor's prediction on the result; a
    second call with the same input returns the same. *)
Theorem predict_never_refits (self : DelayPredictor sk) (task_data : gmap string cell) :
  (predict_task_delay task_data self).1 = self
  /\ (forall p,
        (predict_task_delay task_data self).2 = Ok (Report p) ->
        exists features_scaled raw,
          scaler_transform sk (scaler self)
            [feature_value task_data <$> feature_columns self] = Ok features_scaled
          /\ (try a <- regressor_predict sk (duration_predictor self) features_scaled;
              item0 a) = Ok raw
          /\ predicted_delay_days p = Qmax 0 raw)
  /\ predict_task_delay task_data (predict_task_delay task_data self).1
     = predict_task_delay task_data self.
Proof.
  pose proof (predict_task_delay_outcome task_data self) as (E & _ & Hp).
  split; [exact E|]. split; [|by rewrite E].
  intros p H. destruct (Hp p H) as (_ & Xs & raw & H1 & H2 & H3 & _).
  by exists Xs, raw.
Qed.





End Trainer.

(** ** The trainer and the predictor on the samples *)

Lemma pair_of {A B : Type} (x : A * B) (a : A) (b : B) :
  x.1 = a -> x.2 = b -> x = (a, b).
Proof. destruct x. simpl. by intros -> ->. Qed.

Lemma constant_models_importances : fitted_has_importances ConstantModels.sklearn.
Proof.
  intros m X y m' H. cbn in H. unfold ConstantModels.fit_regressor in H.
  destruct (mean y); try discriminate. by injection H as <-.
Qed.

Lemma untrained_refused : untrained Samples.refused.
Proof.
  apply (untrained_train Samples.four_days_late ConstantModels.fresh _
           (train_models Samples.four_days_late ConstantModels.fresh).2).
  - apply (untrained_new (sk := ConstantModels.sklearn)).
  - by apply pair_of.
  - vm_compute. reflexivity.
Qed.

Lemma insufficient_data_reported_witness :
  (train_models Samples.four_days_late ConstantModels.fresh).2
  = Ok (ErrorDict "Insufficient training data")
  /\ is_trained (train_models Samples.four_days_late ConstantModels.fresh).1
     = is_trained ConstantModels.fresh.
Proof.
  assert (Hf : prepare_features Samples.four_days_late
               = Ok (Samples.features_of Samples.four_days_late))
    by (unfold Samples.features_of; apply get_Ok; vm_compute; reflexivity).
  assert (Hl : create_delay_labels (Samples.features_of Samples.four_days_late)
               = Ok (Samples.labeled_of Samples.four_days_late))
    by (unfold Samples.labeled_of; apply get_Ok; vm_compute; reflexivity).
  assert (Hn : (length (rows (Samples.labeled_of Samples.four_days_late)) < 10)%nat)
    by (apply Nat.ltb_lt; vm_compute; reflexivity).
  destruct (insufficient_data_reported Samples.four_days_late ConstantModels.fresh
              _ _ Hf Hl Hn) as (H1 & _ & H3 & _).
  split; assumption.
Defined.

(** C6 as stated fails: the call that reports insufficient data on one
    task has overwritten [feature_columns], empty before, with nine
    names. *)
Lemma insufficient_data_overwrites_feature_columns :
  (train_models Samples.four_days_late ConstantModels.fresh).2
  = Ok (ErrorDict "Insufficient training data")
  /\ feature_columns ConstantModels.fresh = []
  /\ feature_columns (train_models Samples.four_days_late ConstantModels.fresh).1
     = ["estimated_hours"; "progress_ratio"; "dependency_count"; "team_size";
        "priority_numeric"; "domain_complexity_score"; "assignee_experience_score";
        "project_complexity_score"; "risk_score"]
  /\ (train_models Samples.four_days_late ConstantModels.fresh).1 <> ConstantModels.fresh.
Proof.
  split; [vm_compute; reflexivity|]. split; [reflexivity|].
  split; [vm_compute; reflexivity|].
  intros E. apply (f_equal feature_columns) in E. vm_compute in E. discriminate.
Qed.

Lemma predict_before_training_witness :
  predict_task_delay Samples.request Samples.refused
  = (Samples.refused, Ok (ErrorDict "Model not trained yet")).
Proof.
  apply predict_before_training;
    [exact constant_models_importances | exact untrained_refused].
Defined.

Lemma sample_prediction :
  predict_task_delay Samples.request Samples.trained
  = (Samples.trained, Ok (Report Samples.prediction)).
Proof.
  apply pair_of; [apply predict_task_delay_outcome|].
  apply report_of_Ok. vm_compute. reflexivity.
Qed.

Lemma prediction_bounds_witness :
  (0 <= predicted_delay_days Samples.prediction)%Q
  /\ (risk_score Samples.prediction
      == clip (15 * predicted_delay_days Samples.prediction) 0 100)%Q
  /\ (0 <= risk_score Samples.prediction <= 100)%Q.
Proof.
  destruct (prediction_bounds _ _ _ _ sample_prediction) as (_ & H1 & H2 & H3).
  exact (conj H1 (conj H2 H3)).
Defined.

Lemma predict_never_refits_witness :
  (predict_task_delay Samples.request Samples.trained).1 = Samples.trained
  /\ exists features_scaled,
       scaler_transform ConstantModels.sklearn (scaler Samples.trained)
         [feature_value Samples.request <$> feature_columns Samples.trained]
       = Ok features_scaled.
Proof.
  destruct (predict_never_refits Samples.trained Samples.request) as (H1 & H2 & _).
  split; [exact H1|].
  destruct (H2 Samples.prediction (f_equal snd sample_prediction)) as (Xs & raw & H & _).
  exists Xs. exact H.
Defined.


(** * Further properties of the feature builder *)

Lemma has_column_elem (df : DataFrame) (c : string) :
  has_column df c = true <-> c ∈ columns df.
Proof. unfold has_column. apply bool_decide_eq_true. Qed.

Lemma attach_at_col (lcols rcols : list string) (suffix : string) (l : row)
    (cells : string -> cell) (c : string) :
  (forall c', c' ∈ rcols -> suffixed lcols suffix c' <> c) ->
  at_col (attach lcols rcols suffix l cells) c = at_col l c.
Proof.
  unfold attach. revert l. induction rcols as [|c' rcols IH]; intros l H; [done|].
  simpl. rewrite IH.
  - apply at_col_insert_ne. apply H. left.
  - intros c'' Hc. apply H. by right.
Qed.

(** What a left merge returns: the columns of the left frame followed by
    the renamed columns of the right one, without repetition; every row
    comes from a left row, whose cells it keeps, and every left row is
    there. *)
Lemma merge_left_inv (left right out : DataFrame) (left_on right_on suffix : string) :
  merge_left left right left_on right_on suffix = Ok out ->
  columns out = (columns left ++ (suffixed (columns left) suffix <$> columns right))%list
  /\ NoDup (columns out)
  /\ (forall r, r ∈ rows out ->
        exists l, l ∈ rows left /\ forall c, c ∈ columns left -> at_col r c = at_col l c)
  /\ (forall l, l ∈ rows left ->
        exists r, r ∈ rows out /\ forall c, c ∈ columns left -> at_col r c = at_col l c).
Proof.
  unfold merge_left. intros H.
  destruct (negb (has_column left left_on && has_column right right_on)); [discriminate|].
  destruct (bool_decide (NoDup (columns left ++
              (suffixed (columns left) suffix <$> columns right)))) eqn:Hnd;
    [|discriminate].
  apply bool_decide_eq_true in Hnd. injection H as <-. cbn [columns rows].
  assert (Hkeep : forall l cells c, c ∈ columns left ->
            at_col (attach (columns left) (columns right) suffix l cells) c = at_col l c).
  { intros l cells c Hc. apply attach_at_col. intros c' Hc' E.
    apply NoDup_app in Hnd as (_ & Hdisj & _). apply (Hdisj _ Hc).
    apply list_elem_of_fmap. by exists c'. }
  split; [done|]. split; [done|]. split.
  - intros r Hr. apply list_elem_of_In, in_flat_map in Hr as (l & Hl & Hr).
    exists l. split; [by apply list_elem_of_In|].
    destruct (List.filter _ (rows right)) as [|m ms].
    + destruct Hr as [<-|[]]. intros c Hc. by apply Hkeep.
    + apply list_elem_of_In, elem_of_cons in Hr as [-> | Hr];
        [|apply list_elem_of_fmap in Hr as (m' & -> & _)];
        intros c Hc; by apply Hkeep.
  - intros l Hl.
    destruct (List.filter (fun r => key_eq (at_col l left_on) (at_col r right_on)) (rows right))
      as [|m ms] eqn:Hm.
    + exists (attach (columns left) (columns right) suffix l (fun _ => Null)).
      split; [|intros c Hc; by apply Hkeep].
      apply list_elem_of_In, in_flat_map. exists l.
      split; [by apply list_elem_of_In|]. rewrite Hm. by left.
    + exists (attach (columns left) (columns right) suffix l (at_col m)).
      split; [|intros c Hc; by apply Hkeep].
      apply list_elem_of_In, in_flat_map. exists l.
      split; [by apply list_elem_of_In|]. rewrite Hm. by left.
Qed.

Lemma series_assign_ne (df : DataFrame) (c c' : string) (f : row -> cell) :
  c' <> c -> series (assign df c' f) c = series df c.
Proof.
  intros H. unfold series, assign. cbn [rows]. rewrite <- list_fmap_compose.
  apply list_fmap_ext. intros i r _. simpl. by apply at_col_insert_ne.
Qed.

Lemma series_assign_eq (df : DataFrame) (c : string) (f : row -> cell) :
  series (assign df c f) c = f <$> rows df.
Proof.
  unfold series, assign. cbn [rows]. rewrite <- list_fmap_compose.
  apply list_fmap_ext. intros i r _. simpl. apply at_col_insert.
Qed.

(** The loop body assigns one column. *)
Lemma fill_missing_assign (df : DataFrame) (col : string) :
  exists f, fill_missing df col = assign df col f
            /\ (has_column df col = true ->
                forall r, f r = fillna (median (series df col)) (at_col r col))
            /\ (has_column df col = false -> exists q, forall r, f r = Num q).
Proof.
  unfold fill_missing. destruct (has_column df col).
  - eexists. split; [reflexivity|]. split; [done|discriminate].
  - repeat case_bool_decide; eexists; (split; [reflexivity|]);
      (split; [discriminate|]); intros _; eexists; intros r; reflexivity.
Qed.

Lemma has_column_fill_missing (df : DataFrame) (col c : string) :
  has_column (fill_missing df col) c = has_column df c || bool_decide (c = col).
Proof.
  destruct (fill_missing_assign df col) as (f & -> & _). apply has_column_assign.
Qed.

Lemma length_sort_nums (l : list Q) : length (sort_nums l) = length l.
Proof.
  unfold sort_nums. induction l as [|x l IH]; [done|]. simpl. rewrite <- IH.
  generalize (foldr insert_sorted [] l). clear. intros s.
  induction s as [|y s IH]; [done|]. simpl. destruct (Qle_bool x y); simpl; by rewrite ?IH.
Qed.

(** The median of a series that holds a number is a number. *)
Lemma median_some (l : list cell) (q : Q) :
  Num q ∈ l -> exists m, median l = Num m.
Proof.
  intros Hq. unfold median.
  assert (Hn : length (sort_nums (non_null_nums l)) <> O).
  { rewrite length_sort_nums. unfold non_null_nums.
    assert (H : q ∈ omap as_num l) by (apply list_elem_of_omap; by exists (Num q)).
    destruct (omap as_num l); [by apply elem_of_nil in H | done]. }
  set (s := sort_nums (non_null_nums l)) in *.
  set (n := length s) in *.
  assert (Hhalf : (n / 2 < n)%nat) by (apply Nat.div_lt; lia).
  destruct (lookup_lt_is_Some_2 s (n / 2)%nat Hhalf) as [b Hb].
  destruct (Nat.even n).
  - destruct n as [|n'] eqn:En; [done|].
    assert (Hlow : (S n' / 2 - 1 < length s)%nat) by (fold n in Hhalf; lia).
    destruct (lookup_lt_is_Some_2 s _ Hlow) as [a Ha].
    rewrite Ha, Hb. simpl. by eexists.
  - rewrite Hb. simpl. by eexists.
Qed.

Lemma fill_missing_filled (df : DataFrame) (col : string) (q : Q) :
  Num q ∈ series (fill_missing df col) col ->
  forall y, y ∈ series (fill_missing df col) col -> y <> Null.
Proof.
  destruct (fill_missing_assign df col) as (f & -> & Hpresent & Habsent).
  rewrite series_assign_eq. intros Hq y Hy.
  apply list_elem_of_fmap in Hq as (r0 & Hq & Hr0).
  apply list_elem_of_fmap in Hy as (r & -> & Hr).
  destruct (has_column df col) eqn:Hc.
  - rewrite Hpresent in * by done.
    assert (Hm : exists m, median (series df col) = Num m).
    { destruct (at_col r0 col) eqn:E0; simpl in Hq; try discriminate.
      - by exists q.
      - apply (median_some _ q0). unfold series. apply list_elem_of_fmap.
        exists r0. by rewrite E0. }
    destruct Hm as [m ->]. unfold fillna. by destruct (is_null (at_col r col)) eqn:E;
      [|destruct (at_col r col)].
  - destruct (Habsent eq_refl) as [d Hd]. by rewrite Hd.
Qed.

Lemma series_fill_all_untouched (cols : list string) (df : DataFrame) (c : string) :
  c ∉ cols ->
  series (foldl fill_missing df cols) c = series df c
  /\ has_column (foldl fill_missing df cols) c = has_column df c.
Proof.
  revert df. induction cols as [|a cols IH]; intros df Hc; [done|].
  apply not_elem_of_cons in Hc as [Hne Hc]. simpl.
  destruct (IH (fill_missing df a) Hc) as [-> ->].
  destruct (fill_missing_assign df a) as (f & E & _).
  rewrite has_column_fill_missing, E, series_assign_ne by done.
  rewrite bool_decide_eq_false_2 by done. by rewrite orb_false_r.
Qed.

Lemma series_fill_all (cols : list string) (df : DataFrame) (c : string) :
  NoDup cols -> c ∈ cols ->
  exists df', series (foldl fill_missing df cols) c = series (fill_missing df' c) c.
Proof.
  revert df. induction cols as [|a cols IH]; intros df Hnd Hc; [by apply elem_of_nil in Hc|].
  apply NoDup_cons in Hnd as [Ha Hnd]. simpl.
  apply elem_of_cons in Hc as [-> | Hc].
  - exists df. by apply series_fill_all_untouched.
  - by apply IH.
Qed.

Lemma has_column_fill_all (cols : list string) (df : DataFrame) (c : string) :
  c ∈ cols \/ has_column df c = true -> has_column (foldl fill_missing df cols) c = true.
Proof.
  revert df. induction cols as [|a cols IH]; intros df [Hc | Hc]; simpl.
  - by apply elem_of_nil in Hc.
  - done.
  - apply IH. apply elem_of_cons in Hc as [-> | Hc]; [right | by left].
    rewrite has_column_fill_missing, bool_decide_eq_true_2 by done. apply orb_true_r.
  - apply IH. right. by rewrite has_column_fill_missing, Hc.
Qed.

Lemma NoDup_numeric_columns : NoDup numeric_columns.
Proof. apply (bool_decide_unpack _). by vm_compute. Qed.

Lemma Ok_inj {A : Type} (a b : A) : Ok a = Ok b -> a = b.
Proof. by intros [=]. Qed.

(** The frame the loop over [numeric_columns] starts from: the three
    merges followed by the three derived scores. *)
Lemma prepare_features_loop (data : Dataset) (out : DataFrame) :
  prepare_features data = Ok out ->
  exists u f1 p f2 t f3,
    select (users data) ["id"; "role_numeric"] = Ok u
    /\ merge_left (tasks data) u "assignee_id" "id" "_assignee" = Ok f1
    /\ select (projects data) ["id"; "status_numeric"; "duration_days"; "domain_count"] = Ok p
    /\ merge_left f1 p "project_id" "id" "_project" = Ok f2
    /\ select (teams data) ["id"; "team_size"; "skill_count"] = Ok t
    /\ merge_left f2 t "project_id" "id" "_team" = Ok f3
    /\ has_column f3 "domain" = true
    /\ out = foldl fill_missing (engineered f3) numeric_columns.
Proof.
  unfold prepare_features. intros H.
  step_ok H. rename a into u, Ha into Hu.
  step_ok H. rename a into f1, Ha into Hf1.
  step_ok H. rename a into p, Ha into Hp.
  step_ok H. rename a into f2, Ha into Hf2.
  step_ok H. rename a into t, Ha into Ht.
  step_ok H. rename a into f3, Ha into Hf3.
  do 3 step_ok H.
  assert (Hd : has_column f3 "domain" = true).
  { apply derive_Ok in Ha, Ha0. subst. unfold derive in Ha1. cbn [forallb] in Ha1.
    rewrite !has_column_assign in Ha1.
    rewrite !(bool_decide_eq_false_2 ("domain" = _)) in Ha1 by discriminate.
    rewrite !orb_false_r, andb_true_r in Ha1.
    destruct (has_column f3 "domain"); [reflexivity | discriminate]. }
  apply derive_Ok in Ha, Ha0, Ha1. subst. apply Ok_inj in H.
  exists u, f1, p, f2, t, f3. symmetry in H.
  exact (conj Hu (conj Hf1 (conj Hp (conj Hf2 (conj Ht (conj Hf3 (conj Hd H))))))).
Qed.

(** X1: every canonical feature column is a column of the feature table,
    and one that holds at least one number holds no null: a null can remain
    only in a column without any number. *)
Theorem canonical_columns_filled (data : Dataset) (out : DataFrame) (c : string) (q : Q) :
  prepare_features data = Ok out ->
  c ∈ numeric_columns ->
  has_column out c = true
  /\ (Num q ∈ series out c -> forall y, y ∈ series out c -> y <> Null).
Proof.
  intros H Hc.
  destruct (prepare_features_loop _ _ H) as (u & f1 & p & f2 & t & f3 & _ & _ & _ & _ & _ & _ & _ & ->).
  split; [apply has_column_fill_all; by left|].
  destruct (series_fill_all numeric_columns (engineered f3) c NoDup_numeric_columns Hc)
    as [df' ->].
  apply fill_missing_filled.
Qed.

Lemma rows_fill_all (cols : list string) (df : DataFrame) :
  (forall r, r ∈ rows (foldl fill_missing df cols) ->
     exists r0, r0 ∈ rows df
       /\ forall c, c ∉ cols \/ (has_column df c = true /\ at_col r0 c <> Null) ->
                    at_col r c = at_col r0 c)
  /\ (forall r0, r0 ∈ rows df ->
      exists r, r ∈ rows (foldl fill_missing df cols)
        /\ forall c, c ∉ cols \/ (has_column df c = true /\ at_col r0 c <> Null) ->
                     at_col r c = at_col r0 c)
  /\ length (rows (foldl fill_missing df cols)) = length (rows df).
Proof.
  revert df. induction cols as [|a cols IH]; intros df.
  { split; [|split; [|done]]; intros r Hr; exists r; by split. }
  simpl. destruct (IH (fill_missing df a)) as (IH1 & IH2 & IH3).
  destruct (fill_missing_assign df a) as (f & E & Hpresent & _).
  assert (Hstep : forall r0 c,
            c ∉ a :: cols \/ (has_column df c = true /\ at_col r0 c <> Null) ->
            at_col (<[a := f r0]> r0) c = at_col r0 c
            /\ (c ∉ cols \/ (has_column (fill_missing df a) c = true
                              /\ at_col (<[a := f r0]> r0) c <> Null))).
  { intros r0 c Hc. destruct (decide (a = c)) as [<- | Hne].
    - destruct Hc as [Hc | [Hc Hn]]; [by apply not_elem_of_cons in Hc as [? _]|].
      rewrite at_col_insert, (Hpresent Hc). unfold fillna.
      destruct (at_col r0 a) eqn:E0; try done; simpl; (split; [done|]); right;
        by rewrite has_column_fill_missing, Hc.
    - rewrite at_col_insert_ne by done. split; [done|].
      destruct Hc as [Hc | [Hc Hn]]; [left; by apply not_elem_of_cons in Hc as [_ ?]|].
      right. by rewrite has_column_fill_missing, Hc. }
  split; [|split].
  - intros r Hr. destruct (IH1 r Hr) as (r1 & Hr1 & Hkeep).
    rewrite E in Hr1. apply elem_of_rows_assign in Hr1 as (r0 & Hr0 & ->).
    exists r0. split; [done|]. intros c Hc. destruct (Hstep r0 c Hc) as [<- Hc'].
    by apply Hkeep.
  - intros r0 Hr0.
    destruct (IH2 (<[a := f r0]> r0)) as (r & Hr & Hkeep).
    { rewrite E. apply elem_of_rows_assign. by exists r0. }
    exists r. split; [done|]. intros c Hc. destruct (Hstep r0 c Hc) as [<- Hc'].
    by apply Hkeep.
  - by rewrite IH3, E, length_rows_assign.
Qed.

Lemma rows_engineered (f3 : DataFrame) :
  (forall r, r ∈ rows (engineered f3) ->
     exists r3, r3 ∈ rows f3
       /\ (forall c, c ∉ numeric_columns -> at_col r c = at_col r3 c)
       /\ at_col r "assignee_experience_score" = cell_mul (at_col r "role_numeric") (Num 25)
       /\ at_col r "project_complexity_score"
          = cell_add (cell_mul (fillna (Num 30) (at_col r "duration_days")) (Num 0.1))
                     (cell_mul (fillna (Num 1) (at_col r "domain_count")) (Num 10))
       /\ at_col r "domain_complexity_score"
          = fillna (Num 25) (map_dict domain_complexity_mapping (at_col r "domain")))
  /\ (forall r3, r3 ∈ rows f3 ->
      exists r, r ∈ rows (engineered f3)
        /\ forall c, c ∉ numeric_columns -> at_col r c = at_col r3 c)
  /\ length (rows (engineered f3)) = length (rows f3).
Proof.
  assert (Hother : forall (r : row) (c : string) (v1 v2 v3 : cell),
            c ∉ numeric_columns ->
            at_col (<["domain_complexity_score" := v3]>
                      (<["project_complexity_score" := v2]>
                         (<["assignee_experience_score" := v1]> r))) c = at_col r c).
  { intros r c v1 v2 v3 Hc.
    rewrite !at_col_insert_ne; [done|..]; intros <-; apply Hc;
      apply (bool_decide_unpack _); by vm_compute. }
  unfold engineered. split; [|split].
  - intros r Hr.
    apply elem_of_rows_assign in Hr as (r2 & Hr2 & ->).
    apply elem_of_rows_assign in Hr2 as (r1 & Hr1 & ->).
    apply elem_of_rows_assign in Hr1 as (r3 & Hr3 & ->).
    exists r3. split; [done|]. split; [intros c Hc; by apply Hother|].
    rewrite !at_col_insert.
    repeat (rewrite !at_col_insert_ne by discriminate; rewrite ?at_col_insert).
    done.
  - intros r3 Hr3. eexists. split.
    + apply elem_of_rows_assign. eexists. split; [|reflexivity].
      apply elem_of_rows_assign. eexists. split; [|reflexivity].
      apply elem_of_rows_assign. eexists. split; [exact Hr3|reflexivity].
    + intros c Hc. by apply Hother.
  - by rewrite !length_rows_assign.
Qed.

Lemma length_flat_map_ge {A B : Type} (f : A -> list B) (l : list A) :
  (forall x, 1 <= length (f x))%nat -> (length l <= length (flat_map f l))%nat.
Proof.
  intros H. induction l as [|x l IH]; [done|].
  cbn [flat_map]. rewrite length_app. specialize (H x). simpl. lia.
Qed.

Lemma merge_left_length (left right out : DataFrame) (left_on right_on suffix : string) :
  merge_left left right left_on right_on suffix = Ok out ->
  (length (rows left) <= length (rows out))%nat.
Proof.
  unfold merge_left. intros H.
  destruct (negb (has_column left left_on && has_column right right_on)); [discriminate|].
  destruct (bool_decide (NoDup _)); [|discriminate].
  apply Ok_inj in H. subst out. cbn [rows].
  apply length_flat_map_ge. intros l.
  destruct (List.filter _ (rows right)); simpl; lia.
Qed.

Lemma prepare_features_rows (data : Dataset) (out : DataFrame) :
  prepare_features data = Ok out ->
  (forall l, l ∈ rows (tasks data) ->
     exists r, r ∈ rows out
       /\ forall c, c ∈ columns (tasks data) -> c ∉ numeric_columns ->
                    at_col r c = at_col l c)
  /\ (forall r, r ∈ rows out ->
      exists l, l ∈ rows (tasks data)
        /\ forall c, c ∈ columns (tasks data) -> c ∉ numeric_columns ->
                     at_col r c = at_col l c)
  /\ (length (rows (tasks data)) <= length (rows out))%nat.
Proof.
  intros H.
  destruct (prepare_features_loop _ _ H)
    as (u & f1 & p & f2 & t & f3 & _ & Hf1 & _ & Hf2 & _ & Hf3 & _ & ->).
  destruct (merge_left_inv _ _ _ _ _ _ Hf1) as (C1 & _ & B1 & F1).
  destruct (merge_left_inv _ _ _ _ _ _ Hf2) as (C2 & _ & B2 & F2).
  destruct (merge_left_inv _ _ _ _ _ _ Hf3) as (C3 & _ & B3 & F3).
  destruct (rows_engineered f3) as (Be & Fe & Le).
  destruct (rows_fill_all numeric_columns (engineered f3)) as (Bl & Fl & Ll).
  assert (I1 : forall c, c ∈ columns (tasks data) -> c ∈ columns f1)
    by (intros c Hc; rewrite C1; apply elem_of_app; by left).
  assert (I2 : forall c, c ∈ columns f1 -> c ∈ columns f2)
    by (intros c Hc; rewrite C2; apply elem_of_app; by left).
  split; [|split].
  - intros l Hl.
    destruct (F1 l Hl) as (r1 & Hr1 & K1). destruct (F2 r1 Hr1) as (r2 & Hr2 & K2).
    destruct (F3 r2 Hr2) as (r3 & Hr3 & K3). destruct (Fe r3 Hr3) as (re & Hre & Ke).
    destruct (Fl re Hre) as (r & Hr & Kl).
    exists r. split; [done|]. intros c Hc Hn.
    rewrite Kl by (by left). rewrite Ke by done.
    rewrite K3 by auto. rewrite K2 by auto. by apply K1.
  - intros r Hr.
    destruct (Bl r Hr) as (re & Hre & Kl). destruct (Be re Hre) as (r3 & Hr3 & Ke & _).
    destruct (B3 r3 Hr3) as (r2 & Hr2 & K3). destruct (B2 r2 Hr2) as (r1 & Hr1 & K2).
    destruct (B1 r1 Hr1) as (l & Hl & K1).
    exists l. split; [done|]. intros c Hc Hn.
    rewrite Kl by (by left). rewrite Ke by done.
    rewrite K3 by auto. rewrite K2 by auto. by apply K1.
  - rewrite Ll, Le.
    pose proof (merge_left_length _ _ _ _ _ _ Hf1).
    pose proof (merge_left_length _ _ _ _ _ _ Hf2).
    pose proof (merge_left_length _ _ _ _ _ _ Hf3). lia.
Qed.

(** X2: the feature builder drops no task and alters no task column other
    than the canonical feature columns: every task row has a feature row
    with the same cells in those columns, every feature row comes from a
    task row in this way, and there are at least as many feature rows as
    tasks. *)
Theorem prepare_features_keeps_tasks (data : Dataset) (out : DataFrame) :
  prepare_features data = Ok out ->
  (forall l, l ∈ rows (tasks data) ->
     exists r, r ∈ rows out
       /\ forall c, c ∈ columns (tasks data) -> c ∉ numeric_columns ->
                    at_col r c = at_col l c)
  /\ (forall r, r ∈ rows out ->
      exists l, l ∈ rows (tasks data)
        /\ forall c, c ∈ columns (tasks data) -> c ∉ numeric_columns ->
                     at_col r c = at_col l c)
  /\ (length (rows (tasks data)) <= length (rows out))%nat.
Proof. apply prepare_features_rows. Qed.

Lemma domain_scores_range :
  map_Forall (fun _ q => (15 <= q <= 45)%Q) domain_complexity_mapping.
Proof.
  unfold domain_complexity_mapping. cbn [list_to_map foldr uncurry fst snd].
  repeat (apply map_Forall_insert_2; [split; discriminate|]).
  apply map_Forall_empty.
Qed.

(** X3: in every row of the feature table the domain complexity score is a
    number, the table's score (between 15 and 45) for a known domain and 25
    for any other or missing domain; the experience score is 25 times
    [role_numeric] when that is a number; and the project complexity score
    is [0.1 * duration_days + 10 * domain_count], a null duration counting
    as 30 days and a null domain count as 1. *)
Theorem derived_scores (data : Dataset) (out : DataFrame) (r : row) :
  prepare_features data = Ok out ->
  r ∈ rows out ->
  (exists q, at_col r "domain_complexity_score" = Num q
             /\ (15 <= q <= 45)%Q
             /\ (forall s, at_col r "domain" = Str s ->
                   q = default 25%Q (domain_complexity_mapping !! s))
             /\ ((forall s, at_col r "domain" <> Str s) -> q = 25%Q))
  /\ (forall q, at_col r "role_numeric" = Num q ->
        at_col r "assignee_experience_score" = Num (q * 25))
  /\ (forall d n,
        fillna (Num 30) (at_col r "duration_days") = Num d ->
        fillna (Num 1) (at_col r "domain_count") = Num n ->
        at_col r "project_complexity_score" = Num (d * 0.1 + n * 10)).
Proof.
  intros H Hr.
  destruct (prepare_features_loop _ _ H)
    as (u & f1 & p & f2 & t & f3 & _ & _ & _ & _ & _ & _ & _ & ->).
  destruct (rows_engineered f3) as (Be & _ & _).
  destruct (rows_fill_all numeric_columns (engineered f3)) as (Bl & _ & _).
  destruct (Bl r Hr) as (re & Hre & Kl). destruct (Be re Hre) as (r3 & _ & _ & E1 & E2 & E3).
  assert (Hn : forall c, c ∉ numeric_columns -> at_col r c = at_col re c)
    by (intros c Hc; apply Kl; by left).
  assert (Hk : forall c v, has_column (engineered f3) c = true -> at_col re c = Num v ->
                           at_col r c = Num v).
  { intros c v Hc Hv. rewrite <- Hv. apply Kl. right. split; [done|]. by rewrite Hv. }
  assert (N1 : "domain" ∉ numeric_columns) by (apply (bool_decide_unpack _); by vm_compute).
  assert (N2 : "role_numeric" ∉ numeric_columns) by (apply (bool_decide_unpack _); by vm_compute).
  assert (N3 : "duration_days" ∉ numeric_columns) by (apply (bool_decide_unpack _); by vm_compute).
  assert (N4 : "domain_count" ∉ numeric_columns) by (apply (bool_decide_unpack _); by vm_compute).
  assert (P1 : has_column (engineered f3) "domain_complexity_score" = true).
  { unfold engineered. rewrite has_column_assign.
    rewrite (bool_decide_eq_true_2 (_ = _)) by done. apply orb_true_r. }
  assert (P2 : has_column (engineered f3) "assignee_experience_score" = true).
  { unfold engineered. rewrite !has_column_assign.
    rewrite (bool_decide_eq_true_2 ("assignee_experience_score" = "assignee_experience_score"))
      by done.
    by rewrite orb_true_r. }
  assert (P3 : has_column (engineered f3) "project_complexity_score" = true).
  { unfold engineered. rewrite !has_column_assign.
    rewrite (bool_decide_eq_true_2 ("project_complexity_score" = "project_complexity_score"))
      by done.
    by rewrite orb_true_r. }
  rewrite (Hn _ N1), (Hn _ N2), (Hn _ N3), (Hn _ N4). split; [|split].
  - destruct (at_col re "domain") as [|x|s|l] eqn:Ed; simpl in E3;
      try (exists 25%Q; rewrite (Hk _ _ P1 E3);
           split; [done|]; split; [split; discriminate|]; split; [discriminate | done]).
    destruct (domain_complexity_mapping !! s) as [q|] eqn:Es; simpl in E3.
    + exists q. rewrite (Hk _ _ P1 E3). split; [done|].
      split; [exact (domain_scores_range s q Es)|].
      split; [intros s' [= <-]; by rewrite Es | intros Hs; by destruct (Hs s)].
    + exists 25%Q. rewrite (Hk _ _ P1 E3). split; [done|]. split; [split; discriminate|].
      split; [intros s' [= <-]; by rewrite Es | done].
  - intros q Hq. rewrite Hq in E1. by apply Hk.
  - intros d n Hd Hc. rewrite Hd, Hc in E2. by apply Hk.
Qed.

(** * Further properties of the loader *)

Lemma mapM_Ok_rows {A B : Type} (f : A -> result B) (l : list A) (out : list B) :
  mapM f l = Ok out ->
  (forall y, y ∈ out -> exists x, x ∈ l /\ f x = Ok y)
  /\ (forall x, x ∈ l -> exists y, y ∈ out /\ f x = Ok y)
  /\ length out = length l.
Proof.
  revert out. induction l as [|x l IH]; intros out H; simpl in H.
  - apply Ok_inj in H. subst. split; [|split; [|done]]; intros y Hy; by apply elem_of_nil in Hy.
  - step_ok H. step_ok H. apply Ok_inj in H. subst.
    destruct (IH _ Ha0) as (B1 & F1 & L1). split; [|split].
    + intros y Hy. apply elem_of_cons in Hy as [-> | Hy].
      * exists x. split; [left | done].
      * destruct (B1 y Hy) as (x' & Hx' & E). exists x'. split; [by right | done].
    + intros x' Hx'. apply elem_of_cons in Hx' as [-> | Hx'].
      * exists a. split; [left | done].
      * destruct (F1 x' Hx') as (y & Hy & E). exists y. split; [by right | done].
    + simpl. by rewrite L1.
Qed.

Lemma assign_try_rows (df out : DataFrame) (c : string) (f : row -> result cell) (r : row) :
  assign_try df c f = Ok out ->
  r ∈ rows out ->
  exists r0 v, r0 ∈ rows df /\ f r0 = Ok v /\ r = <[c := v]> r0.
Proof.
  unfold assign_try. intros H Hr. step_ok H. apply Ok_inj in H. subst out. cbn [rows] in Hr.
  destruct (mapM_Ok_rows _ _ _ Ha) as (B & _ & _).
  destruct (B r Hr) as (r0 & Hr0 & E). step_ok E. apply Ok_inj in E. subst r.
  by exists r0, a0.
Qed.

(** [pd.to_datetime] on a column leaves the cells of every row as they
    are; the converted cells are timestamps or nulls. *)
Lemma convert_datetime_rows (c : string) (df out : DataFrame) (r : row) :
  DataLoader.convert_datetime c df = Ok out ->
  r ∈ rows out ->
  (at_col r c = Null \/ exists q, at_col r c = Num q)
  /\ exists r0, r0 ∈ rows df /\ forall c', at_col r c' = at_col r0 c'.
Proof.
  unfold DataLoader.convert_datetime. intros H Hr.
  destruct (has_column df c); [|discriminate].
  destruct (assign_try_rows _ _ _ _ _ H Hr) as (r0 & v & Hr0 & Hv & ->).
  assert (E : v = at_col r0 c).
  { unfold DataLoader.to_datetime in Hv. destruct (at_col r0 c); by inversion Hv. }
  rewrite at_col_insert. split.
  - unfold DataLoader.to_datetime in Hv. rewrite E.
    destruct (at_col r0 c); try discriminate; [by left | right; by eexists].
  - exists r0. split; [done|]. intros c'. destruct (decide (c = c')) as [<- | Hne].
    + by rewrite at_col_insert.
    + by apply at_col_insert_ne.
Qed.

Lemma rows_assign_inv (df : DataFrame) (c : string) (f : row -> cell) (r : row) :
  r ∈ rows (assign df c f) ->
  exists r0, r0 ∈ rows df /\ at_col r c = f r0
             /\ forall c', c <> c' -> at_col r c' = at_col r0 c'.
Proof.
  intros Hr. apply elem_of_rows_assign in Hr as (r0 & Hr0 & ->). exists r0.
  split; [done|]. split; [apply at_col_insert|]. intros c' Hc. by apply at_col_insert_ne.
Qed.

Lemma rows_time_features (now : Q) (df : DataFrame) (r : row) :
  r ∈ rows (time_features now df) ->
  exists r0, r0 ∈ rows df
    /\ at_col r "due_date" = at_col r0 "due_date"
    /\ at_col r "completed_date" = at_col r0 "completed_date"
    /\ at_col r "delay_days"
       = if negb (is_null (at_col r0 "completed_date"))
         then np_maximum 0 (DataLoader.dt_days (cell_sub (at_col r0 "completed_date")
                                                         (at_col r0 "due_date")))
         else np_maximum 0 (DataLoader.dt_days (cell_sub (Num now) (at_col r0 "due_date"))).
Proof.
  unfold time_features. intros Hr.
  apply rows_assign_inv in Hr as (r4 & Hr4 & E5 & K5).
  apply rows_assign_inv in Hr4 as (r3 & Hr3 & _ & K4).
  apply rows_assign_inv in Hr3 as (r2 & Hr2 & _ & K3).
  apply rows_assign_inv in Hr2 as (r1 & Hr1 & _ & K2).
  apply rows_assign_inv in Hr1 as (r0 & Hr0 & _ & K1).
  assert (Kd : at_col r4 "due_date" = at_col r0 "due_date")
    by (rewrite K4, K3, K2, K1 by discriminate; reflexivity).
  assert (Kc : at_col r4 "completed_date" = at_col r0 "completed_date")
    by (rewrite K4, K3, K2, K1 by discriminate; reflexivity).
  exists r0. split; [done|]. rewrite !K5 by discriminate. rewrite E5, Kd, Kc. done.
Qed.

(** The steps of [_process_tasks_data]. *)
Lemma process_tasks_data_steps (json_len : string -> result nat) (now : Q)
    (df out : DataFrame) :
  DataLoader.process_tasks_data json_len now df = Ok out ->
  exists d1 d2 d3 d4 d8,
    DataLoader.convert_datetime "start_date" df = Ok d1
    /\ DataLoader.convert_datetime "due_date" d1 = Ok d2
    /\ DataLoader.convert_datetime "completed_date" d2 = Ok d3
    /\ DataLoader.convert_datetime "created_at" d3 = Ok d4
    /\ (forall r, r ∈ rows d8 ->
          exists r5, r5 ∈ rows (time_features now d4)
            /\ at_col r "due_date" = at_col r5 "due_date"
            /\ at_col r "completed_date" = at_col r5 "completed_date"
            /\ at_col r "delay_days" = at_col r5 "delay_days")
    /\ out = assign d8 "progress_ratio" DataLoader.progress_ratio.
Proof.
  unfold DataLoader.process_tasks_data. intros H.
  step_ok H. rename a into d1, Ha into H1.
  step_ok H. rename a into d2, Ha into H2.
  step_ok H. rename a into d3, Ha into H3.
  step_ok H. rename a into d4, Ha into H4.
  fold (time_features now d4) in H.
  remember (time_features now d4) as tf eqn:Etf.
  destruct (negb (has_column tf "priority")); [discriminate|].
  remember (assign tf "priority_numeric" _) as d6 eqn:E6.
  destruct (negb (has_column d6 "status")); [discriminate|].
  remember (assign d6 "status_numeric" _) as d7 eqn:E7.
  step_ok H. rename a into d8, Ha into H8. apply Ok_inj in H.
  exists d1, d2, d3, d4, d8. do 4 (split; [done|]). split; [|done].
  rewrite <- Etf.
  assert (H7 : forall r, r ∈ rows d7 ->
            exists r5, r5 ∈ rows tf
              /\ at_col r "due_date" = at_col r5 "due_date"
              /\ at_col r "completed_date" = at_col r5 "completed_date"
              /\ at_col r "delay_days" = at_col r5 "delay_days").
  { intros r Hr. rewrite E7 in Hr. apply rows_assign_inv in Hr as (r6 & Hr6 & _ & K7).
    rewrite E6 in Hr6. apply rows_assign_inv in Hr6 as (r5 & Hr5 & _ & K6).
    exists r5. split; [done|]. rewrite !K7, !K6 by discriminate. done. }
  destruct (has_column d7 "dependencies").
  - intros r Hr.
    destruct (assign_try_rows _ _ _ _ _ H8 Hr) as (r7 & v & Hr7 & _ & ->).
    destruct (H7 r7 Hr7) as (r5 & Hr5 & K1 & K2 & K3).
    exists r5. split; [done|]. rewrite !at_col_insert_ne by discriminate.
    exact (conj K1 (conj K2 K3)).
  - apply Ok_inj in H8. by subst d8.
Qed.

Lemma process_tasks_data_delay (json_len : string -> result nat) (now : Q)
    (df out : DataFrame) (r : row) :
  DataLoader.process_tasks_data json_len now df = Ok out ->
  r ∈ rows out ->
  (at_col r "due_date" = Null \/ exists q, at_col r "due_date" = Num q)
  /\ (at_col r "completed_date" = Null \/ exists q, at_col r "completed_date" = Num q)
  /\ at_col r "delay_days"
     = if negb (is_null (at_col r "completed_date"))
       then np_maximum 0 (DataLoader.dt_days (cell_sub (at_col r "completed_date")
                                                       (at_col r "due_date")))
       else np_maximum 0 (DataLoader.dt_days (cell_sub (Num now) (at_col r "due_date"))).
Proof.
  intros H Hr.
  destruct (process_tasks_data_steps _ _ _ _ H)
    as (d1 & d2 & d3 & d4 & d8 & H1 & H2 & H3 & H4 & H8 & ->).
  apply rows_assign_inv in Hr as (r8 & Hr8 & _ & K9).
  destruct (H8 r8 Hr8) as (r5 & Hr5 & K1 & K2 & K3).
  destruct (rows_time_features _ _ _ Hr5) as (r4 & Hr4 & T1 & T2 & T3).
  destruct (convert_datetime_rows _ _ _ _ H4 Hr4) as (_ & r3 & Hr3 & C4).
  destruct (convert_datetime_rows _ _ _ _ H3 Hr3) as (D3 & r2 & Hr2 & C3).
  destruct (convert_datetime_rows _ _ _ _ H2 Hr2) as (D2 & r1 & Hr1 & C2).
  rewrite !K9 by discriminate. rewrite K1, K2, K3, T1, T2, T3.
  rewrite !C4. split; [by rewrite C3|]. split; [done|]. done.
Qed.

Lemma Qmax_0_nonpos (x : Q) : (x <= 0)%Q -> Qmax 0 x = 0%Q.
Proof.
  intros H. unfold Qmax, GenericMinMax.gmax.
  destruct (0 ?= x)%Q eqn:E; try reflexivity.
  apply Qlt_alt in E. exfalso. by apply (Qlt_not_le _ _ E).
Qed.

(** X4: the [delay_days] of a processed task is null when the task has no
    due date, and otherwise a number that is never negative: the whole days
    from the due date to the completion (to the clock reading for a task
    not completed), or 0 when that is negative.  A task completed by its
    due date has [delay_days = 0]. *)
Theorem delay_days_nonnegative (json_len : string -> result nat) (now : Q)
    (df out : DataFrame) (r : row) :
  DataLoader.process_tasks_data json_len now df = Ok out ->
  r ∈ rows out ->
  (at_col r "due_date" = Null -> at_col r "delay_days" = Null)
  /\ (forall due, at_col r "due_date" = Num due ->
        exists d, at_col r "delay_days" = Num d /\ (0 <= d)%Q)
  /\ (forall due finished,
        at_col r "due_date" = Num due ->
        at_col r "completed_date" = Num finished ->
        at_col r "delay_days" = Num (Qmax 0 (inject_Z (Qfloor (finished - due))))
        /\ ((finished <= due)%Q -> at_col r "delay_days" = Num 0))
  /\ (forall due,
        at_col r "due_date" = Num due ->
        at_col r "completed_date" = Null ->
        at_col r "delay_days" = Num (Qmax 0 (inject_Z (Qfloor (now - due))))).
Proof.
  intros H Hr.
  destruct (process_tasks_data_delay _ _ _ _ _ H Hr) as (Hdue & Hdone & ->).
  split; [|split; [|split]].
  - intros ->. by destruct (negb (is_null (at_col r "completed_date")));
      destruct (at_col r "completed_date").
  - intros due ->. destruct Hdone as [-> | [c ->]];
      cbn [is_null negb cell_sub cell_op DataLoader.dt_days np_maximum]; eexists;
      (split; [reflexivity | apply Q.le_max_l]).
  - intros due finished -> ->.
    cbn [is_null negb cell_sub cell_op DataLoader.dt_days np_maximum]. split; [done|].
    intros Hle. rewrite Qmax_0_nonpos; [done|].
    apply Qle_trans with (y := (finished - due)%Q); [apply Qfloor_le|].
    unfold Qminus. rewrite <- (Qplus_opp_r due). by apply Qplus_le_l.
  - by intros due -> ->.
Qed.

Lemma has_column_assign_try (df out : DataFrame) (c c' : string) (f : row -> result cell) :
  assign_try df c f = Ok out ->
  has_column out c' = has_column df c' || bool_decide (c' = c).
Proof.
  unfold assign_try. intros H. step_ok H. apply Ok_inj in H. subst out.
  rewrite <- (has_column_assign df c c' (fun _ => Null)). reflexivity.
Qed.

Lemma has_column_convert_datetime (c c' : string) (df out : DataFrame) :
  DataLoader.convert_datetime c df = Ok out -> has_column out c' = has_column df c'.
Proof.
  unfold DataLoader.convert_datetime. intros H.
  destruct (has_column df c) eqn:Hc; [|discriminate].
  rewrite (has_column_assign_try _ _ _ c' _ H).
  destruct (bool_decide (c' = c)) eqn:E; [|apply orb_false_r].
  apply bool_decide_eq_true in E. subst. by rewrite Hc.
Qed.

(** X5: for a team table that has the columns [member_ids] and [skills],
    the processed [team_size] and [skill_count] of a team are the lengths
    of its member list and skill list, and the length of the decoded array
    when the cell holds JSON text. *)
Theorem team_size_counts_members (json_len : string -> result nat)
    (df out : DataFrame) (r : row) :
  has_column df "member_ids" = true ->
  has_column df "skills" = true ->
  DataLoader.process_teams_data json_len df = Ok out ->
  r ∈ rows out ->
  (forall l, at_col r "member_ids" = Lst l -> at_col r "team_size" = num_of_nat (length l))
  /\ (forall l, at_col r "skills" = Lst l -> at_col r "skill_count" = num_of_nat (length l))
  /\ (forall s n, at_col r "member_ids" = Str s -> json_len s = Ok n ->
        at_col r "team_size" = num_of_nat n)
  /\ (forall s n, at_col r "skills" = Str s -> json_len s = Ok n ->
        at_col r "skill_count" = num_of_nat n).
Proof.
  unfold DataLoader.process_teams_data. intros Hm Hs H Hr.
  step_ok H. rename a into d1, Ha into H1.
  rewrite (has_column_convert_datetime _ _ _ _ H1), Hm in H.
  step_ok H. rename a into d2, Ha into H2.
  rewrite (has_column_assign_try _ _ _ "skills" _ H2) in H.
  rewrite (has_column_convert_datetime _ _ _ _ H1), Hs in H. cbn [orb] in H.
  destruct (assign_try_rows _ _ _ _ _ H Hr) as (r2 & v2 & Hr2 & E2 & ->).
  destruct (assign_try_rows _ _ _ _ _ H2 Hr2) as (r1 & v1 & Hr1 & E1 & ->).
  repeat first [rewrite at_col_insert | rewrite at_col_insert_ne by done].
  rewrite at_col_insert_ne in E2 by done.
  split; [|split; [|split]].
  - intros l Hl. rewrite Hl in E1. simpl in E1. destruct l; by apply Ok_inj in E1.
  - intros l Hl. rewrite Hl in E2. simpl in E2. destruct l; by apply Ok_inj in E2.
  - intros s n Hl Hn. rewrite Hl in E1. simpl in E1. rewrite Hn in E1. by apply Ok_inj in E1.
  - intros s n Hl Hn. rewrite Hl in E2. simpl in E2. rewrite Hn in E2. by apply Ok_inj in E2.
Qed.

(** * Further properties of the label builder *)

Lemma cell_op_null_l (f : Q -> Q -> Q) (b : cell) : cell_op f Null b = Null.
Proof. done. Qed.

Lemma cell_op_null_r (f : Q -> Q -> Q) (a : cell) : cell_op f a Null = Null.
Proof. by destruct a. Qed.

Lemma cell_gt_fillna_zero (c : cell) :
  cell_gt (fillna (Num 0) c) (Num 0) = cell_gt c (Num 0).
Proof. by destruct c. Qed.

(** X6: in every labelled row [is_delayed] is 1 when [delay_days] is a
    positive number and 0 otherwise; [risk_score] is null when
    [priority_numeric] or [progress_ratio] is null, and for numeric inputs
    it is [clip(10 * delay_days + 15 * priority_numeric + (100 - 50 *
    progress_ratio), 0, 100)], a number between 0 and 100, a null
    [delay_days] counting as 0. *)
Theorem label_values (df out : DataFrame) (r : row) :
  create_delay_labels df = Ok out ->
  r ∈ rows out ->
  ((exists d, at_col r "delay_days" = Num d /\ (0 < d)%Q) -> at_col r "is_delayed" = Num 1)
  /\ (~ (exists d, at_col r "delay_days" = Num d /\ (0 < d)%Q) ->
      at_col r "is_delayed" = Num 0)
  /\ (at_col r "priority_numeric" = Null \/ at_col r "progress_ratio" = Null ->
      at_col r "risk_score" = Null)
  /\ (forall d p g,
        fillna (Num 0) (at_col r "delay_days") = Num d ->
        at_col r "priority_numeric" = Num p ->
        at_col r "progress_ratio" = Num g ->
        at_col r "risk_score" = Num (clip (d * 10 + p * 15 + (100 - g * 50)) 0 100)
        /\ (0 <= clip (d * 10 + p * 15 + (100 - g * 50)) 0 100 <= 100)%Q).
Proof.
  intros H Hr.
  destruct (create_delay_labels_rows _ _ _ H Hr) as (_ & -> & ->).
  unfold is_delayed_of, risk_score_of. rewrite cell_gt_fillna_zero.
  split; [|split; [|split]].
  - intros Hd. apply cell_gt_num in Hd. by rewrite Hd.
  - intros Hd. destruct (cell_gt (at_col r "delay_days") (Num 0)) eqn:E; [|done].
    apply cell_gt_num in E. by destruct Hd.
  - unfold cell_add, cell_sub, cell_mul.
    intros [-> | ->]; by rewrite ?cell_op_null_l, ?cell_op_null_r, ?cell_op_null_l.
  - intros d p g -> -> ->. split; [done | apply clip_bounds].
Qed.

(** X7: a task one day late or less, but late, is flagged [is_delayed = 1]
    while its [delay_category] is [no_delay]. *)
Theorem delayed_within_first_bucket (df out : DataFrame) (r : row) (d : Q) :
  create_delay_labels df = Ok out ->
  r ∈ rows out ->
  at_col r "delay_days" = Num d ->
  (0 < d <= 1)%Q ->
  at_col r "is_delayed" = Num 1 /\ at_col r "delay_category" = Str "no_delay".
Proof.
  intros H Hr Hd [H0 H1].
  destruct (create_delay_labels_rows _ _ _ H Hr) as (-> & -> & _).
  rewrite Hd. split.
  - unfold is_delayed_of. simpl. by rewrite (proj2 (Qgtb_lt d 0) H0).
  - by apply (delay_category_of_bucket (Num d) d).
Qed.

Lemma create_delay_labels_keeps (df out : DataFrame) :
  create_delay_labels df = Ok out ->
  (forall r0, r0 ∈ rows df ->
     exists r, r ∈ rows out
       /\ forall c, c <> "delay_category" -> c <> "is_delayed" -> c <> "risk_score" ->
                    at_col r c = at_col r0 c)
  /\ (forall r, r ∈ rows out ->
      exists r0, r0 ∈ rows df
        /\ forall c, c <> "delay_category" -> c <> "is_delayed" -> c <> "risk_score" ->
                     at_col r c = at_col r0 c).
Proof.
  unfold create_delay_labels. intros H. do 2 step_ok H.
  apply derive_Ok in Ha, Ha0, H. subst. split.
  - intros r0 Hr0. eexists. split.
    + apply elem_of_rows_assign. eexists. split; [|reflexivity].
      apply elem_of_rows_assign. eexists. split; [|reflexivity].
      apply elem_of_rows_assign. eexists. split; [exact Hr0|reflexivity].
    + intros c H1 H2 H3. by rewrite !at_col_insert_ne.
  - intros r Hr.
    apply elem_of_rows_assign in Hr as (r2 & Hr2 & ->).
    apply elem_of_rows_assign in Hr2 as (r1 & Hr1 & ->).
    apply elem_of_rows_assign in Hr1 as (r0 & Hr0 & ->).
    exists r0. split; [done|]. intros c H1 H2 H3. by rewrite !at_col_insert_ne.
Qed.

(** * Further properties of the risk aggregation *)

Lemma length_filter_impl {A : Type} (p q : A -> bool) (l : list A) :
  (forall x, p x = true -> q x = true) ->
  (length (List.filter p l) <= length (List.filter q l))%nat.
Proof.
  intros H. induction l as [|x l IH]; [done|]. simpl.
  destruct (p x) eqn:Hp.
  - rewrite (H x Hp). simpl. lia.
  - destruct (q x); simpl; lia.
Qed.

Lemma empty_frame_false (df : DataFrame) :
  empty_frame df = false -> exists r, r ∈ rows df.
Proof.
  unfold empty_frame. destruct (rows df) as [|r l]; [discriminate|].
  intros _. exists r. by left.
Qed.

Lemma of_project_rows (df scoped : DataFrame) (project_id : option string) :
  of_project df project_id = Ok scoped ->
  if given project_id
  then has_column df "project_id" = true
       /\ rows scoped
          = List.filter (fun r => cell_eqb (at_col r "project_id")
                                           (Str (default "" project_id))) (rows df)
  else scoped = df.
Proof.
  unfold of_project. destruct (given project_id).
  - destruct (has_column df "project_id"); [|discriminate].
    intros H. apply Ok_inj in H. by subst.
  - intros H. by apply Ok_inj in H.
Qed.

Lemma of_project_subset (df scoped : DataFrame) (project_id : option string) (r : row) :
  of_project df project_id = Ok scoped -> r ∈ rows scoped -> r ∈ rows df.
Proof.
  intros H Hr. apply of_project_rows in H. destruct (given project_id).
  - destruct H as [_ E]. rewrite E in Hr. apply list_elem_of_In, filter_In in Hr.
    apply list_elem_of_In. tauto.
  - by subst.
Qed.

(** What a returned risk analysis is made of. *)
Lemma analyze_project_risks_inv (data : Dataset) (project_id : option string)
    (ra : RiskAnalysis) :
  analyze_project_risks data project_id = Ok (Report ra) ->
  exists tasks_df features_df labeled scoped,
    of_project (tasks data) project_id = Ok tasks_df
    /\ empty_frame tasks_df = false
    /\ prepare_features data = Ok features_df
    /\ create_delay_labels features_df = Ok labeled
    /\ of_project labeled project_id = Ok scoped
    /\ total_tasks ra = length (rows scoped)
    /\ delayed_tasks ra
       = count_rows scoped (fun r => cell_eqb (at_col r "is_delayed") (Num 1))
    /\ high_risk_tasks ra
       = count_rows scoped (fun r => cell_gt (at_col r "risk_score") (Num 70))
    /\ average_delay_days ra = mean (series scoped "delay_days")
    /\ critical_tasks ra = restrict critical_columns <$> List.filter is_critical (rows scoped).
Proof.
  unfold analyze_project_risks. intros H.
  step_ok H. rename a into tasks_df, Ha into Ht.
  destruct (empty_frame tasks_df) eqn:He; [discriminate|].
  step_ok H. step_ok H. step_ok H.
  rename a into features_df, a0 into labeled, a1 into scoped.
  do 7 step_ok H. apply Ok_inj in H. apply (f_equal (fun x => match x with
    | Report y => Some y | ErrorDict _ => None end)) in H. cbn in H.
  apply (inj Some) in H. subst ra. cbn [total_tasks delayed_tasks high_risk_tasks
    average_delay_days critical_tasks].
  exists tasks_df, features_df, labeled, scoped.
  assert (E1 : a = count_rows scoped (fun r => cell_eqb (at_col r "is_delayed") (Num 1))).
  { destruct (has_column scoped "is_delayed"); [|discriminate]. by apply Ok_inj in Ha2. }
  assert (E2 : a1 = count_rows scoped (fun r => cell_gt (at_col r "risk_score") (Num 70))).
  { destruct (has_column scoped "risk_score"); [|discriminate]. by apply Ok_inj in Ha4. }
  assert (E3 : a0 = mean (series scoped "delay_days")).
  { unfold column in Ha3. destruct (has_column scoped "delay_days"); [|discriminate].
    cbn [rbind] in Ha3. by apply Ok_inj in Ha3. }
  assert (E4 : rows a5 = restrict critical_columns <$> List.filter is_critical (rows scoped)).
  { unfold select in Ha8. destruct (forallb _ _); [|discriminate].
    apply Ok_inj in Ha8. by subst a5. }
  exact (conj Ht (conj He (conj Ha (conj Ha0 (conj Ha1 (conj eq_refl
           (conj E1 (conj E2 (conj E3 E4))))))))).
Qed.

Lemma numeric_columns_project_id : "project_id" ∉ numeric_columns.
Proof. apply (bool_decide_unpack _). by vm_compute. Qed.

(** X8: in a risk analysis that is returned, the tasks with risk score
    above 70 are among the critical tasks, the critical tasks and the
    delayed tasks are among the analysed tasks, and at least one task is
    analysed. *)
Theorem risk_counts_consistent (data : Dataset) (project_id : option string)
    (ra : RiskAnalysis) :
  analyze_project_risks data project_id = Ok (Report ra) ->
  (high_risk_tasks ra <= length (critical_tasks ra))%nat
  /\ (length (critical_tasks ra) <= total_tasks ra)%nat
  /\ (delayed_tasks ra <= total_tasks ra)%nat
  /\ (1 <= total_tasks ra)%nat.
Proof.
  intros H.
  destruct (analyze_project_risks_inv _ _ _ H)
    as (t & f & l & s & Ht & He & Hf & Hl & Hs & -> & -> & -> & _ & ->).
  unfold count_rows. rewrite length_fmap.
  split; [|split; [|split]].
  - apply length_filter_impl. intros r Hr.
    apply is_critical_iff. left. apply cell_gt_num in Hr as (x & Hx & H70).
    exists x. split; [done|]. apply Qlt_trans with (y := 70%Q); done.
  - apply filter_length_le.
  - apply filter_length_le.
  - destruct (empty_frame_false _ He) as (r0 & Hr0).
    destruct (prepare_features_rows _ _ Hf) as (Fw & _ & _).
    destruct (create_delay_labels_keeps _ _ Hl) as (Lw & _).
    pose proof (of_project_subset _ _ _ _ Ht Hr0) as Hr0'.
    destruct (Fw r0 Hr0') as (r1 & Hr1 & K1).
    destruct (Lw r1 Hr1) as (r2 & Hr2 & K2).
    assert (Hin : r2 ∈ rows s); [|destruct (rows s); [by apply elem_of_nil in Hin|simpl; lia]].
    apply of_project_rows in Ht, Hs. destruct (given project_id).
    + destruct Ht as [Hc Et], Hs as [_ Es]. rewrite Es.
      apply list_elem_of_In, filter_In. split; [by apply list_elem_of_In|].
      rewrite K2 by done. rewrite K1.
      * rewrite Et in Hr0. apply list_elem_of_In, filter_In in Hr0. tauto.
      * by apply has_column_elem.
      * apply numeric_columns_project_id.
    + by subst.
Qed.

(** X9: in a risk analysis that is returned, [delayed_tasks] is the number
    of labelled rows in scope whose [delay_days] is a positive number, and
    [average_delay_days] is the mean of the [delay_days] of those rows. *)
Theorem delayed_tasks_counts_late_rows (data : Dataset) (project_id : option string)
    (ra : RiskAnalysis) :
  analyze_project_risks data project_id = Ok (Report ra) ->
  exists features_df labeled scoped,
    prepare_features data = Ok features_df
    /\ create_delay_labels features_df = Ok labeled
    /\ of_project labeled project_id = Ok scoped
    /\ delayed_tasks ra
       = length (List.filter (fun r => cell_gt (at_col r "delay_days") (Num 0)) (rows scoped))
    /\ (forall r, cell_gt (at_col r "delay_days") (Num 0) = true <->
                  exists d, at_col r "delay_days" = Num d /\ (0 < d)%Q)
    /\ average_delay_days ra = mean (series scoped "delay_days").
Proof.
  intros H.
  destruct (analyze_project_risks_inv _ _ _ H)
    as (t & f & l & s & _ & _ & Hf & Hl & Hs & _ & -> & _ & -> & _).
  exists f, l, s. do 3 (split; [done|]).
  split; [|split; [intros r; apply cell_gt_num | done]].
  unfold count_rows. f_equal. apply filter_ext_in. intros r Hr.
  apply list_elem_of_In in Hr. pose proof (of_project_subset _ _ _ _ Hs Hr) as Hr'.
  destruct (create_delay_labels_rows _ _ _ Hl Hr') as (_ & -> & _).
  unfold is_delayed_of. rewrite cell_gt_fillna_zero.
  by destruct (cell_gt (at_col r "delay_days") (Num 0)).
Qed.

(** X10: for a project no task belongs to, the risk analysis returns the
    "No tasks found for analysis" error dictionary, whatever the other
    tables hold. *)
Theorem unknown_project_reports_no_tasks (data : Dataset) (project_id : string) :
  project_id <> "" ->
  has_column (tasks data) "project_id" = true ->
  (forall r, r ∈ rows (tasks data) -> at_col r "project_id" <> Str project_id) ->
  analyze_project_risks data (Some project_id) = Ok (ErrorDict "No tasks found for analysis").
Proof.
  intros Hne Hc Hnone. unfold analyze_project_risks.
  assert (Hs : of_project (tasks data) (Some project_id)
               = Ok (where_rows (tasks data)
                       (fun r => cell_eqb (at_col r "project_id") (Str project_id)))).
  { unfold of_project, given. rewrite bool_decide_eq_false_2 by done.
    cbn [negb default]. by rewrite Hc. }
  rewrite Hs. cbn [rbind].
  assert (empty_frame (where_rows (tasks data)
            (fun r => cell_eqb (at_col r "project_id") (Str project_id))) = true) as ->;
    [|done].
  unfold empty_frame, where_rows. cbn [rows columns].
  assert (E : List.filter (fun r => cell_eqb (at_col r "project_id") (Str project_id))
                (rows (tasks data)) = []); [|by rewrite E].
  induction (rows (tasks data)) as [|r l IH]; [done|]. simpl.
  assert (Hr : cell_eqb (at_col r "project_id") (Str project_id) = false).
  { specialize (Hnone r (list_elem_of_here _ _)).
    destruct (at_col r "project_id") as [|q|s|k]; try done. simpl.
    apply bool_decide_eq_false_2. congruence. }
  rewrite Hr. apply IH. intros r' Hr'. apply Hnone. by right.
Qed.

(** X11: an empty project id is no project id: the analysis covers every
    project. *)
Theorem empty_project_id_means_all (data : Dataset) :
  analyze_project_risks data (Some EmptyString) = analyze_project_risks data None.
Proof. reflexivity. Qed.

(** * Further properties of the trainer *)

Lemma fst_zip_take {A B : Type} (l : list A) (k : list B) :
  (zip l k).*1 = take (length k) l.
Proof.
  revert k. induction l as [|x l IH]; intros [|y k]; simpl; try done.
  by rewrite IH.
Qed.

Lemma snd_zip_take {A B : Type} (l : list A) (k : list B) :
  (zip l k).*2 = take (length l) k.
Proof.
  revert k. induction l as [|x l IH]; intros [|y k]; simpl; try done.
  by rewrite IH.
Qed.

Lemma has_column_create_delay_labels (df out : DataFrame) (c : string) :
  create_delay_labels df = Ok out ->
  has_column df c = true -> has_column out c = true.
Proof.
  unfold create_delay_labels. intros H Hc. do 2 step_ok H.
  apply derive_Ok in Ha, Ha0, H. subst.
  by rewrite !has_column_assign, Hc.
Qed.

Ltac fields :=
  cbn [delay_classifier duration_predictor scaler feature_columns is_trained
       set_feature_columns set_is_trained set_scaler set_duration_predictor
       set_delay_classifier].

Section TrainerEffects.

Context {sk : Sklearn}.

(** What a call of [train_models] does once the labelled table is built:
    the feature columns it leaves, the errors it can report and the names
    in its summary. *)
Lemma train_models_effects (data : Dataset) (self : DelayPredictor sk)
    (features_df labeled : DataFrame) :
  prepare_features data = Ok features_df ->
  create_delay_labels features_df = Ok labeled ->
  feature_columns (train_models data self).1
  = List.filter (has_column labeled) PREDICTION_FEATURES
  /\ (train_models data self).2 <> Ok (ErrorDict "No valid features available")
  /\ (forall s, (train_models data self).2 = Ok (Report s) ->
        features_used s = feature_columns (train_models data self).1
        /\ exists importances,
             feature_importances_ sk (duration_predictor (train_models data self).1)
             = Ok importances
             /\ feature_importance s = zip (features_used s) importances).
Proof.
  intros Hf Hl.
  destruct (create_delay_labels_columns _ _ Hl) as (_ & _ & Hr & _).
  pose proof (risk_score_available _ Hr) as Hin.
  pose proof (feature_matrix_available labeled PREDICTION_FEATURES) as (X & HX & _).
  unfold train_models, bind, lift, update, read, ret, self_scaler_fit,
    self_scaler_transform, self_duration_predictor_fit, self_delay_classifier_fit.
  rewrite Hf, Hl.
  remember (List.filter (has_column labeled) PREDICTION_FEATURES) as cols eqn:Hcols.
  fields.
  rewrite bool_decide_eq_false_2 by (by intros E; rewrite E in Hin).
  rewrite HX.
  destruct (filled_column labeled "delay_days" (Num 0)) as [y_delay_days|e];
    [|by split_and!].
  destruct (filled_column labeled "delay_category" (Str "no_delay"))
    as [y_delay_category|e]; [|by split_and!].
  destruct (length X <? 10)%nat; [by split_and!|].
  destruct (train_test_split sk X y_delay_days y_delay_category)
    as [[[[X_train X_test] [y_delay_train y_delay_test]] [y_cat_train y_cat_test]]|e];
    [|by split_and!].
  fields.
  destruct (scaler_fit sk (scaler self) X_train) as [scl [[]|e]]; [|by split_and!].
  fields.
  destruct (scaler_transform sk scl X_train) as [X_train_scaled|e]; [|by split_and!].
  destruct (scaler_transform sk scl X_test) as [X_test_scaled|e]; [|by split_and!].
  fields.
  destruct (regressor_fit sk (duration_predictor self) X_train_scaled y_delay_train)
    as [reg [[]|e]]; [|by split_and!].
  fields.
  destruct (classifier_fit sk (delay_classifier self) X_train_scaled y_cat_train)
    as [clf [[]|e]]; [|by split_and!].
  fields.
  destruct (regressor_predict sk reg X_test_scaled) as [duration_pred|e]; [|by split_and!].
  destruct (classifier_predict sk clf X_test_scaled) as [category_pred|e];
    [|by split_and!].
  destruct (root_mean_squared_error sk y_delay_test duration_pred) as [rmse|e];
    [|by split_and!].
  destruct (feature_importances_ sk reg) as [importances|e] eqn:Himp;
    cbn [fst snd]; fields; [|by split_and!].
  split; [reflexivity|]. split; [discriminate|].
  intros s E. apply Ok_inj in E.
  apply (f_equal (fun x => match x with Report y => Some y | ErrorDict _ => None end)) in E.
  apply (inj Some) in E. subst s. cbn [features_used feature_importance].
  split; [reflexivity|]. exists importances. by split.
Qed.

Lemma train_models_report_tables (data : Dataset) (self : DelayPredictor sk)
    (s : TrainingSummary) :
  (train_models data self).2 = Ok (Report s) ->
  exists features_df labeled,
    prepare_features data = Ok features_df /\ create_delay_labels features_df = Ok labeled.
Proof.
  intros H.
  destruct (train_models_outcome data self)
    as [[_ Hr] | (_ & _ & f & l & X & yd & yc & X_train & X_test & y_delay_train
                  & ydt & y_cat_train & yct & X_train_scaled & Hf & Hl & _)].
  - cbn [snd] in Hr. rewrite H in Hr. discriminate.
  - by exists f, l.
Qed.

(** X12: the "No valid features available" error of [train_models] is
    never returned: whenever the labelled table is built it has the
    [risk_score] column, which is a prediction feature. *)
Theorem no_valid_features_unreachable (data : Dataset) (self : DelayPredictor sk) :
  (train_models data self).2 <> Ok (ErrorDict "No valid features available").
Proof.
  destruct (prepare_features data) as [features_df|e] eqn:Hf.
  - destruct (create_delay_labels features_df) as [labeled|e] eqn:Hl.
    + by destruct (train_models_effects data self _ _ Hf Hl) as (_ & H & _).
    + unfold train_models, bind, lift. by rewrite Hf, Hl.
  - unfold train_models, bind, lift. by rewrite Hf.
Qed.

(** X13: once the labelled table is built, a call of [train_models],
    whatever it returns, leaves as feature columns a sublist of
    [PREDICTION_FEATURES] that holds the eight canonical features and
    [risk_score], and none of [delay_days], [delay_category] and
    [is_delayed]. *)
Theorem canonical_features_selected (data : Dataset) (self : DelayPredictor sk)
    (features_df labeled : DataFrame) :
  prepare_features data = Ok features_df ->
  create_delay_labels features_df = Ok labeled ->
  sublist (feature_columns (train_models data self).1) PREDICTION_FEATURES
  /\ (forall c, c ∈ numeric_columns -> c ∈ feature_columns (train_models data self).1)
  /\ "risk_score" ∈ feature_columns (train_models data self).1
  /\ (forall c, c ∈ ["delay_days"; "delay_category"; "is_delayed"] ->
                c ∉ feature_columns (train_models data self).1).
Proof.
  intros Hf Hl.
  destruct (train_models_effects data self _ _ Hf Hl) as (-> & _).
  destruct (create_delay_labels_columns _ _ Hl) as (_ & _ & Hr & _).
  assert (Hsub : sublist (List.filter (has_column labeled) PREDICTION_FEATURES)
                   PREDICTION_FEATURES).
  { generalize PREDICTION_FEATURES. intros l. induction l as [|x l IH]; [done|].
    simpl. destruct (has_column labeled x); by constructor. }
  split; [exact Hsub|]. split; [|split].
  - intros c Hc. apply list_elem_of_In, filter_In. split.
    + apply list_elem_of_In. revert c Hc. apply Forall_forall.
      apply (bool_decide_unpack _). by vm_compute.
    + apply (has_column_create_delay_labels _ _ _ Hl).
      apply has_column_elem.
      destruct (prepare_features_loop _ _ Hf) as (u & f1 & p & f2 & t & f3 & _ & _ & _ & _ & _
        & _ & _ & ->).
      apply has_column_elem. apply has_column_fill_all. by left.
  - apply list_elem_of_In. by apply risk_score_available.
  - intros c Hc Hin. apply list_elem_of_In, filter_In in Hin as [Hin _].
    apply (proj2 (list_elem_of_In _ _)) in Hin. revert c Hc Hin.
    apply (proj1 (Forall_forall (fun c => c ∈ PREDICTION_FEATURES -> False) _)).
    apply (bool_decide_unpack _). by vm_compute.
Qed.

(** X14: in a training summary that is returned, [features_used] is the
    list of feature columns the object now holds, and the names in
    [feature_importance] are those features, in order, one for each
    importance the fitted regressor reports. *)
Theorem training_summary_names (data : Dataset) (self : DelayPredictor sk)
    (s : TrainingSummary) :
  (train_models data self).2 = Ok (Report s) ->
  features_used s = feature_columns (train_models data self).1
  /\ exists importances,
       feature_importances_ sk (duration_predictor (train_models data self).1)
       = Ok importances
       /\ (feature_importance s).*1 = take (length importances) (features_used s)
       /\ (feature_importance s).*2 = take (length (features_used s)) importances.
Proof.
  intros H.
  destruct (train_models_report_tables data self s H) as (features_df & labeled & Hf & Hl).
  destruct (train_models_effects data self _ _ Hf Hl) as (_ & _ & Hs).
  destruct (Hs s H) as (E & imps & Hi & Hz).
  split; [exact E|]. exists imps. split; [exact Hi|].
  rewrite Hz. split; [apply fst_zip_take | apply snd_zip_take].
Qed.

End TrainerEffects.

(** * Further properties of the predictor and of its callers *)

Lemma Qgtb_ext (x y x' y' : Q) :
  ((y < x)%Q <-> (y' < x')%Q) -> Qgtb x y = Qgtb x' y'.
Proof. intros H. apply eq_true_iff_eq. by rewrite !Qgtb_lt. Qed.

Lemma Qmax_0_pos (x : Q) : (0 < x)%Q -> Qmax 0 x = x.
Proof.
  intros H. unfold Qmax, GenericMinMax.gmax.
  destruct (0 ?= x)%Q eqn:E; try reflexivity.
  - apply Qeq_alt in E. rewrite E in H. by apply Qlt_irrefl in H.
  - apply Qgt_alt in E. exfalso. apply (Qlt_irrefl x). by apply Qlt_trans with (y := 0%Q).
Qed.

(** Clipping the risk score at 0 and at 100 moves it across no threshold
    between them. *)
Lemma risk_above (raw t : Q) :
  (0 <= t)%Q -> (t < 100)%Q ->
  Qgtb (Qmin (Qmax (raw * 15) 0) 100) t = Qgtb (15 * Qmax 0 raw) t.
Proof.
  intros H0 H100. apply Qgtb_ext.
  rewrite Q.min_glb_lt_iff, Q.max_lt_iff.
  destruct (Qlt_le_dec 0 raw) as [Hpos | Hneg].
  - rewrite (Qmax_0_pos _ Hpos), (Qmult_comm 15 raw). split; [|tauto].
    intros [[H | H] _]; [done|]. exfalso. apply (Qlt_irrefl t).
    by apply Qlt_le_trans with (y := 0%Q).
  - rewrite (Qmax_0_nonpos _ Hneg).
    assert (Hr : (raw * 15 <= 0)%Q).
    { apply Qle_trans with (y := (0 * 15)%Q); [|done]. by apply Qmult_le_compat_r. }
    split.
    + intros [[H | H] _]; exfalso; apply (Qlt_irrefl t).
      * apply Qlt_le_trans with (y := (raw * 15)%Q); [done|].
        by apply Qle_trans with (y := 0%Q).
      * by apply Qlt_le_trans with (y := 0%Q).
    + intros H. exfalso. apply (Qlt_irrefl t).
      apply Qlt_le_trans with (y := (15 * 0)%Q); [done|]. by apply Qle_trans with (y := 0%Q).
Qed.

Lemma positive_part_above (raw : Q) : Qgtb raw 0 = Qgtb (Qmax 0 raw) 0.
Proof.
  apply Qgtb_ext. destruct (Qlt_le_dec 0 raw) as [Hpos | Hneg].
  - by rewrite (Qmax_0_pos _ Hpos).
  - rewrite (Qmax_0_nonpos _ Hneg). split; intros H; exfalso.
    + apply (Qlt_irrefl 0). by apply Qlt_le_trans with (y := raw).
    + by apply Qlt_irrefl in H.
Qed.

Section Callers.

Context {sk : Sklearn}.

(** X15: the recommendation of a returned prediction is a function of its
    [predicted_delay_days] alone, the tiers of [_get_recommendation] read
    at 15 times that number: clipping the risk score and the delay moves
    no prediction to another tier. *)
Theorem recommendation_by_predicted_delay (self : DelayPredictor sk)
    (task_data : gmap string cell) (p : Prediction) :
  (predict_task_delay task_data self).2 = Ok (Report p) ->
  recommendation p
  = get_recommendation (15 * predicted_delay_days p) (predicted_delay_days p)
  /\ ((80 < 15 * predicted_delay_days p)%Q -> (80 < risk_score p)%Q)
  /\ ((15 * predicted_delay_days p <= 40)%Q -> (risk_score p <= 40)%Q).
Proof.
  intros H.
  destruct (predict_task_delay_outcome task_data self) as (_ & _ & Hp).
  destruct (Hp p H) as (_ & Xs & raw & _ & _ & -> & Hr & ->). rewrite Hr.
  split; [|split].
  - unfold get_recommendation.
    rewrite !risk_above by done. by rewrite <- positive_part_above.
  - intros H80. apply Qgtb_lt. rewrite risk_above by done. by apply Qgtb_lt.
  - intros H40. apply Qgtb_le. rewrite risk_above by done. by apply Qgtb_le.
Qed.

Lemma predict_task_delay_trained (task_data : gmap string cell) (self : DelayPredictor sk)
    (msg : string) :
  is_trained self = true ->
  (predict_task_delay task_data self).2 <> Ok (ErrorDict msg).
Proof.
  intros Ht.
  unfold predict_task_delay, bind, lift, read, ret, self_scaler_transform.
  rewrite Ht. cbn [negb fst snd].
  destruct (scaler_transform sk (scaler self)
              [feature_value task_data <$> feature_columns self])
    as [features_scaled|e]; cbn [fst snd]; [|discriminate].
  destruct (try a <- regressor_predict sk (duration_predictor self) features_scaled; item0 a)
    as [raw|e]; cbn [fst snd]; [|discriminate].
  destruct (try a <- classifier_predict sk (delay_classifier self) features_scaled; item0 a)
    as [category|e]; cbn [fst snd]; [|discriminate].
  destruct (try a <- classifier_predict_proba sk (delay_classifier self) features_scaled;
            item0 a) as [probabilities|e]; cbn [fst snd]; [|discriminate].
  destruct (classes_ sk (delay_classifier self)) as [classes|e]; cbn [fst snd];
    discriminate.
Qed.

(** X16: the feature vector the runner's task dictionary gives over
    [PREDICTION_FEATURES]: four cells read from the task row with their
    fallbacks, the constants 3, 25, 50 and 30 whatever the row holds, and 0
    for each of the other twenty-five features, [risk_score] among them. *)
Theorem runner_feature_vector (task : row) :
  feature_value (runner_task_data task) <$> PREDICTION_FEATURES
  = ([ DataLoader.row_get task "estimated_hours" (Num 24);
      DataLoader.row_get task "progress_ratio" (Num 0.5);
      DataLoader.row_get task "dependency_count" (Num 0);
      Num 3;
      DataLoader.row_get task "priority_numeric" (Num 2);
      Num 25; Num 50; Num 30 ] ++ replicate 25 (Num 0))%list.
Proof.
  unfold runner_task_data.
  generalize (DataLoader.row_get task "estimated_hours" (Num 24)).
  generalize (DataLoader.row_get task "progress_ratio" (Num 0.5)).
  generalize (DataLoader.row_get task "dependency_count" (Num 0)).
  generalize (DataLoader.row_get task "priority_numeric" (Num 2)).
  intros c1 c2 c3 c4. vm_compute. reflexivity.
Qed.

(** X17: [train_prediction_models] raises nothing: it always returns a
    dictionary, the "No data available" error without touching the object
    when the runner holds no data, and otherwise what [train_models]
    returned, or the error dictionary of the exception it raised; the
    runner's data and predictions are as before, and its predictor is the
    one [train_models] left. *)
Theorem train_prediction_models_never_raises (self : AnalysisRunner sk) :
  is_ok (train_prediction_models self).2 = true
  /\ runner_data (train_prediction_models self).1 = runner_data self
  /\ predictions (train_prediction_models self).1 = predictions self
  /\ match runner_data self with
     | None => train_prediction_models self = (self, Ok (ErrorDict "No data available"))
     | Some data =>
         predictor (train_prediction_models self).1 = (train_models data (predictor self)).1
         /\ (train_prediction_models self).2
            = match (train_models data (predictor self)).2 with
              | Ok r => Ok r
              | Raise e => Ok (ErrorDict (str_exn e))
              end
     end.
Proof.
  unfold train_prediction_models, catching, on_predictor.
  destruct (runner_data self) as [data|] eqn:Hd;
    [|exact (conj eq_refl (conj Hd (conj eq_refl eq_refl)))].
  destruct (train_models data (predictor self)) as [p [r|e]];
    cbn [fst snd set_predictor runner_data predictions predictor is_ok];
    exact (conj eq_refl (conj Hd (conj eq_refl (conj eq_refl eq_refl)))).
Qed.

Lemma train_prediction_models_data (self : AnalysisRunner sk) :
  runner_data (train_prediction_models self).1 = runner_data self.
Proof.
  unfold train_prediction_models, catching, on_predictor.
  destruct (runner_data self) as [data|] eqn:Hd; [|exact Hd].
  destruct (train_models data (predictor self)) as [p [r|e]]; exact Hd.
Qed.

Lemma predict_for_tasks_trained (tasks : list row) (acc : list PredictionEntry)
    (p : DelayPredictor sk) :
  is_trained p = true ->
  exists l,
    predict_for_tasks tasks acc p = (p, Ok (app acc l))
    /\ (length l <= length tasks)%nat
    /\ Forall (fun e => exists task, task ∈ tasks /\ entry_of p task e) l.
Proof.
  intros Ht. revert acc. induction tasks as [|task tasks IH]; intros acc.
  { exists []. simpl. unfold ret. by rewrite app_nil_r. }
  cbn [predict_for_tasks]. unfold bind, predict_for_task.
  pose proof (predict_task_delay_outcome (runner_task_data task) p) as (E1 & _ & _).
  pose proof (predict_task_delay_trained (runner_task_data task) p) as Hne.
  destruct (predict_task_delay (runner_task_data task) p) as [p' [[msg|pr]|e]] eqn:Hp;
    cbn [fst snd] in E1, Hne; subst p'.
  - by destruct (Hne msg Ht).
  - destruct (IH (app acc [ {| entry_result := Report pr;
        task_id := DataLoader.row_get task "id" (Str "");
        task_title := DataLoader.row_get task "title" (Str "Unknown Task");
        current_status := DataLoader.row_get task "status" (Str "unknown");
        entry_priority := DataLoader.row_get task "priority" (Str "medium") |} ]))
      as (l & El & Hlen & Hall).
    eexists (_ :: l). split; [|split].
    + rewrite El. by rewrite <- app_assoc.
    + simpl. lia.
    + constructor.
      * exists task. split; [by left|]. exists pr. rewrite Hp.
        exact (conj eq_refl (conj eq_refl (conj eq_refl (conj eq_refl
                 (conj eq_refl eq_refl))))).
      * eapply Forall_impl; [exact Hall|]. intros e (t & Hin & He). exists t.
        split; [by right | done].
  - destruct (IH acc) as (l & El & Hlen & Hall). exists l. split; [done|]. split.
    + simpl. lia.
    + eapply Forall_impl; [exact Hall|]. intros e' (t & Hin & He). exists t.
      split; [by right | done].
Qed.

(** X18: [generate_predictions_for_all_tasks] raises nothing; the list it
    returns is empty when the runner holds no data or the predictor is
    still untrained after the training attempt, has at most one entry for
    each task, and every entry holds the prediction made for a task row
    from the runner's task dictionary, with the row's id, title, status and
    priority, a risk score between 0 and 100 and a delay that is not
    negative. *)
Theorem generated_predictions (self : AnalysisRunner sk) :
  exists l,
    (generate_predictions_for_all_tasks self).2 = Ok l
    /\ (runner_data self = None -> l = [])
    /\ (is_trained (predictor (generate_predictions_for_all_tasks self).1) = false -> l = [])
    /\ (forall data, runner_data self = Some data ->
          (length l <= length (rows (tasks data)))%nat
          /\ Forall (fun e =>
                exists task pr,
                  task ∈ rows (tasks data)
                  /\ entry_of (predictor (generate_predictions_for_all_tasks self).1) task e
                  /\ entry_result e = Report pr
                  /\ (0 <= risk_score pr <= 100)%Q
                  /\ (0 <= predicted_delay_days pr)%Q) l).
Proof.
  unfold generate_predictions_for_all_tasks.
  pose proof (train_prediction_models_data self) as Hd.
  set (self1 := if negb (is_trained (predictor self))
                then (train_prediction_models self).1 else self).
  assert (Hd1 : runner_data self1 = runner_data self).
  { unfold self1. by destruct (negb (is_trained (predictor self))). }
  clearbody self1.
  destruct (is_trained (predictor self1)) eqn:Ht; cbn [negb].
  2: { exists []. cbn [fst snd]. do 3 (split; [done|]). intros data _.
       split; [simpl; lia | constructor]. }
  destruct (runner_data self1) as [data|] eqn:Hdata.
  2: { exists []. cbn [fst snd]. do 3 (split; [done|]). intros data Hsome.
       rewrite <- Hd1 in Hsome. discriminate. }
  destruct (empty_frame (tasks data)).
  { exists []. cbn [fst snd]. do 3 (split; [done|]). intros data' _.
    split; [simpl; lia | constructor]. }
  destruct (predict_for_tasks_trained (rows (tasks data)) [] (predictor self1) Ht)
    as (l & El & Hlen & Hall).
  rewrite El. cbn [fst snd app set_predictions set_predictor predictor].
  exists l. split; [done|]. split; [intros E; rewrite <- Hd1 in E; discriminate|].
  split; [by rewrite Ht|].
  intros data' Hsome. rewrite <- Hd1 in Hsome. apply (inj Some) in Hsome. subst data'.
  split; [done|]. eapply Forall_impl; [exact Hall|].
  intros e (task & Hin & He). pose proof He as (pr & Hp & Hres & _).
  exists task, pr. split; [done|]. split; [done|]. split; [done|].
  destruct (predict_task_delay_outcome (runner_task_data task) (predictor self1))
    as (_ & _ & Hout).
  destruct (Hout pr Hp) as (_ & Xs & raw & _ & _ & -> & -> & _).
  split; [apply (clip_bounds (raw * 15)) | apply Q.le_max_l].
Qed.

(** X19: every recommendation of [get_high_risk_recommendations] is made
    from a stored prediction with risk score above 60 and carries four
    actions: the immediate ones above 80, the monitoring ones from 60 to
    80; there are no more recommendations than predictions. *)
Theorem high_risk_recommendations (self : AnalysisRunner sk) :
  (length (get_high_risk_recommendations self) <= length (predictions self))%nat
  /\ Forall (fun rec =>
        exists pred,
          pred ∈ predictions self
          /\ rec = recommend pred
          /\ (60 < entry_risk_score pred)%Q
          /\ length (actions rec) = 4%nat
          /\ ((80 < entry_risk_score pred)%Q -> actions rec = immediate_actions)
          /\ ((entry_risk_score pred <= 80)%Q -> actions rec = monitoring_actions)
          /\ rec_risk_score rec = Some (entry_risk_score pred))
       (get_high_risk_recommendations self).
Proof.
  unfold get_high_risk_recommendations.
  assert (H : (length (recommend <$> List.filter
                  (fun pred => Qgtb (entry_risk_score pred) 60) (predictions self))
               <= length (predictions self))%nat
              /\ Forall (fun rec =>
                    exists pred,
                      pred ∈ predictions self
                      /\ rec = recommend pred
                      /\ (60 < entry_risk_score pred)%Q
                      /\ length (actions rec) = 4%nat
                      /\ ((80 < entry_risk_score pred)%Q -> actions rec = immediate_actions)
                      /\ ((entry_risk_score pred <= 80)%Q ->
                          actions rec = monitoring_actions)
                      /\ rec_risk_score rec = Some (entry_risk_score pred))
                   (recommend <$> List.filter
                      (fun pred => Qgtb (entry_risk_score pred) 60) (predictions self))).
  { split; [rewrite length_fmap; apply filter_length_le|].
    apply Forall_fmap, Forall_forall. intros pred Hin.
    apply list_elem_of_In, filter_In in Hin as [Hin H60].
    exists pred. split; [by apply list_elem_of_In|]. split; [done|].
    pose proof H60 as H60'. apply Qgtb_lt in H60'. split; [done|].
    unfold recommend. cbn [actions rec_risk_score]. rewrite H60.
    destruct (Qgtb (entry_risk_score pred) 80) eqn:H80.
    - split; [done|]. split; [done|]. split.
      + intros Hle. apply Qgtb_le in Hle. congruence.
      + unfold entry_risk_score in *. destruct (entry_result pred); [done|].
        by apply Qgtb_lt in H60.
    - split; [done|]. split.
      + intros Hgt. apply Qgtb_lt in Hgt. congruence.
      + split; [done|]. unfold entry_risk_score in *. destruct (entry_result pred); [done|].
        by apply Qgtb_lt in H60. }
  destruct (predictions self); [|exact H].
  split; [done | constructor].
Qed.

End Callers.

(** * Further properties across the loader, the labels and the analysis *)

Lemma Qfloor_neg (x : Q) : (inject_Z (Qfloor x) < 0)%Q <-> (x < 0)%Q.
Proof.
  split; intros H.
  - apply Qlt_le_trans with (y := inject_Z (Qfloor x + 1)); [apply Qlt_floor|].
    change 0%Q with (inject_Z 0). rewrite <- Zle_Qle.
    change 0%Q with (inject_Z 0) in H. rewrite <- Zlt_Qlt in H. lia.
  - apply Qle_lt_trans with (y := x); [apply Qfloor_le | done].
Qed.

Lemma Qminus_neg (a b : Q) : (a - b < 0)%Q <-> (a < b)%Q.
Proof.
  unfold Qminus. rewrite <- (Qplus_opp_r b). apply Qplus_lt_l.
Qed.

Lemma rows_time_features_deadline (now : Q) (df : DataFrame) (r : row) :
  r ∈ rows (time_features now df) ->
  exists r0, r0 ∈ rows df
    /\ at_col r "due_date" = at_col r0 "due_date"
    /\ at_col r "days_to_deadline"
       = DataLoader.dt_days (cell_sub (at_col r0 "due_date") (Num now))
    /\ at_col r "is_overdue" = num_of_bool (cell_lt (at_col r "days_to_deadline") (Num 0)).
Proof.
  unfold time_features. intros Hr.
  apply rows_assign_inv in Hr as (r4 & Hr4 & _ & K5).
  apply rows_assign_inv in Hr4 as (r3 & Hr3 & _ & K4).
  apply rows_assign_inv in Hr3 as (r2 & Hr2 & E3 & K3).
  apply rows_assign_inv in Hr2 as (r1 & Hr1 & E2 & K2).
  apply rows_assign_inv in Hr1 as (r0 & Hr0 & _ & K1).
  exists r0. split; [done|].
  rewrite !K5, !K4 by discriminate. rewrite E3. rewrite !K3 by discriminate.
  rewrite E2. rewrite K2 by discriminate. rewrite !K1 by discriminate. done.
Qed.

(** What [_process_tasks_data] keeps of the frame with the time-based
    columns. *)
Lemma process_tasks_data_kept (json_len : string -> result nat) (now : Q)
    (df out : DataFrame) :
  DataLoader.process_tasks_data json_len now df = Ok out ->
  has_column out "delay_days" = true
  /\ exists d4,
       forall r, r ∈ rows out ->
         exists r5, r5 ∈ rows (time_features now d4)
           /\ forall c, c ∉ ["priority_numeric"; "status_numeric"; "dependency_count";
                             "progress_ratio"] ->
                        at_col r c = at_col r5 c.
Proof.
  unfold DataLoader.process_tasks_data. intros H.
  step_ok H. rename a into d1, Ha into H1.
  step_ok H. rename a into d2, Ha into H2.
  step_ok H. rename a into d3, Ha into H3.
  step_ok H. rename a into d4, Ha into H4.
  fold (time_features now d4) in H.
  assert (Ctf : has_column (time_features now d4) "delay_days" = true).
  { unfold time_features. rewrite has_column_assign.
    rewrite (bool_decide_eq_true_2 ("delay_days" = "delay_days")) by done.
    apply orb_true_r. }
  remember (time_features now d4) as tf eqn:Etf.
  destruct (negb (has_column tf "priority")); [discriminate|].
  remember (assign tf "priority_numeric" _) as d6 eqn:E6.
  destruct (negb (has_column d6 "status")); [discriminate|].
  remember (assign d6 "status_numeric" _) as d7 eqn:E7.
  step_ok H. rename a into d8, Ha into H8. apply Ok_inj in H.
  assert (C7 : has_column d7 "delay_days" = true)
    by (rewrite E7, E6, !has_column_assign, Ctf; reflexivity).
  assert (H7 : forall r, r ∈ rows d7 ->
            exists r5, r5 ∈ rows tf
              /\ forall c, c ∉ ["priority_numeric"; "status_numeric"; "dependency_count";
                                "progress_ratio"] ->
                           at_col r c = at_col r5 c).
  { intros r Hr. rewrite E7 in Hr. apply rows_assign_inv in Hr as (r6 & Hr6 & _ & K7).
    rewrite E6 in Hr6. apply rows_assign_inv in Hr6 as (r5 & Hr5 & _ & K6).
    exists r5. split; [done|]. intros c Hc.
    apply not_elem_of_cons in Hc as [N1 Hc]. apply not_elem_of_cons in Hc as [N2 _].
    rewrite K7 by done. by rewrite K6. }
  assert (H8' : has_column d8 "delay_days" = true
                /\ forall r, r ∈ rows d8 ->
                     exists r5, r5 ∈ rows tf
                       /\ forall c, c ∉ ["priority_numeric"; "status_numeric";
                                         "dependency_count"; "progress_ratio"] ->
                                    at_col r c = at_col r5 c).
  { destruct (has_column d7 "dependencies").
    - split; [by rewrite (has_column_assign_try _ _ _ _ _ H8), C7|].
      intros r Hr.
      destruct (assign_try_rows _ _ _ _ _ H8 Hr) as (r7 & v & Hr7 & _ & ->).
      destruct (H7 r7 Hr7) as (r5 & Hr5 & K).
      exists r5. split; [done|]. intros c Hc. rewrite <- (K c Hc).
      apply at_col_insert_ne.
      apply not_elem_of_cons in Hc as [_ Hc]. apply not_elem_of_cons in Hc as [_ Hc].
      apply not_elem_of_cons in Hc as [N3 _]. done.
    - apply Ok_inj in H8. subst d8. by split. }
  destruct H8' as [C8 K8]. subst out. split.
  - by rewrite has_column_assign, C8.
  - exists d4. rewrite <- Etf. intros r Hr.
    apply rows_assign_inv in Hr as (r8 & Hr8 & _ & K9).
    destruct (K8 r8 Hr8) as (r5 & Hr5 & K).
    exists r5. split; [done|]. intros c Hc. rewrite <- (K c Hc). apply K9.
    apply not_elem_of_cons in Hc as [_ Hc]. apply not_elem_of_cons in Hc as [_ Hc].
    apply not_elem_of_cons in Hc as [_ Hc]. apply not_elem_of_cons in Hc as [N4 _]. done.
Qed.

(** X20: the [is_overdue] flag of a processed task is 1 exactly when its
    due date is before the clock reading, whether or not the task is
    completed, and 0 for a task with no due date; [days_to_deadline] is the
    whole days from the clock reading to the due date, rounded down. *)
Theorem overdue_iff_due_date_passed (json_len : string -> result nat) (now : Q)
    (df out : DataFrame) (r : row) :
  DataLoader.process_tasks_data json_len now df = Ok out ->
  r ∈ rows out ->
  (at_col r "due_date" = Null ->
     at_col r "days_to_deadline" = Null /\ at_col r "is_overdue" = Num 0)
  /\ (forall due, at_col r "due_date" = Num due ->
        at_col r "days_to_deadline" = Num (inject_Z (Qfloor (due - now)))
        /\ ((due < now)%Q -> at_col r "is_overdue" = Num 1)
        /\ ((now <= due)%Q -> at_col r "is_overdue" = Num 0)).
Proof.
  intros H Hr.
  destruct (process_tasks_data_kept _ _ _ _ H) as (_ & d4 & K).
  destruct (K r Hr) as (r5 & Hr5 & K5).
  destruct (rows_time_features_deadline _ _ _ Hr5) as (r4 & _ & T1 & T2 & T3).
  assert (Ed : at_col r "days_to_deadline"
               = DataLoader.dt_days (cell_sub (at_col r "due_date") (Num now))).
  { rewrite !K5 by (apply (bool_decide_unpack _); by vm_compute). by rewrite T1. }
  assert (Eo : at_col r "is_overdue"
               = num_of_bool (cell_lt (at_col r "days_to_deadline") (Num 0))).
  { rewrite !K5 by (apply (bool_decide_unpack _); by vm_compute). done. }
  rewrite Eo, Ed. split.
  - intros ->. by split.
  - intros due ->. cbn [cell_sub cell_op DataLoader.dt_days cell_lt cell_gt].
    split; [done|]. split; intros Hd.
    + assert (E : Qgtb 0 (inject_Z (Qfloor (due - now))) = true); [|by rewrite E].
      by apply Qgtb_lt, Qfloor_neg, Qminus_neg.
    + assert (E : Qgtb 0 (inject_Z (Qfloor (due - now))) = false); [|by rewrite E].
      apply Qgtb_le. apply Qnot_lt_le. intros Hf.
      apply (proj1 (Qfloor_neg _)) in Hf. apply (proj1 (Qminus_neg _ _)) in Hf.
      exact (Qlt_not_le _ _ Hf Hd).
Qed.

Lemma processed_delay_cases (json_len : string -> result nat) (now : Q)
    (df out : DataFrame) (r : row) :
  DataLoader.process_tasks_data json_len now df = Ok out ->
  r ∈ rows out ->
  exists d, fillna (Num 0) (at_col r "delay_days") = Num d /\ (0 <= d)%Q.
Proof.
  intros H Hr.
  destruct (process_tasks_data_delay _ _ _ _ _ H Hr) as (Hdue & Hdone & ->).
  destruct Hdue as [-> | [due ->]], Hdone as [-> | [fin ->]];
    cbn [is_null negb cell_sub cell_op DataLoader.dt_days np_maximum fillna];
    eexists; (split; [reflexivity|]); first [apply Q.le_max_l | done].
Qed.

(** X21: on a dataset the loader hands over, every labelled row has a
    [delay_days] that is null or a number that is not negative, a
    [delay_category] that is one of the four labels, and [is_delayed] 1
    exactly when [delay_days] is positive. *)
Theorem loaded_delays_labelled (json_len : string -> result nat) (now : Q)
    (source data : Dataset) (features_df labeled : DataFrame) (r : row) :
  DataLoader.get_comprehensive_dataset json_len now source = Ok data ->
  prepare_features data = Ok features_df ->
  create_delay_labels features_df = Ok labeled ->
  r ∈ rows labeled ->
  exists d,
    fillna (Num 0) (at_col r "delay_days") = Num d
    /\ (0 <= d)%Q
    /\ (exists lab, lab ∈ delay_labels /\ at_col r "delay_category" = Str lab)
    /\ at_col r "is_delayed" = (if Qgtb d 0 then Num 1 else Num 0).
Proof.
  intros Hload Hf Hl Hr.
  assert (Ht : DataLoader.process_tasks_data json_len now (tasks source) = Ok (tasks data)).
  { unfold DataLoader.get_comprehensive_dataset in Hload. do 5 step_ok Hload.
    apply Ok_inj in Hload. subst data. exact Ha1. }
  destruct (process_tasks_data_kept _ _ _ _ Ht) as (Hc & _).
  destruct (create_delay_labels_rows _ _ _ Hl Hr) as (Ecat & Edel & _).
  destruct (create_delay_labels_keeps _ _ Hl) as (_ & Bl).
  destruct (Bl r Hr) as (rf & Hrf & Kl).
  destruct (prepare_features_rows _ _ Hf) as (_ & Bf & _).
  destruct (Bf rf Hrf) as (rt & Hrt & Kf).
  destruct (processed_delay_cases _ _ _ _ _ Ht Hrt) as (d & Hd & H0).
  assert (E : at_col r "delay_days" = at_col rt "delay_days").
  { rewrite Kl by done. apply Kf; [by apply has_column_elem|].
    apply (bool_decide_unpack _). by vm_compute. }
  rewrite <- E in Hd. exists d. split; [exact Hd|]. split; [exact H0|]. split.
  - rewrite Ecat. destruct (delay_category_of_bucket _ _ Hd) as (B1 & B2 & B3 & B4).
    destruct (Qlt_le_dec 1 d) as [H1|H1]; [|exists "no_delay"; split; [|by apply B1]].
    2: { apply (bool_decide_unpack _). by vm_compute. }
    destruct (Qlt_le_dec 3 d) as [H3|H3]; [|exists "minor_delay"; split; [|by apply B2]].
    2: { apply (bool_decide_unpack _). by vm_compute. }
    destruct (Qlt_le_dec 7 d) as [H7|H7]; [|exists "major_delay"; split; [|by apply B3]].
    2: { apply (bool_decide_unpack _). by vm_compute. }
    exists "critical_delay". split; [|by apply B4].
    apply (bool_decide_unpack _). by vm_compute.
  - rewrite Edel. unfold is_delayed_of. rewrite Hd. reflexivity.
Qed.

Lemma elem_of_distinct (l : list cell) (x : cell) : x ∈ distinct l -> x ∈ l.
Proof.
  induction l as [|y l IH]; [done|]. simpl. intros H.
  apply elem_of_cons in H as [-> | H]; [by left|]. right. apply IH.
  apply list_elem_of_In, filter_In in H as [H _]. by apply list_elem_of_In.
Qed.

Lemma cell_eqb_refl (c : cell) : is_null c = false -> cell_eqb c c = true.
Proof.
  destruct c as [|q|s|l]; simpl; intros H; try done.
  - apply Qeq_bool_iff. reflexivity.
  - by apply bool_decide_eq_true.
  - by apply bool_decide_eq_true.
Qed.

(** X22: in a risk analysis that is returned, every entry of
    [tasks_by_status] is for a status that is not null and counts at least
    one and at most all of the analysed tasks. *)
Theorem status_counts_positive (data : Dataset) (project_id : option string)
    (ra : RiskAnalysis) :
  analyze_project_risks data project_id = Ok (Report ra) ->
  Forall (fun kn => is_null kn.1 = false /\ (1 <= kn.2 <= total_tasks ra)%nat)
         (tasks_by_status ra).
Proof.
  unfold analyze_project_risks. intros H.
  step_ok H. destruct (empty_frame a); [discriminate|].
  do 3 step_ok H. rename a2 into scoped.
  do 7 step_ok H. apply Ok_inj in H.
  apply (f_equal (fun x => match x with Report y => Some y | ErrorDict _ => None end)) in H.
  apply (inj Some) in H. subst ra. cbn [tasks_by_status total_tasks].
  unfold value_counts in Ha8. destruct (has_column scoped "status"); [|discriminate].
  apply Ok_inj in Ha8. subst a7.
  apply Forall_fmap, Forall_forall. intros k Hk. cbn [fst snd].
  unfold group_keys in Hk. apply elem_of_distinct in Hk.
  apply list_elem_of_In, filter_In in Hk as [Hk Hn].
  apply negb_true_iff in Hn. split; [exact Hn|].
  unfold count_rows. split; [|apply filter_length_le].
  apply list_elem_of_In in Hk. unfold series in Hk.
  apply list_elem_of_fmap in Hk as (r & -> & Hr).
  assert (Hin : r ∈ List.filter (fun r0 => cell_eqb (at_col r0 "status") (at_col r "status"))
                      (rows scoped)).
  { apply list_elem_of_In, filter_In. split; [by apply list_elem_of_In|].
    by apply cell_eqb_refl. }
  destruct (List.filter _ (rows scoped)); [by apply elem_of_nil in Hin | simpl; lia].
Qed.

Section RunnerAnalysis.

Context {sk : Sklearn}.

(** X23: the runner's [analyze_project_risks] raises nothing and leaves
    the runner as it is: it returns what the predictor's analysis returned,
    or the error dictionary of the exception it raised, which is the
    [KeyError] of the missing task table when the runner holds no data. *)
Theorem runner_analysis_never_raises (self : AnalysisRunner sk) (project_id : option string) :
  (runner_analyze_project_risks project_id self).1 = self
  /\ is_ok (runner_analyze_project_risks project_id self).2 = true
  /\ match runner_data self with
     | Some data =>
         (runner_analyze_project_risks project_id self).2
         = match analyze_project_risks data project_id with
           | Ok r => Ok r
           | Raise e => Ok (ErrorDict (str_exn e))
           end
     | None =>
         (runner_analyze_project_risks project_id self).2
         = Ok (ErrorDict (str_exn KeyError))
     end.
Proof.
  unfold runner_analyze_project_risks, catching.
  destruct (runner_data self) as [data|]; [|done].
  destruct (analyze_project_risks data project_id) as [r|e];
    exact (conj eq_refl (conj eq_refl eq_refl)).
Qed.

End RunnerAnalysis.

(** * The further properties on the samples *)

Lemma sample_features (data : Dataset) :
  is_ok (prepare_features data) = true ->
  prepare_features data = Ok (Samples.features_of data).
Proof. unfold Samples.features_of. apply get_Ok. Qed.

Lemma sample_labels (data : Dataset) :
  is_ok (create_delay_labels (Samples.features_of data)) = true ->
  create_delay_labels (Samples.features_of data) = Ok (Samples.labeled_of data).
Proof. unfold Samples.labeled_of. apply get_Ok. Qed.

Lemma sample_analysis (data : Dataset) :
  is_report (analyze_project_risks data None) = true ->
  analyze_project_risks data None = Ok (Report (Samples.analysis_of data)).
Proof. unfold Samples.analysis_of. apply report_of_Ok. Qed.

Lemma canonical_columns_filled_witness :
  has_column (Samples.features_of Samples.three_days_late) "team_size" = true.
Proof.
  assert (Hf : prepare_features Samples.three_days_late
               = Ok (Samples.features_of Samples.three_days_late))
    by (apply sample_features; vm_compute; reflexivity).
  assert (Hc : "team_size" ∈ numeric_columns)
    by (apply (bool_decide_unpack _); vm_compute; exact I).
  exact (proj1 (canonical_columns_filled _ _ "team_size" 0 Hf Hc)).
Defined.

Lemma prepare_features_keeps_tasks_witness :
  (length (rows (tasks Samples.three_days_late))
   <= length (rows (Samples.features_of Samples.three_days_late)))%nat.
Proof.
  assert (Hf : prepare_features Samples.three_days_late
               = Ok (Samples.features_of Samples.three_days_late))
    by (apply sample_features; vm_compute; reflexivity).
  exact (proj2 (proj2 (prepare_features_keeps_tasks _ _ Hf))).
Defined.

Lemma derived_scores_witness :
  exists q,
    at_col (Samples.first_row (Samples.features_of Samples.three_days_late))
           "domain_complexity_score" = Num q
    /\ (15 <= q <= 45)%Q.
Proof.
  assert (Hf : prepare_features Samples.three_days_late
               = Ok (Samples.features_of Samples.three_days_late))
    by (apply sample_features; vm_compute; reflexivity).
  assert (Hr : Samples.first_row (Samples.features_of Samples.three_days_late)
               ∈ rows (Samples.features_of Samples.three_days_late))
    by (apply first_row_elem; vm_compute; discriminate).
  destruct (derived_scores _ _ _ Hf Hr) as ((q & Hq & Hb & _) & _).
  exists q. exact (conj Hq Hb).
Defined.

Lemma delay_days_nonnegative_witness :
  at_col (Samples.first_row Samples.processed_tasks) "delay_days"
  = Num (Qmax 0 (inject_Z (Qfloor (Samples.today - 20010)))).
Proof.
  assert (H : DataLoader.process_tasks_data Samples.json_array_len Samples.today
                (Samples.task_rows 40 20) = Ok Samples.processed_tasks)
    by (unfold Samples.processed_tasks; apply get_Ok; vm_compute; reflexivity).
  assert (Hr : Samples.first_row Samples.processed_tasks ∈ rows Samples.processed_tasks)
    by (apply first_row_elem; vm_compute; discriminate).
  assert (Hd : at_col (Samples.first_row Samples.processed_tasks) "due_date" = Num 20010)
    by (vm_compute; reflexivity).
  assert (Hc : at_col (Samples.first_row Samples.processed_tasks) "completed_date" = Null)
    by (vm_compute; reflexivity).
  exact (proj2 (proj2 (proj2 (delay_days_nonnegative _ _ _ _ _ H Hr))) 20010%Q Hd Hc).
Defined.

Lemma team_size_counts_members_witness :
  at_col (Samples.first_row Samples.processed_team_table) "team_size" = num_of_nat 2.
Proof.
  assert (Hm : has_column (teams Samples.store) "member_ids" = true)
    by (vm_compute; reflexivity).
  assert (Hs : has_column (teams Samples.store) "skills" = true)
    by (vm_compute; reflexivity).
  assert (H : DataLoader.process_teams_data Samples.json_array_len (teams Samples.store)
              = Ok Samples.processed_team_table)
    by (unfold Samples.processed_team_table; apply get_Ok; vm_compute; reflexivity).
  assert (Hr : Samples.first_row Samples.processed_team_table
               ∈ rows Samples.processed_team_table)
    by (apply first_row_elem; vm_compute; discriminate).
  assert (Hc : at_col (Samples.first_row Samples.processed_team_table) "member_ids"
               = Str (Samples.json_array ["usr4"; "usr5"]))
    by (vm_compute; reflexivity).
  assert (Hn : Samples.json_array_len (Samples.json_array ["usr4"; "usr5"]) = Ok 2%nat)
    by (vm_compute; reflexivity).
  destruct (team_size_counts_members _ _ _ _ Hm Hs H Hr) as (_ & _ & K & _).
  exact (K _ _ Hc Hn).
Defined.

Lemma label_values_witness :
  at_col (Samples.first_row (Samples.labeled_of Samples.three_days_late)) "is_delayed"
  = Num 1.
Proof.
  assert (H : create_delay_labels (Samples.features_of Samples.three_days_late)
              = Ok (Samples.labeled_of Samples.three_days_late))
    by (apply sample_labels; vm_compute; reflexivity).
  assert (Hr : Samples.first_row (Samples.labeled_of Samples.three_days_late)
               ∈ rows (Samples.labeled_of Samples.three_days_late))
    by (apply first_row_elem; vm_compute; discriminate).
  assert (Hd : at_col (Samples.first_row (Samples.labeled_of Samples.three_days_late))
                      "delay_days" = Num 3)
    by (vm_compute; reflexivity).
  apply (proj1 (label_values _ _ _ H Hr)).
  exists 3%Q. split; [exact Hd | reflexivity].
Defined.

Lemma delayed_within_first_bucket_witness :
  at_col (Samples.first_row (Samples.labeled_of Samples.one_day_late)) "is_delayed" = Num 1
  /\ at_col (Samples.first_row (Samples.labeled_of Samples.one_day_late)) "delay_category"
     = Str "no_delay".
Proof.
  assert (H : create_delay_labels (Samples.features_of Samples.one_day_late)
              = Ok (Samples.labeled_of Samples.one_day_late))
    by (apply sample_labels; vm_compute; reflexivity).
  assert (Hr : Samples.first_row (Samples.labeled_of Samples.one_day_late)
               ∈ rows (Samples.labeled_of Samples.one_day_late))
    by (apply first_row_elem; vm_compute; discriminate).
  assert (Hd : at_col (Samples.first_row (Samples.labeled_of Samples.one_day_late))
                      "delay_days" = Num 1)
    by (vm_compute; reflexivity).
  apply (delayed_within_first_bucket _ _ _ 1 H Hr Hd).
  split; [reflexivity | discriminate].
Defined.

Lemma risk_counts_consistent_witness :
  (high_risk_tasks (Samples.analysis_of Samples.four_days_late)
   <= length (critical_tasks (Samples.analysis_of Samples.four_days_late)))%nat
  /\ (1 <= total_tasks (Samples.analysis_of Samples.four_days_late))%nat.
Proof.
  assert (H : analyze_project_risks Samples.four_days_late None
              = Ok (Report (Samples.analysis_of Samples.four_days_late)))
    by (apply sample_analysis; vm_compute; reflexivity).
  destruct (risk_counts_consistent _ _ _ H) as (H1 & _ & _ & H4).
  exact (conj H1 H4).
Defined.

Lemma delayed_tasks_counts_late_rows_witness :
  exists scoped,
    of_project (Samples.labeled_of Samples.four_days_late) None = Ok scoped
    /\ delayed_tasks (Samples.analysis_of Samples.four_days_late)
       = length (List.filter (fun r => cell_gt (at_col r "delay_days") (Num 0))
                   (rows scoped)).
Proof.
  assert (H : analyze_project_risks Samples.four_days_late None
              = Ok (Report (Samples.analysis_of Samples.four_days_late)))
    by (apply sample_analysis; vm_compute; reflexivity).
  assert (Hf : prepare_features Samples.four_days_late
               = Ok (Samples.features_of Samples.four_days_late))
    by (apply sample_features; vm_compute; reflexivity).
  assert (Hl : create_delay_labels (Samples.features_of Samples.four_days_late)
               = Ok (Samples.labeled_of Samples.four_days_late))
    by (apply sample_labels; vm_compute; reflexivity).
  destruct (delayed_tasks_counts_late_rows _ _ _ H)
    as (f & l & s & H1 & H2 & H3 & H4 & _).
  rewrite Hf in H1. apply Ok_inj in H1. subst f.
  rewrite Hl in H2. apply Ok_inj in H2. subst l.
  exists s. exact (conj H3 H4).
Defined.

Lemma unknown_project_reports_no_tasks_witness :
  analyze_project_risks Samples.four_days_late (Some "proj9")
  = Ok (ErrorDict "No tasks found for analysis").
Proof.
  apply unknown_project_reports_no_tasks.
  - discriminate.
  - vm_compute. reflexivity.
  - intros r Hr E. apply list_elem_of_singleton in Hr. subst r.
    vm_compute in E. discriminate.
Defined.

Lemma canonical_features_selected_witness :
  "team_size" ∈ feature_columns
                  (train_models Samples.four_days_late ConstantModels.fresh).1.
Proof.
  assert (Hf : prepare_features Samples.four_days_late
               = Ok (Samples.features_of Samples.four_days_late))
    by (apply sample_features; vm_compute; reflexivity).
  assert (Hl : create_delay_labels (Samples.features_of Samples.four_days_late)
               = Ok (Samples.labeled_of Samples.four_days_late))
    by (apply sample_labels; vm_compute; reflexivity).
  assert (Hc : "team_size" ∈ numeric_columns)
    by (apply (bool_decide_unpack _); vm_compute; exact I).
  destruct (canonical_features_selected Samples.four_days_late ConstantModels.fresh
              _ _ Hf Hl) as (_ & K & _).
  exact (K _ Hc).
Defined.

Lemma sample_summary :
  (train_models Samples.twelve_tasks ConstantModels.fresh).2
  = Ok (Report Samples.summary).
Proof. apply report_of_Ok. vm_compute. reflexivity. Qed.

Lemma training_summary_names_witness :
  features_used Samples.summary = feature_columns Samples.trained.
Proof.
  exact (proj1 (training_summary_names Samples.twelve_tasks ConstantModels.fresh
                  _ sample_summary)).
Defined.

Lemma recommendation_by_predicted_delay_witness :
  recommendation Samples.prediction
  = get_recommendation (15 * predicted_delay_days Samples.prediction)
                       (predicted_delay_days Samples.prediction).
Proof.
  exact (proj1 (recommendation_by_predicted_delay Samples.trained Samples.request
                  _ (f_equal snd sample_prediction))).
Defined.

Lemma overdue_iff_due_date_passed_witness :
  at_col (Samples.first_row Samples.processed_tasks) "is_overdue" = Num 0.
Proof.
  assert (H : DataLoader.process_tasks_data Samples.json_array_len Samples.today
                (Samples.task_rows 40 20) = Ok Samples.processed_tasks)
    by (unfold Samples.processed_tasks; apply get_Ok; vm_compute; reflexivity).
  assert (Hr : Samples.first_row Samples.processed_tasks ∈ rows Samples.processed_tasks)
    by (apply first_row_elem; vm_compute; discriminate).
  assert (Hd : at_col (Samples.first_row Samples.processed_tasks) "due_date" = Num 20010)
    by (vm_compute; reflexivity).
  assert (Hn : (Samples.today <= 20010)%Q) by discriminate.
  destruct (proj2 (overdue_iff_due_date_passed _ _ _ _ _ H Hr) 20010%Q Hd) as (_ & _ & K).
  exact (K Hn).
Defined.

Lemma loaded_delays_labelled_witness :
  exists lab,
    lab ∈ delay_labels
    /\ at_col (Samples.first_row (Samples.labeled_of Samples.loaded)) "delay_category"
       = Str lab.
Proof.
  assert (H : DataLoader.get_comprehensive_dataset Samples.json_array_len Samples.today
                Samples.store = Ok Samples.loaded)
    by (unfold Samples.loaded; apply get_Ok; vm_compute; reflexivity).
  assert (Hf : prepare_features Samples.loaded = Ok (Samples.features_of Samples.loaded))
    by (apply sample_features; vm_compute; reflexivity).
  assert (Hl : create_delay_labels (Samples.features_of Samples.loaded)
               = Ok (Samples.labeled_of Samples.loaded))
    by (apply sample_labels; vm_compute; reflexivity).
  assert (Hr : Samples.first_row (Samples.labeled_of Samples.loaded)
               ∈ rows (Samples.labeled_of Samples.loaded))
    by (apply first_row_elem; vm_compute; discriminate).
  destruct (loaded_delays_labelled _ _ _ _ _ _ _ H Hf Hl Hr) as (d & _ & _ & K & _).
  exact K.
Defined.

Lemma status_counts_positive_witness :
  Forall (fun kn => is_null kn.1 = false
                    /\ (1 <= kn.2 <= total_tasks (Samples.analysis_of Samples.four_days_late))%nat)
         (tasks_by_status (Samples.analysis_of Samples.four_days_late)).
Proof.
  assert (H : analyze_project_risks Samples.four_days_late None
              = Ok (Report (Samples.analysis_of Samples.four_days_late)))
    by (apply sample_analysis; vm_compute; reflexivity).
  exact (status_counts_positive _ _ _ H).
Defined.
